(** * Picker-Scheduler: the scheduling core, embedded and verified

    A shallow embedding of the backend services of the picker scheduler
    (compliance engine, shift lifecycle routes, schedule routes, optimizer,
    labor standards and forecaster), followed by the properties proved about
    them.

    Conventions of the embedding.
    - A [date] is the proleptic Gregorian ordinal of Python's
      [date.toordinal()]; [d + timedelta(days=n)] is [d + n] and
      [d.weekday()] is [(d + 6) mod 7] (ordinal 1 is a Monday).
    - A [time] is the number of seconds since midnight; [t.hour] is
      [t / 3600].  Comparison of times is comparison of those numbers.
    - Hours of a shift are rationals ([Q]): the source computes them in
      binary floating point from whole seconds and whole minutes with
      [+], [-] and [/]; the embedding keeps the exact value.
    - Order volumes are reals ([R]): the forecaster takes square roots and
      real powers of them; the embedding keeps the exact value.  Where a
      property depends on the rounding of Python's [float], it is stated
      over the module [Binary64], which embeds the forecasting methods
      on IEEE 754 binary64 values.
    - A table is the list of its rows in the order a query returns them;
      [.first()] is the head of the filtered list.
    - [HTTPException] and Python exceptions are the [Err] case of
      [result]. *)

From Stdlib Require Import String ZArith QArith Qround Bool Lia Lra Reals List.
From Stdlib Require PrimFloat FloatOps SpecFloat.
Import ListNotations.

Local Open Scope Z_scope.

(** ** Dates and times *)

Definition date := Z.
Definition time := Z.

Definition weekday (d : date) : Z := (d + 6) mod 7.

Definition time_of_hour (h : Z) : time := h * 3600.

Definition hour_of (t : time) : Z := t / 3600.

(** ** Results of fallible operations *)

Inductive result (E A : Type) : Type :=
| Ok (a : A)
| Err (e : E).

Arguments Ok {E A} a.
Arguments Err {E A} e.

Definition bind {E A B : Type} (r : result E A) (k : A -> result E B)
  : result E B :=
  match r with
  | Ok a => k a
  | Err e => Err e
  end.

Notation "x <- r ;; k" := (bind r (fun x => k))
  (at level 61, r at next level, right associativity).

(** ** Settings (app/config.py) *)

Definition max_hours_per_week : Z := 44.
Definition max_hours_per_day : Z := 8.
Definition days_on_per_week : Z := 6.
Definition break_minutes_8hr_shift : Z := 30.
Definition break_minutes_9hr_shift : Z := 60.
Definition store_open_hour : Z := 8.
Definition store_close_hour : Z := 22.
Definition default_min_shift_hours : Z := 4.
Definition default_max_shift_hours : Z := 8.

(** ** Rows of the scheduling tables (app/models) *)

Inductive EmployeeStatus := ACTIVE | INACTIVE | ON_LEAVE.

Inductive TimeOffStatus := TO_PENDING | TO_APPROVED | TO_DENIED | TO_CANCELLED.

Inductive ScheduleStatus := DRAFT | PUBLISHED | ARCHIVED.

Inductive ShiftStatus := SCHEDULED | CALLED_OUT | COVERED | NO_SHOW.

Inductive SwapStatus :=
  SW_PENDING | SW_ACCEPTED | SW_APPROVED | SW_DENIED | SW_CANCELLED.

Inductive NotificationType :=
  SCHEDULE_PUBLISHED | SHIFT_ASSIGNED | SHIFT_CHANGED | SWAP_REQUESTED
| SWAP_APPROVED.

Record Store := mkStore {
  st_id : Z;
  operating_start : option time;
  operating_end : option time
}.

Record Employee := mkEmployee {
  emp_id : Z;
  emp_user_id : Z;
  emp_store_id : Z;
  emp_status : EmployeeStatus
}.

Record Availability := mkAvailability {
  av_employee_id : Z;
  av_day_of_week : Z;
  is_available : bool;
  preferred_start : option time;
  preferred_end : option time
}.

Record TimeOffRequest := mkTimeOff {
  to_id : Z;
  to_employee_id : Z;
  to_start_date : date;
  to_end_date : date;
  to_status : TimeOffStatus
}.

Record Schedule := mkSchedule {
  sc_id : Z;
  sc_store_id : Z;
  week_start_date : date;
  sc_status : ScheduleStatus;
  created_by : Z;
  published_at : option Z
}.

(** [sh_id] is [None] for a shift object that was built but not yet
    inserted (the one [create_shift] hands to the compliance engine). *)
Record Shift := mkShift {
  sh_id : option Z;
  sh_schedule_id : Z;
  sh_employee_id : Z;
  sh_date : date;
  start_time : time;
  end_time : time;
  break_minutes : Z;
  sh_status : ShiftStatus;
  callout_reason : option string;
  callout_time : option Z;
  original_employee_id : option Z;
  covered_by_id : option Z
}.

Record ShiftSwap := mkSwap {
  sw_id : Z;
  requester_shift_id : Z;
  requested_shift_id : option Z;
  sw_status : SwapStatus;
  approved_by : option Z;
  approved_at : option Z
}.

Record Notification := mkNotification {
  nt_user_id : Z;
  nt_type : NotificationType
}.

(** The persisted state the scheduling code reads and writes. *)
Record DB := mkDB {
  stores : list Store;
  employees : list Employee;
  availabilities : list Availability;
  time_off_requests : list TimeOffRequest;
  schedules : list Schedule;
  shifts : list Shift;
  shift_swaps : list ShiftSwap;
  notifications : list Notification
}.

Definition empty_db : DB := mkDB [] [] [] [] [] [] [] [].

(** *** Decidable equalities on the enumerations *)

Definition EmployeeStatus_eqb (a b : EmployeeStatus) : bool :=
  match a, b with
  | ACTIVE, ACTIVE | INACTIVE, INACTIVE | ON_LEAVE, ON_LEAVE => true
  | _, _ => false
  end.

Definition TimeOffStatus_eqb (a b : TimeOffStatus) : bool :=
  match a, b with
  | TO_PENDING, TO_PENDING | TO_APPROVED, TO_APPROVED
  | TO_DENIED, TO_DENIED | TO_CANCELLED, TO_CANCELLED => true
  | _, _ => false
  end.

Definition ScheduleStatus_eqb (a b : ScheduleStatus) : bool :=
  match a, b with
  | DRAFT, DRAFT | PUBLISHED, PUBLISHED | ARCHIVED, ARCHIVED => true
  | _, _ => false
  end.

Definition ShiftStatus_eqb (a b : ShiftStatus) : bool :=
  match a, b with
  | SCHEDULED, SCHEDULED | CALLED_OUT, CALLED_OUT
  | COVERED, COVERED | NO_SHOW, NO_SHOW => true
  | _, _ => false
  end.

Definition SwapStatus_eqb (a b : SwapStatus) : bool :=
  match a, b with
  | SW_PENDING, SW_PENDING | SW_ACCEPTED, SW_ACCEPTED
  | SW_APPROVED, SW_APPROVED | SW_DENIED, SW_DENIED
  | SW_CANCELLED, SW_CANCELLED => true
  | _, _ => false
  end.

(** *** Small query helpers *)

(** Python truthiness of an optional integer column: [None] and [0] are
    false. *)
Definition truthy (o : option Z) : bool :=
  match o with
  | Some i => negb (i =? 0)
  | None => false
  end.

Definition opt_Z_eqb (a b : option Z) : bool :=
  match a, b with
  | Some x, Some y => x =? y
  | None, None => true
  | _, _ => false
  end.

(** [query(...).filter(...).first()] *)
Definition first {A : Type} (p : A -> bool) (rows : list A) : option A :=
  find p rows.

Definition schedule_by_id (db : DB) (sid : Z) : option Schedule :=
  first (fun sc => sc_id sc =? sid) (schedules db).

Definition shift_by_id (db : DB) (i : Z) : option Shift :=
  first (fun sh => opt_Z_eqb (sh_id sh) (Some i)) (shifts db).

Definition employee_by_id (db : DB) (i : Z) : option Employee :=
  first (fun e => emp_id e =? i) (employees db).

Definition store_by_id (db : DB) (i : Z) : option Store :=
  first (fun s => st_id s =? i) (stores db).

(** [query(Shift).join(Schedule)]: the inner join keeps the shifts whose
    schedule row exists. *)
Definition join_Schedule (db : DB) : list Shift :=
  filter (fun sh => existsb (fun sc => sc_id sc =? sh_schedule_id sh)
                      (schedules db))
         (shifts db).

(** Next value of an auto-increment primary key. *)
Definition next_id (ids : list Z) : Z := 1 + fold_right Z.max 0 ids.

Definition some_ids (l : list (option Z)) : list Z :=
  flat_map (fun o => match o with Some i => [i] | None => [] end) l.

(** ** Rational helpers *)

Definition Qleb (a b : Q) : bool := Qle_bool a b.
Definition Qltb (a b : Q) : bool := negb (Qle_bool b a).

Definition Qsum (l : list Q) : Q := fold_left Qplus l (0 # 1)%Q.

Definition Qmaxq (a b : Q) : Q := if Qltb a b then b else a.

(** ** Compliance engine (app/services/compliance.py)

    A finding keeps the fields the engine's logic reads: its type, its
    severity, the employee and the date.  The message, the employee name
    and the [details] map are presentation data built from the same
    values and are not modelled. *)

Inductive ViolationType :=
  WEEKLY_HOURS_EXCEEDED | DAILY_HOURS_EXCEEDED | CONSECUTIVE_DAYS_EXCEEDED
| INSUFFICIENT_BREAK | OUTSIDE_OPERATING_HOURS | TIME_OFF_CONFLICT
| AVAILABILITY_CONFLICT | SHIFT_OVERLAP.

Inductive SeverityLevel := ERROR | WARNING | INFO.

Record ComplianceViolation := mkViolation {
  v_type : ViolationType;
  severity : SeverityLevel;
  v_employee_id : Z;
  v_date : option date
}.

Record ComplianceResult := mkResult {
  is_compliant : bool;
  violations : list ComplianceViolation;
  warnings : list ComplianceViolation;
  info : list ComplianceViolation
}.

Definition ViolationType_eqb (a b : ViolationType) : bool :=
  match a, b with
  | WEEKLY_HOURS_EXCEEDED, WEEKLY_HOURS_EXCEEDED
  | DAILY_HOURS_EXCEEDED, DAILY_HOURS_EXCEEDED
  | CONSECUTIVE_DAYS_EXCEEDED, CONSECUTIVE_DAYS_EXCEEDED
  | INSUFFICIENT_BREAK, INSUFFICIENT_BREAK
  | OUTSIDE_OPERATING_HOURS, OUTSIDE_OPERATING_HOURS
  | TIME_OFF_CONFLICT, TIME_OFF_CONFLICT
  | AVAILABILITY_CONFLICT, AVAILABILITY_CONFLICT
  | SHIFT_OVERLAP, SHIFT_OVERLAP => true
  | _, _ => false
  end.

Definition SeverityLevel_eqb (a b : SeverityLevel) : bool :=
  match a, b with
  | ERROR, ERROR | WARNING, WARNING | INFO, INFO => true
  | _, _ => false
  end.

(** Elapsed seconds of a shift:
    [(datetime.combine(date, end) - datetime.combine(date, start))
     .total_seconds()]. *)
Definition total_seconds (sh : Shift) : Z := end_time sh - start_time sh.

Definition _get_shift_duration_hours (sh : Shift) : Q :=
  let total_minutes := (inject_Z (total_seconds sh) / 60)%Q in
  let working_minutes := (total_minutes - inject_Z (break_minutes sh))%Q in
  (working_minutes / 60)%Q.

Definition _get_shift_total_hours (sh : Shift) : Q :=
  (inject_Z (total_seconds sh) / 3600)%Q.

Definition in_week (week_start d : date) : bool :=
  (week_start <=? d) && (d <=? week_start + 6).

Definition employee_week_shifts (db : DB) (employee_id : Z)
  (week_start : date) : list Shift :=
  filter (fun sh => (sh_employee_id sh =? employee_id)
                    && in_week week_start (sh_date sh))
         (join_Schedule db).

Definition employee_day_shifts (db : DB) (employee_id : Z)
  (target_date : date) : list Shift :=
  filter (fun sh => (sh_employee_id sh =? employee_id)
                    && (sh_date sh =? target_date))
         (join_Schedule db).

Definition validate_weekly_hours (db : DB) (employee_id : Z)
  (week_start : date) (proposed_shifts : list Shift)
  : list ComplianceViolation :=
  let existing_shifts := employee_week_shifts db employee_id week_start in
  let total_hours := Qsum (map _get_shift_duration_hours existing_shifts) in
  let total_hours :=
    fold_left Qplus
      (map _get_shift_duration_hours
         (filter (fun sh => in_week week_start (sh_date sh)) proposed_shifts))
      total_hours in
  if Qltb (inject_Z max_hours_per_week) total_hours then
    [mkViolation WEEKLY_HOURS_EXCEEDED ERROR employee_id None]
  else if Qltb (inject_Z (max_hours_per_week - 4)) total_hours then
    [mkViolation WEEKLY_HOURS_EXCEEDED WARNING employee_id None]
  else [].

Definition validate_daily_hours (db : DB) (employee_id : Z)
  (target_date : date) (proposed_shift : option Shift)
  : list ComplianceViolation :=
  let existing_shifts := employee_day_shifts db employee_id target_date in
  let total_hours := Qsum (map _get_shift_duration_hours existing_shifts) in
  let total_hours :=
    match proposed_shift with
    | Some p =>
        if sh_date p =? target_date
        then (total_hours + _get_shift_duration_hours p)%Q
        else total_hours
    | None => total_hours
    end in
  if Qltb (inject_Z max_hours_per_day) total_hours then
    [mkViolation DAILY_HOURS_EXCEEDED ERROR employee_id (Some target_date)]
  else [].

Definition validate_consecutive_days (db : DB) (employee_id : Z)
  (week_start : date) (proposed_shifts : list Shift)
  : list ComplianceViolation :=
  let existing_shifts := employee_week_shifts db employee_id week_start in
  let work_dates :=
    nodup Z.eq_dec
      (map sh_date existing_shifts
       ++ map sh_date
            (filter (fun sh => in_week week_start (sh_date sh))
               proposed_shifts)) in
  let days_worked := Z.of_nat (length work_dates) in
  if days_on_per_week <? days_worked then
    [mkViolation CONSECUTIVE_DAYS_EXCEEDED ERROR employee_id None]
  else [].

Definition required_break_for (total_hours : Q) : Z :=
  if Qleb 9 total_hours then break_minutes_9hr_shift
  else if Qleb 8 total_hours then break_minutes_8hr_shift
  else 0.

Definition validate_break_requirements (sh : Shift)
  : list ComplianceViolation :=
  let total_hours := _get_shift_total_hours sh in
  let required_break := required_break_for total_hours in
  if break_minutes sh <? required_break then
    [mkViolation INSUFFICIENT_BREAK ERROR (sh_employee_id sh)
       (Some (sh_date sh))]
  else [].

Definition approved_time_off_on (db : DB) (employee_id : Z)
  (target_date : date) : option TimeOffRequest :=
  first (fun r => (to_employee_id r =? employee_id)
                  && TimeOffStatus_eqb (to_status r) TO_APPROVED
                  && (to_start_date r <=? target_date)
                  && (target_date <=? to_end_date r))
        (time_off_requests db).

Definition validate_time_off_conflicts (db : DB) (employee_id : Z)
  (target_date : date) : list ComplianceViolation :=
  match approved_time_off_on db employee_id target_date with
  | Some _ =>
      [mkViolation TIME_OFF_CONFLICT ERROR employee_id (Some target_date)]
  | None => []
  end.

Definition availability_for (db : DB) (employee_id day_of_week : Z)
  : option Availability :=
  first (fun a => (av_employee_id a =? employee_id)
                  && (av_day_of_week a =? day_of_week))
        (availabilities db).

Definition validate_availability (db : DB) (employee_id : Z)
  (target_date : date) (start_t end_t : time) : list ComplianceViolation :=
  match availability_for db employee_id (weekday target_date) with
  | Some a =>
      if negb (is_available a) then
        [mkViolation AVAILABILITY_CONFLICT WARNING employee_id
           (Some target_date)]
      else []
  | None => []
  end.

Definition overlaps (start_t end_t : time) (existing : Shift) : bool :=
  negb ((end_t <=? start_time existing) || (end_time existing <=? start_t)).

Definition validate_shift_overlap (db : DB) (employee_id : Z)
  (target_date : date) (start_t end_t : time) (exclude_shift_id : option Z)
  : list ComplianceViolation :=
  let query := employee_day_shifts db employee_id target_date in
  let existing_shifts :=
    if truthy exclude_shift_id
    then filter (fun sh => negb (opt_Z_eqb (sh_id sh) exclude_shift_id)) query
    else query in
  flat_map
    (fun existing =>
       if overlaps start_t end_t existing then
         [mkViolation SHIFT_OVERLAP ERROR employee_id (Some target_date)]
       else [])
    existing_shifts.

Definition with_severity (s : SeverityLevel) (l : list ComplianceViolation)
  : list ComplianceViolation :=
  filter (fun v => SeverityLevel_eqb (severity v) s) l.

Definition categorize (all_violations : list ComplianceViolation)
  : ComplianceResult :=
  let errors := with_severity ERROR all_violations in
  mkResult (Nat.eqb (length errors) 0) errors
    (with_severity WARNING all_violations)
    (with_severity INFO all_violations).

(** The seven checks [validate_shift] runs, in its order. *)
Definition shift_findings (db : DB) (sh : Shift) (week_start : date)
  : list ComplianceViolation :=
  validate_daily_hours db (sh_employee_id sh) (sh_date sh) (Some sh)
  ++ validate_weekly_hours db (sh_employee_id sh) week_start [sh]
  ++ validate_consecutive_days db (sh_employee_id sh) week_start [sh]
  ++ validate_break_requirements sh
  ++ validate_time_off_conflicts db (sh_employee_id sh) (sh_date sh)
  ++ validate_availability db (sh_employee_id sh) (sh_date sh)
       (start_time sh) (end_time sh)
  ++ validate_shift_overlap db (sh_employee_id sh) (sh_date sh)
       (start_time sh) (end_time sh)
       (if truthy (sh_id sh) then sh_id sh else None).

Definition validate_shift (db : DB) (sh : Shift) (week_start : option date)
  : ComplianceResult :=
  let week_start :=
    match week_start with
    | Some w => w
    | None => sh_date sh - weekday (sh_date sh)
    end in
  categorize (shift_findings db sh week_start).

(** Grouping of the schedule's shifts in a dict keyed by employee: keys in
    order of first insertion, each value in query order. *)
Fixpoint group_add (sh : Shift) (groups : list (Z * list Shift))
  : list (Z * list Shift) :=
  match groups with
  | [] => [(sh_employee_id sh, [sh])]
  | (e, l) :: rest =>
      if e =? sh_employee_id sh then (e, l ++ [sh]) :: rest
      else (e, l) :: group_add sh rest
  end.

Definition group_by_employee (l : list Shift) : list (Z * list Shift) :=
  fold_left (fun groups sh => group_add sh groups) l [].

Definition violation_key (v : ComplianceViolation)
  : ViolationType * Z * option date :=
  (v_type v, v_employee_id v, v_date v).

Definition key_eqb (a b : ViolationType * Z * option date) : bool :=
  let '(t1, e1, d1) := a in
  let '(t2, e2, d2) := b in
  ViolationType_eqb t1 t2 && (e1 =? e2) && opt_Z_eqb d1 d2.

Fixpoint deduplicate (seen : list (ViolationType * Z * option date))
  (l : list ComplianceViolation) : list ComplianceViolation :=
  match l with
  | [] => []
  | v :: rest =>
      if existsb (key_eqb (violation_key v)) seen
      then deduplicate seen rest
      else v :: deduplicate (violation_key v :: seen) rest
  end.

Definition schedule_shifts (db : DB) (schedule_id : Z) : list Shift :=
  filter (fun sh => sh_schedule_id sh =? schedule_id) (shifts db).

(** The checks [validate_schedule] runs for one employee of the schedule. *)
Definition employee_findings (db : DB) (week_start : date)
  (group : Z * list Shift) : list ComplianceViolation :=
  let '(employee_id, emp_shifts) := group in
  validate_weekly_hours db employee_id week_start []
  ++ validate_consecutive_days db employee_id week_start []
  ++ flat_map
       (fun sh =>
          validate_daily_hours db employee_id (sh_date sh) None
          ++ validate_break_requirements sh
          ++ validate_time_off_conflicts db employee_id (sh_date sh)
          ++ validate_availability db employee_id (sh_date sh)
               (start_time sh) (end_time sh))
       emp_shifts.

Definition schedule_findings (db : DB) (sc : Schedule)
  : list ComplianceViolation :=
  flat_map (employee_findings db (week_start_date sc))
    (group_by_employee (schedule_shifts db (sc_id sc))).

Definition validate_schedule (db : DB) (schedule_id : Z) : ComplianceResult :=
  match schedule_by_id db schedule_id with
  | None =>
      mkResult false [mkViolation WEEKLY_HOURS_EXCEEDED ERROR 0 None] [] []
  | Some sc =>
      categorize (deduplicate [] (schedule_findings db sc))
  end.

Definition get_required_break_minutes (shift_hours : Q) : Z :=
  if Qleb 9 shift_hours then break_minutes_9hr_shift
  else if Qleb 8 shift_hours then break_minutes_8hr_shift
  else 0.

(** ** HTTP errors raised by the routes *)

Inductive HTTPException :=
| HTTP_400
| HTTP_403
| HTTP_404
| HTTP_409 (warnings_ : list ComplianceViolation)
| HTTP_422 (violations_ warnings_ : list ComplianceViolation)
| HTTP_500.

Definition http (A : Type) := result HTTPException A.

(** *** Attribute assignment on rows *)

Definition set_employee_id (sh : Shift) (e : Z) : Shift :=
  mkShift (sh_id sh) (sh_schedule_id sh) e (sh_date sh) (start_time sh)
    (end_time sh) (break_minutes sh) (sh_status sh) (callout_reason sh)
    (callout_time sh) (original_employee_id sh) (covered_by_id sh).

Definition set_date (sh : Shift) (d : date) : Shift :=
  mkShift (sh_id sh) (sh_schedule_id sh) (sh_employee_id sh) d (start_time sh)
    (end_time sh) (break_minutes sh) (sh_status sh) (callout_reason sh)
    (callout_time sh) (original_employee_id sh) (covered_by_id sh).

Definition set_start_time (sh : Shift) (t : time) : Shift :=
  mkShift (sh_id sh) (sh_schedule_id sh) (sh_employee_id sh) (sh_date sh) t
    (end_time sh) (break_minutes sh) (sh_status sh) (callout_reason sh)
    (callout_time sh) (original_employee_id sh) (covered_by_id sh).

Definition set_end_time (sh : Shift) (t : time) : Shift :=
  mkShift (sh_id sh) (sh_schedule_id sh) (sh_employee_id sh) (sh_date sh)
    (start_time sh) t (break_minutes sh) (sh_status sh) (callout_reason sh)
    (callout_time sh) (original_employee_id sh) (covered_by_id sh).

Definition set_break_minutes (sh : Shift) (b : Z) : Shift :=
  mkShift (sh_id sh) (sh_schedule_id sh) (sh_employee_id sh) (sh_date sh)
    (start_time sh) (end_time sh) b (sh_status sh) (callout_reason sh)
    (callout_time sh) (original_employee_id sh) (covered_by_id sh).

Definition set_id (sh : Shift) (i : Z) : Shift :=
  mkShift (Some i) (sh_schedule_id sh) (sh_employee_id sh) (sh_date sh)
    (start_time sh) (end_time sh) (break_minutes sh) (sh_status sh)
    (callout_reason sh) (callout_time sh) (original_employee_id sh)
    (covered_by_id sh).

Definition set_callout (sh : Shift) (s : ShiftStatus)
  (reason : option string) (at_ : option Z) (original covered : option Z)
  : Shift :=
  mkShift (sh_id sh) (sh_schedule_id sh) (sh_employee_id sh) (sh_date sh)
    (start_time sh) (end_time sh) (break_minutes sh) s reason at_ original
    covered.

Definition set_schedule_status (sc : Schedule) (s : ScheduleStatus)
  (at_ : option Z) : Schedule :=
  mkSchedule (sc_id sc) (sc_store_id sc) (week_start_date sc) s
    (created_by sc) at_.

(** *** Writes to the tables *)

Definition with_shifts (db : DB) (l : list Shift) : DB :=
  mkDB (stores db) (employees db) (availabilities db) (time_off_requests db)
    (schedules db) l (shift_swaps db) (notifications db).

Definition with_schedules (db : DB) (l : list Schedule) : DB :=
  mkDB (stores db) (employees db) (availabilities db) (time_off_requests db)
    l (shifts db) (shift_swaps db) (notifications db).

Definition with_shift_swaps (db : DB) (l : list ShiftSwap) : DB :=
  mkDB (stores db) (employees db) (availabilities db) (time_off_requests db)
    (schedules db) (shifts db) l (notifications db).

Definition add_notification (db : DB) (n : Notification) : DB :=
  mkDB (stores db) (employees db) (availabilities db) (time_off_requests db)
    (schedules db) (shifts db) (shift_swaps db) (notifications db ++ [n]).

(** The row with primary key [i] is replaced by the object [sh]. *)
Definition update_shift_row (db : DB) (i : Z) (sh : Shift) : DB :=
  with_shifts db
    (map (fun row => if opt_Z_eqb (sh_id row) (Some i) then sh else row)
       (shifts db)).

Definition update_schedule_row (db : DB) (sc : Schedule) : DB :=
  with_schedules db
    (map (fun row => if sc_id row =? sc_id sc then sc else row)
       (schedules db)).

Definition next_shift_id (db : DB) : Z :=
  next_id (some_ids (map sh_id (shifts db))).

Definition insert_shift (db : DB) (sh : Shift) : DB * Shift :=
  let row := set_id sh (next_shift_id db) in
  (with_shifts db (shifts db ++ [row]), row).

(** ** Shift routes (app/api/routes/shifts.py) *)

Record ShiftCreate := mkShiftCreate {
  c_employee_id : Z;
  c_date : date;
  c_start_time : time;
  c_end_time : time;
  c_break_minutes : Z;
  c_schedule_id : Z
}.

(** A field of [ShiftUpdate] is [Some v] when the request sets it to [v]
    and [None] when the request leaves it out ([exclude_unset]). *)
Record ShiftUpdate := mkShiftUpdate {
  u_employee_id : option Z;
  u_date : option date;
  u_start_time : option time;
  u_end_time : option time;
  u_break_minutes : option Z
}.

(** The break adjustment both routes share:
    [required_break = get_required_break_minutes(total_hours)], then
    [if shift.break_minutes < required_break: shift.break_minutes =
    required_break]. *)
Definition auto_break (sh : Shift) : Shift :=
  let total_hours := (inject_Z (total_seconds sh) / 3600)%Q in
  let required_break := get_required_break_minutes total_hours in
  if break_minutes sh <? required_break
  then set_break_minutes sh required_break
  else sh.

(** The compliance gate both routes (and publish) share: errors block
    with 422, warnings block with 409 unless [force]. *)
Definition compliance_gate (r : ComplianceResult) (force : bool)
  : http unit :=
  if negb (is_compliant r) then Err (HTTP_422 (violations r) (warnings r))
  else if negb (Nat.eqb (length (warnings r)) 0) && negb force
       then Err (HTTP_409 (warnings r))
       else Ok tt.

Definition create_shift (db : DB) (shift_data : ShiftCreate)
  (validate force : bool) : http (DB * Shift) :=
  match schedule_by_id db (c_schedule_id shift_data) with
  | None => Err HTTP_404
  | Some _ =>
      let shift :=
        mkShift None (c_schedule_id shift_data) (c_employee_id shift_data)
          (c_date shift_data) (c_start_time shift_data)
          (c_end_time shift_data) (c_break_minutes shift_data) SCHEDULED
          None None None None in
      let shift := auto_break shift in
      _ <- (if validate
            then compliance_gate (validate_shift db shift None) force
            else Ok tt) ;;
      Ok (insert_shift db shift)
  end.

Definition apply_update (sh : Shift) (u : ShiftUpdate) : Shift :=
  let sh := match u_employee_id u with
            | Some e => set_employee_id sh e | None => sh end in
  let sh := match u_date u with
            | Some d => set_date sh d | None => sh end in
  let sh := match u_start_time u with
            | Some t => set_start_time sh t | None => sh end in
  let sh := match u_end_time u with
            | Some t => set_end_time sh t | None => sh end in
  match u_break_minutes u with
  | Some b => set_break_minutes sh b | None => sh end.

Definition is_set {A : Type} (o : option A) : bool :=
  match o with Some _ => true | None => false end.

(** The engine's queries run in the session that holds the modified row:
    the pending attribute changes are flushed before each query, so the
    engine reads the table with the row already updated.  On a blocked
    update the route rolls back and the table is left as it was. *)
Definition update_shift (db : DB) (shift_id : Z) (shift_data : ShiftUpdate)
  (validate force : bool) : http (DB * Shift) :=
  match shift_by_id db shift_id with
  | None => Err HTTP_404
  | Some shift =>
      let shift := apply_update shift shift_data in
      let shift :=
        if is_set (u_start_time shift_data) || is_set (u_end_time shift_data)
        then auto_break shift
        else shift in
      let db' := update_shift_row db shift_id shift in
      _ <- (if validate
            then compliance_gate (validate_shift db' shift None) force
            else Ok tt) ;;
      Ok (db', shift)
  end.

(** *** Call-out management *)

Definition MAX_WEEKLY_HOURS : Z := 44.

Definition get_week_start (d : date) : date := d - weekday d.

(** [Shift.duration_hours] (app/models/shift.py) *)
Definition duration_hours (sh : Shift) : Q :=
  let total_minutes := (inject_Z (total_seconds sh) / 60)%Q in
  let working_minutes := (total_minutes - inject_Z (break_minutes sh))%Q in
  (working_minutes / 60)%Q.

Definition counts_for_week (s : ShiftStatus) : bool :=
  ShiftStatus_eqb s SCHEDULED || ShiftStatus_eqb s COVERED.

Definition week_hours_rows (db : DB) (employee_id : Z) (week_start : date)
  : list Shift :=
  filter (fun sh => (sh_employee_id sh =? employee_id)
                    && (week_start <=? sh_date sh)
                    && (sh_date sh <=? week_start + 6)
                    && counts_for_week (sh_status sh))
         (shifts db).

(** The weekly total as an exact rational.  The source accumulates the
    durations as binary64 values in the order of the rows; properties
    stated with this total compare sums over the same rows or use its
    value only through the comparisons the code makes. *)
Definition get_employee_week_hours (db : DB) (employee_id : Z)
  (week_start : date) : Q :=
  fold_left (fun total_hours sh => (total_hours + duration_hours sh)%Q)
    (week_hours_rows db employee_id week_start) (0 # 1)%Q.

Definition mark_callout (db : DB) (now : Z) (shift_id : Z)
  (reason : option string) : http (DB * Shift) :=
  match shift_by_id db shift_id with
  | None => Err HTTP_404
  | Some shift =>
      if negb (ShiftStatus_eqb (sh_status shift) SCHEDULED) then Err HTTP_400
      else
        let shift :=
          set_callout shift CALLED_OUT reason (Some now)
            (Some (sh_employee_id shift)) (covered_by_id shift) in
        Ok (update_shift_row db shift_id shift, shift)
  end.

(** Python's [round(x, ndigits)] on the exact value: ties go to the even
    neighbour. *)
Definition round_half_even (q : Q) : Z :=
  let f := Qfloor q in
  match Qcompare (q - inject_Z f) (1 # 2) with
  | Lt => f
  | Gt => f + 1
  | Eq => if Z.even f then f else f + 1
  end.

Definition py_round (q : Q) (ndigits : nat) : Q :=
  let scale := inject_Z (10 ^ Z.of_nat ndigits) in
  (inject_Z (round_half_even (q * scale)) / scale)%Q.

(** Stable sort by a key order, as [list.sort(key=...)]. *)
Fixpoint insert_sorted {A : Type} (leb : A -> A -> bool) (x : A)
  (l : list A) : list A :=
  match l with
  | [] => [x]
  | y :: rest =>
      if leb y x then y :: insert_sorted leb x rest else x :: y :: rest
  end.

Definition sort_by {A : Type} (leb : A -> A -> bool) (l : list A) : list A :=
  fold_left (fun acc x => insert_sorted leb x acc) l [].

Inductive AvailabilityNote :=
  NoteAvailable | NoteAlreadyWorking | NoteOnTimeOff | NoteNotAvailable
| NoteOverHoursLimit.

Inductive CandidateConflict :=
  AlreadyScheduled | OnApprovedTimeOff | MarkedUnavailable
| OutsidePreferredHours | WouldExceedLimit.

Record ReplacementCandidate := mkCandidate {
  rc_employee_id : Z;
  rc_is_available : bool;
  availability_note : AvailabilityNote;
  current_week_hours : Q;
  remaining_hours : Q;
  conflicts : list CandidateConflict
}.

(** The body of the loop of [find_replacements] for one employee. *)
Definition replacement_candidate (db : DB) (shift : Shift) (shift_id : Z)
  (emp : Employee) : ReplacementCandidate :=
  let shift_date := sh_date shift in
  let shift_hours := duration_hours shift in
  let day_of_week := weekday shift_date in
  let week_start := get_week_start shift_date in
  let st0 := (true, NoteAvailable, @nil CandidateConflict) in
  let existing_shift :=
    first (fun sh => (sh_employee_id sh =? emp_id emp)
                     && (sh_date sh =? shift_date)
                     && counts_for_week (sh_status sh)
                     && negb (opt_Z_eqb (sh_id sh) (Some shift_id)))
          (shifts db) in
  let st1 :=
    match existing_shift with
    | Some _ => (false, NoteAlreadyWorking, [AlreadyScheduled])
    | None => st0
    end in
  let st2 :=
    match approved_time_off_on db (emp_id emp) shift_date with
    | Some _ => (false, NoteOnTimeOff, snd st1 ++ [OnApprovedTimeOff])
    | None => st1
    end in
  let st3 :=
    match availability_for db (emp_id emp) day_of_week with
    | Some avail =>
        if negb (is_available avail) then
          (false, NoteNotAvailable, snd st2 ++ [MarkedUnavailable])
        else
          match preferred_start avail, preferred_end avail with
          | Some ps, Some pe =>
              if (start_time shift <? ps) || (pe <? end_time shift)
              then (fst st2, snd st2 ++ [OutsidePreferredHours])
              else st2
          | _, _ => st2
          end
    | None => st2
    end in
  let current_week_hours_ :=
    get_employee_week_hours db (emp_id emp) week_start in
  let remaining_hours_ :=
    (inject_Z MAX_WEEKLY_HOURS - current_week_hours_)%Q in
  let st4 :=
    if Qltb (inject_Z MAX_WEEKLY_HOURS) (current_week_hours_ + shift_hours)
    then (false, NoteOverHoursLimit, snd st3 ++ [WouldExceedLimit])
    else st3 in
  mkCandidate (emp_id emp) (fst (fst st4)) (snd (fst st4))
    (py_round current_week_hours_ 1)
    (py_round (Qmaxq 0 remaining_hours_) 1)
    (snd st4).

(** Order of the sort key [(not x.is_available, -x.remaining_hours)]. *)
Definition candidate_leb (a b : ReplacementCandidate) : bool :=
  match negb (rc_is_available a), negb (rc_is_available b) with
  | false, true => true
  | true, false => false
  | _, _ => Qleb (- remaining_hours a) (- remaining_hours b)
  end.

Definition find_replacements (db : DB) (shift_id : Z)
  : http (list ReplacementCandidate) :=
  match shift_by_id db shift_id with
  | None => Err HTTP_404
  | Some shift =>
      if negb (ShiftStatus_eqb (sh_status shift) CALLED_OUT
               || ShiftStatus_eqb (sh_status shift) SCHEDULED)
      then Err HTTP_400
      else
        match schedule_by_id db (sh_schedule_id shift) with
        | None => Err HTTP_500
        | Some schedule =>
            let excluded :=
              if truthy (original_employee_id shift)
              then original_employee_id shift
              else Some (sh_employee_id shift) in
            let emps :=
              filter (fun e => (emp_store_id e =? sc_store_id schedule)
                               && EmployeeStatus_eqb (emp_status e) ACTIVE
                               && negb (opt_Z_eqb (Some (emp_id e)) excluded))
                     (employees db) in
            Ok (sort_by candidate_leb
                  (map (replacement_candidate db shift shift_id) emps))
        end
  end.

Record AssignReplacementResponse := mkAssignResponse {
  ar_shift_id : option Z;
  ar_status : ShiftStatus;
  ar_original_employee_id : Z;
  ar_new_employee_id : Z;
  ar_covered_by_id : Z
}.

Definition assign_replacement (db : DB) (shift_id : Z)
  (replacement_employee_id : Z) (force : bool)
  : http (DB * AssignReplacementResponse) :=
  match shift_by_id db shift_id with
  | None => Err HTTP_404
  | Some shift =>
      if negb (ShiftStatus_eqb (sh_status shift) CALLED_OUT)
      then Err HTTP_400
      else
        match employee_by_id db replacement_employee_id with
        | None => Err HTTP_404
        | Some replacement =>
            match schedule_by_id db (sh_schedule_id shift) with
            | None => Err HTTP_500
            | Some schedule =>
                if negb (emp_store_id replacement =? sc_store_id schedule)
                then Err HTTP_400
                else if negb (EmployeeStatus_eqb (emp_status replacement)
                                ACTIVE)
                then Err HTTP_400
                else
                  let shift_hours := duration_hours shift in
                  let week_start := get_week_start (sh_date shift) in
                  let current_hours :=
                    get_employee_week_hours db (emp_id replacement)
                      week_start in
                  if Qltb (inject_Z MAX_WEEKLY_HOURS)
                       (current_hours + shift_hours)
                     && negb force
                  then Err (HTTP_409 [])
                  else
                    let original_employee_id_ :=
                      if truthy (original_employee_id shift)
                      then match original_employee_id shift with
                           | Some o => o
                           | None => sh_employee_id shift
                           end
                      else sh_employee_id shift in
                    let shift' :=
                      set_callout
                        (set_employee_id shift (emp_id replacement))
                        COVERED (callout_reason shift) (callout_time shift)
                        (if truthy (original_employee_id shift)
                         then original_employee_id shift
                         else Some original_employee_id_)
                        (Some (emp_id replacement)) in
                    let db1 := update_shift_row db shift_id shift' in
                    let db2 :=
                      add_notification db1
                        (mkNotification (emp_user_id replacement)
                           SHIFT_ASSIGNED) in
                    let db3 :=
                      match employee_by_id db original_employee_id_ with
                      | Some original_emp =>
                          if negb (emp_user_id original_emp =? 0)
                          then add_notification db2
                                 (mkNotification (emp_user_id original_emp)
                                    SHIFT_CHANGED)
                          else db2
                      | None => db2
                      end in
                    Ok (db3,
                        mkAssignResponse (sh_id shift') COVERED
                          original_employee_id_ (emp_id replacement)
                          (emp_id replacement))
            end
        end
  end.

Definition revert_callout (db : DB) (shift_id : Z) : http (DB * Shift) :=
  match shift_by_id db shift_id with
  | None => Err HTTP_404
  | Some shift =>
      if ShiftStatus_eqb (sh_status shift) COVERED then Err HTTP_400
      else if negb (ShiftStatus_eqb (sh_status shift) CALLED_OUT)
      then Err HTTP_400
      else
        let shift' :=
          if truthy (original_employee_id shift)
          then match original_employee_id shift with
               | Some o =>
                   set_callout (set_employee_id shift o) SCHEDULED None None
                     None None
               | None => set_callout shift SCHEDULED None None None None
               end
          else set_callout shift SCHEDULED None None
                 (original_employee_id shift) None in
        Ok (update_shift_row db shift_id shift', shift')
  end.

(** ** Schedule routes (app/api/routes/schedules.py) *)

Definition next_schedule_id (db : DB) : Z :=
  next_id (map sc_id (schedules db)).

Definition create_schedule (db : DB) (store_id : Z) (week_start : date)
  (current_user_id : Z) : http (DB * Schedule) :=
  match first (fun sc => (sc_store_id sc =? store_id)
                         && (week_start_date sc =? week_start))
              (schedules db) with
  | Some _ => Err HTTP_400
  | None =>
      let schedule :=
        mkSchedule (next_schedule_id db) store_id week_start DRAFT
          current_user_id None in
      Ok (with_schedules db (schedules db ++ [schedule]), schedule)
  end.

(** The notification loop of [publish_schedule]: one notification per
    distinct [employee_id], addressed to [shift.employee.user_id]. *)
Fixpoint publish_notifications (db : DB) (l : list Shift)
  (notified_employees : list Z) : http DB :=
  match l with
  | [] => Ok db
  | shift :: rest =>
      if existsb (Z.eqb (sh_employee_id shift)) notified_employees
      then publish_notifications db rest notified_employees
      else
        match employee_by_id db (sh_employee_id shift) with
        | None => Err HTTP_500
        | Some e =>
            publish_notifications
              (add_notification db
                 (mkNotification (emp_user_id e) SCHEDULE_PUBLISHED))
              rest (sh_employee_id shift :: notified_employees)
        end
  end.

Definition publish_schedule (db : DB) (now : Z) (schedule_id : Z)
  (validate force : bool) : http (DB * Schedule) :=
  match schedule_by_id db schedule_id with
  | None => Err HTTP_404
  | Some schedule =>
      if ScheduleStatus_eqb (sc_status schedule) PUBLISHED then Err HTTP_400
      else if Nat.eqb (length (schedule_shifts db schedule_id)) 0
      then Err HTTP_400
      else
        _ <- (if validate
              then compliance_gate (validate_schedule db schedule_id) force
              else Ok tt) ;;
        let schedule' := set_schedule_status schedule PUBLISHED (Some now) in
        let db1 := update_schedule_row db schedule' in
        db2 <- publish_notifications db1 (schedule_shifts db1 schedule_id)
                 [] ;;
        Ok (db2, schedule')
  end.

Definition unpublish_schedule (db : DB) (schedule_id : Z)
  : http (DB * Schedule) :=
  match schedule_by_id db schedule_id with
  | None => Err HTTP_404
  | Some schedule =>
      if negb (ScheduleStatus_eqb (sc_status schedule) PUBLISHED)
      then Err HTTP_400
      else
        let schedule' := set_schedule_status schedule DRAFT None in
        Ok (update_schedule_row db schedule', schedule')
  end.

(** Deleting a schedule deletes its shifts (the relationship cascades). *)
Definition delete_schedule (db : DB) (schedule_id : Z) : http DB :=
  match schedule_by_id db schedule_id with
  | None => Err HTTP_404
  | Some schedule =>
      if ScheduleStatus_eqb (sc_status schedule) PUBLISHED then Err HTTP_400
      else
        Ok (with_shifts
              (with_schedules db
                 (filter (fun sc => negb (sc_id sc =? schedule_id))
                    (schedules db)))
              (filter (fun sh => negb (sh_schedule_id sh =? schedule_id))
                 (shifts db)))
  end.

(** ** Applying generated shifts (ScheduleOptimizer.apply_schedule) *)

(** One dictionary of the optimizer's output, with the date and times
    already parsed. *)
Record GeneratedShift := mkGenerated {
  g_employee_id : Z;
  g_date : date;
  g_start_time : time;
  g_end_time : time;
  g_break_minutes : Z
}.

Fixpoint insert_generated (db : DB) (schedule_id : Z)
  (l : list GeneratedShift) : DB * list Shift :=
  match l with
  | [] => (db, [])
  | shift_data :: rest =>
      let '(db1, row) :=
        insert_shift db
          (mkShift None schedule_id (g_employee_id shift_data)
             (g_date shift_data) (g_start_time shift_data)
             (g_end_time shift_data) (g_break_minutes shift_data)
             SCHEDULED None None None None) in
      let '(db2, rows) := insert_generated db1 schedule_id rest in
      (db2, row :: rows)
  end.

Definition apply_schedule (db : DB) (store_id : Z) (week_start : date)
  (shifts_ : list GeneratedShift) (created_by_ : Z)
  : DB * Schedule * list Shift :=
  let existing :=
    first (fun sc => (sc_store_id sc =? store_id)
                     && (week_start_date sc =? week_start)
                     && ScheduleStatus_eqb (sc_status sc) DRAFT)
          (schedules db) in
  let '(db1, schedule) :=
    match existing with
    | Some schedule =>
        (with_shifts db
           (filter (fun sh => negb (sh_schedule_id sh =? sc_id schedule))
              (shifts db)),
         schedule)
    | None =>
        let schedule :=
          mkSchedule (next_schedule_id db) store_id week_start DRAFT
            created_by_ None in
        (with_schedules db (schedules db ++ [schedule]), schedule)
    end in
  let '(db2, created_shifts) :=
    insert_generated db1 (sc_id schedule) shifts_ in
  (db2, schedule, created_shifts).

(** The route [POST /optimizer/apply]. *)
Definition apply_optimized_schedule (db : DB) (store_id : Z)
  (week_start : date) (shifts_ : list GeneratedShift) (current_user_id : Z)
  : http (DB * Z * nat) :=
  match shifts_ with
  | [] => Err HTTP_400
  | _ =>
      let '(db', schedule, created_shifts) :=
        apply_schedule db store_id week_start shifts_ current_user_id in
      Ok (db', sc_id schedule, length created_shifts)
  end.

(** ** Swap approval (app/api/routes/swaps.py) *)

Definition swap_by_id (db : DB) (i : Z) : option ShiftSwap :=
  first (fun sw => sw_id sw =? i) (shift_swaps db).

Definition notify_employee (db : DB) (employee_id : Z)
  (t : NotificationType) : DB :=
  match employee_by_id db employee_id with
  | Some e =>
      if negb (emp_user_id e =? 0)
      then add_notification db (mkNotification (emp_user_id e) t)
      else db
  | None => db
  end.

Definition approve_shift_swap (db : DB) (now : Z) (current_user_id : Z)
  (swap_id : Z) : http (DB * ShiftSwap) :=
  match swap_by_id db swap_id with
  | None => Err HTTP_404
  | Some swap =>
      if negb (SwapStatus_eqb (sw_status swap) SW_ACCEPTED) then Err HTTP_400
      else if negb (truthy (requested_shift_id swap)) then Err HTTP_400
      else
        match shift_by_id db (requester_shift_id swap),
              match requested_shift_id swap with
              | Some i => shift_by_id db i
              | None => None
              end with
        | Some requester_shift, Some requested_shift =>
            let requester_employee_id := sh_employee_id requester_shift in
            let requested_employee_id := sh_employee_id requested_shift in
            (* requester_shift.employee_id = requested_employee_id *)
            let db1 :=
              with_shifts db
                (map (fun row =>
                        if opt_Z_eqb (sh_id row) (sh_id requester_shift)
                        then set_employee_id row requested_employee_id
                        else row)
                   (shifts db)) in
            (* requested_shift.employee_id = requester_employee_id *)
            let db2 :=
              with_shifts db1
                (map (fun row =>
                        if opt_Z_eqb (sh_id row) (sh_id requested_shift)
                        then set_employee_id row requester_employee_id
                        else row)
                   (shifts db1)) in
            let swap' :=
              mkSwap (sw_id swap) (requester_shift_id swap)
                (requested_shift_id swap) SW_APPROVED (Some current_user_id)
                (Some now) in
            let db3 :=
              with_shift_swaps db2
                (map (fun row => if sw_id row =? swap_id then swap' else row)
                   (shift_swaps db2)) in
            let db4 :=
              notify_employee db3 requester_employee_id SWAP_APPROVED in
            let db5 :=
              notify_employee db4 requested_employee_id SWAP_APPROVED in
            Ok (db5, swap')
        | _, _ => Err HTTP_500
        end
  end.

(** ** Forecasting tables *)

Record HistoricalOrder := mkHistorical {
  ho_store_id : Z;
  ho_date : date;
  ho_hour : Z;
  order_count : R;
  ho_day_of_week : option Z
}.

Record OrderForecast := mkOrderForecast {
  of_store_id : Z;
  of_date : date;
  of_hour : Z;
  predicted_orders : R;
  actual_orders : option R
}.

Record LaborStandard := mkLaborStandard {
  ls_store_id : Z;
  orders_per_picker_hour : R;
  min_shift_hours : Z;
  max_shift_hours : Z
}.

Record ForecastDB := mkFDB {
  historical_orders : list HistoricalOrder;
  order_forecasts : list OrderForecast;
  labor_standards : list LaborStandard
}.

(** [IntegrityError] is what the commit of a row that violates a
    database constraint raises. *)
Inductive PyError :=
  ValueError | KeyError | IndexError | StopIteration | IntegrityError.

(** ** Real-number helpers *)

Definition Rsum (l : list R) : R := fold_left Rplus l 0%R.

Definition Rltb (a b : R) : bool := if Rlt_dec a b then true else false.

Definition Req_b (a b : R) : bool := if Req_dec_T a b then true else false.

Definition Rmin3 (a b c : R) : R := Rmin (Rmin a b) c.
Definition Rmax3 (a b c : R) : R := Rmax (Rmax a b) c.

Definition R_round_half_even (y : R) : Z :=
  let f := Int_part y in
  let frac := (y - IZR f)%R in
  if Rlt_dec frac (1 / 2) then f
  else if Rlt_dec (1 / 2) frac then f + 1
  else if Z.even f then f else f + 1.

Definition R_round (x : R) (ndigits : nat) : R :=
  let scale := IZR (10 ^ Z.of_nat ndigits) in
  (IZR (R_round_half_even (x * scale)) / scale)%R.

(** ** Forecaster (app/services/forecaster.py) *)

Inductive ForecastMethod :=
  SIMPLE_AVERAGE | WEIGHTED_AVERAGE | EXPONENTIAL_SMOOTHING | ENSEMBLE.

Definition method_value (m : ForecastMethod) : string :=
  match m with
  | SIMPLE_AVERAGE => "simple_average"
  | WEIGHTED_AVERAGE => "weighted_average"
  | EXPONENTIAL_SMOOTHING => "exponential_smoothing"
  | ENSEMBLE => "ensemble"
  end.

Record HourlyForecast := mkHourly {
  hf_date : date;
  hf_hour : Z;
  hf_predicted_orders : R;
  confidence_low : R;
  confidence_high : R;
  hf_method : string;
  data_points_used : nat
}.

Record DailyForecast := mkDaily {
  df_date : date;
  hourly_forecasts : list HourlyForecast;
  df_total_predicted_orders : R;
  peak_hour : Z;
  peak_orders : R
}.

Inductive ForecastWarning :=
| NoHistoricalData
| LimitedData (d : date) (low_data_hours : nat)
| UsingDefaultPattern.

Record WeeklyForecast := mkWeekly {
  wf_store_id : Z;
  wf_week_start : date;
  daily_forecasts : list DailyForecast;
  wf_total_predicted_orders : R;
  wf_method : string;
  wf_warnings : list ForecastWarning
}.

Definition DEFAULT_LOOKBACK_WEEKS : Z := 8.
Definition MIN_DATA_POINTS : nat := 3.
Definition WEIGHT_DECAY : R := (85 / 100)%R.
Definition ALPHA : R := (3 / 10)%R.

(** A bucket of samples: [(date, order_count)] pairs. *)
Definition bucket := list (date * R).

Definition HistoricalData := list ((Z * Z) * bucket).

Fixpoint grouped_add (key : Z * Z) (p : date * R) (g : HistoricalData)
  : HistoricalData :=
  match g with
  | [] => [(key, [p])]
  | (k, l) :: rest =>
      if (fst k =? fst key) && (snd k =? snd key)
      then (k, l ++ [p]) :: rest
      else (k, l) :: grouped_add key p rest
  end.

Definition historical_get (g : HistoricalData) (key : Z * Z) : bucket :=
  match first (fun kl => (fst (fst kl) =? fst key)
                         && (snd (fst kl) =? snd key)) g with
  | Some (_, l) => l
  | None => []
  end.

(** [today] is [date.today()]. *)
Definition _get_historical_data (fdb : ForecastDB) (today : date)
  (store_id : Z) : HistoricalData :=
  let cutoff_date := today - 7 * DEFAULT_LOOKBACK_WEEKS in
  let historical :=
    sort_by (fun a b => ho_date a <=? ho_date b)
      (filter (fun r => (ho_store_id r =? store_id)
                        && (cutoff_date <=? ho_date r))
         (historical_orders fdb)) in
  fold_left
    (fun grouped record =>
       let day_of_week :=
         match ho_day_of_week record with
         | Some d => d
         | None => weekday (ho_date record)
         end in
       grouped_add (day_of_week, ho_hour record)
         (ho_date record, order_count record) grouped)
    historical [].

(** The four methods over the real numbers: each expression has the
    value it has before any rounding.  They serve the properties that do
    not depend on rounding (which method runs, how many samples are
    used, which rows are stored, comparisons of predictions); the same
    methods on binary64 values are in the module [Binary64]. *)
Definition _simple_average (data_points : bucket) : R * R * R :=
  match data_points with
  | [] => (0, 0, 0)%R
  | _ =>
      let values := map snd data_points in
      let n := INR (length values) in
      let mean := (Rsum values / n)%R in
      let margin :=
        if (1 <? length values)%nat then
          let variance :=
            (Rsum (map (fun v => (v - mean) ^ 2) values) / (n - 1))%R in
          let std_dev := sqrt variance in
          (196 / 100 * std_dev / sqrt n)%R
        else (mean * (3 / 10))%R in
      (mean, Rmax 0 (mean - margin), mean + margin)%R
  end.

Definition sample_weight (reference_date : date) (d : date) : R :=
  let weeks_ago := (IZR (reference_date - d) / 7)%R in
  Rpower WEIGHT_DECAY weeks_ago.

Definition _weighted_average (data_points : bucket) (reference_date : date)
  : R * R * R :=
  match data_points with
  | [] => (0, 0, 0)%R
  | _ =>
      let sorted_points :=
        sort_by (fun a b => fst b <=? fst a) data_points in
      let weighted_values :=
        map (fun p => (snd p, sample_weight reference_date (fst p)))
          sorted_points in
      let weighted_sum :=
        Rsum (map (fun vw => (fst vw * snd vw)%R) weighted_values) in
      let weight_total := Rsum (map snd weighted_values) in
      if Req_b weight_total 0 then (0, 0, 0)%R
      else
        let mean := (weighted_sum / weight_total)%R in
        let margin :=
          if (1 <? length weighted_values)%nat then
            let variance_sum :=
              Rsum (map (fun vw => (snd vw * (fst vw - mean) ^ 2)%R)
                      weighted_values) in
            let variance := (variance_sum / weight_total)%R in
            let std_dev := sqrt variance in
            (196 / 100 * std_dev)%R
          else (mean * (3 / 10))%R in
        (mean, Rmax 0 (mean - margin), mean + margin)%R
  end.

Definition smooth_step (level value : R) : R :=
  (ALPHA * value + (1 - ALPHA) * level)%R.

(** The second loop of [_exponential_smoothing]: the absolute one-step
    errors, with the running smoothed value. *)
Fixpoint smoothing_errors (smooth : R) (values : list R) : list R :=
  match values with
  | [] => []
  | value :: rest =>
      Rabs (value - smooth) :: smoothing_errors (smooth_step smooth value) rest
  end.

Definition _exponential_smoothing (data_points : bucket) : R * R * R :=
  match data_points with
  | [] => (0, 0, 0)%R
  | _ =>
      let sorted_points :=
        sort_by (fun a b => fst a <=? fst b) data_points in
      match map snd sorted_points with
      | [] => (0, 0, 0)%R
      | v0 :: rest =>
          let level := fold_left smooth_step rest v0 in
          let errors := smoothing_errors v0 rest in
          let margin :=
            match errors with
            | [] => (level * (3 / 10))%R
            | _ =>
                let mae := (Rsum errors / INR (length errors))%R in
                (196 / 100 * mae)%R
            end in
          (level, Rmax 0 (level - margin), level + margin)%R
      end
  end.

Definition _ensemble_forecast (data_points : bucket) (reference_date : date)
  : R * R * R :=
  let '(s0, s1, s2) := _simple_average data_points in
  let '(w0, w1, w2) := _weighted_average data_points reference_date in
  let '(e0, e1, e2) := _exponential_smoothing data_points in
  let predicted :=
    (25 / 100 * s0 + 45 / 100 * w0 + 30 / 100 * e0)%R in
  let conf_low := Rmin3 s1 w1 e1 in
  let conf_high := Rmax3 s2 w2 e2 in
  (predicted, conf_low, conf_high).

Definition run_method (method : ForecastMethod) (data_points : bucket)
  (target_date : date) : R * R * R :=
  match method with
  | SIMPLE_AVERAGE => _simple_average data_points
  | WEIGHTED_AVERAGE => _weighted_average data_points target_date
  | EXPONENTIAL_SMOOTHING => _exponential_smoothing data_points
  | ENSEMBLE => _ensemble_forecast data_points target_date
  end.

Definition forecast_hour (target_date : date) (hour : Z)
  (method : ForecastMethod) (historical_data : HistoricalData)
  : HourlyForecast :=
  let key := (weekday target_date, hour) in
  let data_points := historical_get historical_data key in
  let '(predicted, conf_low, conf_high) :=
    run_method method data_points target_date in
  mkHourly target_date hour (R_round predicted 2) (R_round conf_low 2)
    (R_round conf_high 2) (method_value method) (length data_points).

(** [range(lo, hi)] *)
Definition range (lo hi : Z) : list Z :=
  map (fun i => lo + Z.of_nat i) (seq 0 (Z.to_nat (hi - lo))).

Definition start_hour_of (store : Store) (default : Z) : Z :=
  match operating_start store with
  | Some t => hour_of t
  | None => default
  end.

Definition end_hour_of (store : Store) (default : Z) : Z :=
  match operating_end store with
  | Some t => hour_of t
  | None => default
  end.

(** [max(l, key=...)]: the first element whose key is maximal. *)
Definition max_by {A : Type} (key : A -> R) (l : list A) : option A :=
  match l with
  | [] => None
  | x :: rest =>
      Some (fold_left (fun best y => if Rltb (key best) (key y) then y
                                     else best) rest x)
  end.

Definition make_daily (target_date : date) (hourly : list HourlyForecast)
  : DailyForecast :=
  let total_orders := Rsum (map hf_predicted_orders hourly) in
  let peak_forecast := max_by hf_predicted_orders hourly in
  mkDaily target_date hourly (R_round total_orders 2)
    (match peak_forecast with Some p => hf_hour p | None => 12 end)
    (match peak_forecast with
     | Some p => hf_predicted_orders p
     | None => 0%R
     end).

Definition forecast_day (db : DB) (fdb : ForecastDB) (today : date)
  (store_id : Z) (target_date : date) (method : ForecastMethod)
  : result PyError DailyForecast :=
  match store_by_id db store_id with
  | None => Err ValueError
  | Some store =>
      let start_hour := start_hour_of store 8 in
      let end_hour := end_hour_of store 22 in
      let historical_data := _get_historical_data fdb today store_id in
      let hourly :=
        map (fun hour => forecast_hour target_date hour method historical_data)
          (range start_hour end_hour) in
      Ok (make_daily target_date hourly)
  end.

Definition low_data_hours_of (d : DailyForecast) : nat :=
  length (filter (fun h => (data_points_used h <? MIN_DATA_POINTS)%nat)
            (hourly_forecasts d)).

(** The loop of [forecast_week] over the seven days. *)
Fixpoint forecast_week_days (db : DB) (fdb : ForecastDB) (today : date)
  (store_id : Z) (method : ForecastMethod) (days : list date)
  : result PyError (list DailyForecast * list ForecastWarning) :=
  match days with
  | [] => Ok ([], [])
  | target_date :: rest =>
      day_forecast <- forecast_day db fdb today store_id target_date method ;;
      more <- forecast_week_days db fdb today store_id method rest ;;
      let low_data_hours := low_data_hours_of day_forecast in
      let w :=
        if (0 <? low_data_hours)%nat
        then [LimitedData target_date low_data_hours]
        else [] in
      Ok (day_forecast :: fst more, w ++ snd more)
  end.

Definition week_dates (week_start : date) : list date :=
  map (fun day_offset => week_start + day_offset) (range 0 7).

Definition forecast_week (db : DB) (fdb : ForecastDB) (today : date)
  (store_id : Z) (week_start : date) (method : ForecastMethod)
  : result PyError WeeklyForecast :=
  if negb (weekday week_start =? 0) then Err ValueError
  else
    let historical_data := _get_historical_data fdb today store_id in
    let warnings0 :=
      match historical_data with
      | [] => [NoHistoricalData]
      | _ => []
      end in
    r <- forecast_week_days db fdb today store_id method
           (week_dates week_start) ;;
    let '(daily, warnings1) := r in
    let total_orders := Rsum (map df_total_predicted_orders daily) in
    Ok (mkWeekly store_id week_start daily (R_round total_orders 2)
          (method_value method) (warnings0 ++ warnings1)).

Definition save_forecast (db : DB) (fdb : ForecastDB) (today : date)
  (store_id : Z) (week_start : date) (method : ForecastMethod)
  : result PyError (ForecastDB * nat) :=
  weekly_forecast <- forecast_week db fdb today store_id week_start method ;;
  let kept :=
    filter (fun f => negb ((of_store_id f =? store_id)
                           && (week_start <=? of_date f)
                           && (of_date f <=? week_start + 6)))
      (order_forecasts fdb) in
  let fresh :=
    flat_map
      (fun daily =>
         map (fun hourly =>
                mkOrderForecast store_id (hf_date hourly) (hf_hour hourly)
                  (hf_predicted_orders hourly) None)
           (hourly_forecasts daily))
      (daily_forecasts weekly_forecast) in
  Ok (mkFDB (historical_orders fdb) (kept ++ fresh) (labor_standards fdb),
      length fresh).

Definition hourly_pattern (hour : Z) : R :=
  match hour with
  | 8 => 4 / 100 | 9 => 6 / 100 | 10 => 8 / 100 | 11 => 10 / 100
  | 12 => 12 / 100 | 13 => 10 / 100 | 14 => 8 / 100 | 15 => 8 / 100
  | 16 => 9 / 100 | 17 => 10 / 100 | 18 => 8 / 100 | 19 => 5 / 100
  | 20 => 2 / 100 | 21 => 0
  | _ => 5 / 100
  end%R.

Definition daily_pattern (day_of_week : Z) : R :=
  match day_of_week with
  | 0 => 9 / 10 | 1 => 95 / 100 | 2 => 1 | 3 => 1 | 4 => 11 / 10
  | 5 => 12 / 10 | 6 => 85 / 100
  | _ => 1
  end%R.

Definition default_hourly (target_date : date) (hour : Z) : HourlyForecast :=
  let base_daily_orders := 100%R in
  let day_multiplier := daily_pattern (weekday target_date) in
  let daily_total := (base_daily_orders * day_multiplier)%R in
  let predicted := (daily_total * hourly_pattern hour)%R in
  mkHourly target_date hour (R_round predicted 2)
    (R_round (predicted * (7 / 10)) 2) (R_round (predicted * (13 / 10)) 2)
    "default_pattern" 0.

(** [max(hourly_forecasts, ...)] raises [ValueError] on an empty list. *)
Fixpoint default_days (start_hour end_hour : Z) (days : list date)
  : result PyError (list DailyForecast) :=
  match days with
  | [] => Ok []
  | target_date :: rest =>
      let hourly := map (default_hourly target_date)
                      (range start_hour end_hour) in
      match max_by hf_predicted_orders hourly with
      | None => Err ValueError
      | Some peak_forecast =>
          more <- default_days start_hour end_hour rest ;;
          Ok (mkDaily target_date hourly
                (R_round (Rsum (map hf_predicted_orders hourly)) 2)
                (hf_hour peak_forecast) (hf_predicted_orders peak_forecast)
              :: more)
      end
  end.

Definition generate_default_forecast (db : DB) (store_id : Z)
  (week_start : date) : result PyError WeeklyForecast :=
  match store_by_id db store_id with
  | None => Err ValueError
  | Some store =>
      let start_hour := start_hour_of store 8 in
      let end_hour := end_hour_of store 22 in
      daily <- default_days start_hour end_hour (week_dates week_start) ;;
      let total_orders := Rsum (map df_total_predicted_orders daily) in
      Ok (mkWeekly store_id week_start daily (R_round total_orders 2)
            "default_pattern" [UsingDefaultPattern])
  end.

(** The route [POST /forecasts/generate] (app/api/routes/forecasts.py).
    An exception of the service that the route does not catch is a 500
    answer. *)
Record GenerateForecastRequest := mkForecastRequest {
  fr_store_id : Z;
  fr_week_start : date;
  fr_method : string;
  save_to_db : bool
}.

Definition parse_method (name : string) : option ForecastMethod :=
  if String.eqb name (method_value SIMPLE_AVERAGE) then Some SIMPLE_AVERAGE
  else if String.eqb name (method_value WEIGHTED_AVERAGE)
  then Some WEIGHTED_AVERAGE
  else if String.eqb name (method_value EXPONENTIAL_SMOOTHING)
  then Some EXPONENTIAL_SMOOTHING
  else if String.eqb name (method_value ENSEMBLE) then Some ENSEMBLE
  else None.

Definition uncaught {A : Type} (r : result PyError A) : http A :=
  match r with
  | Ok a => Ok a
  | Err _ => Err HTTP_500
  end.

Definition generate_forecast (db : DB) (fdb : ForecastDB) (today : date)
  (request : GenerateForecastRequest) : http (ForecastDB * WeeklyForecast) :=
  match store_by_id db (fr_store_id request) with
  | None => Err HTTP_404
  | Some _ =>
      if negb (weekday (fr_week_start request) =? 0) then Err HTTP_400
      else
        match parse_method (fr_method request) with
        | None => Err HTTP_400
        | Some method =>
            let historical_count :=
              length (filter (fun r => ho_store_id r =? fr_store_id request)
                        (historical_orders fdb)) in
            forecast <-
              uncaught
                (if Nat.eqb historical_count 0
                 then generate_default_forecast db (fr_store_id request)
                        (fr_week_start request)
                 else forecast_week db fdb today (fr_store_id request)
                        (fr_week_start request) method) ;;
            fdb' <-
              (if save_to_db request
               then saved <- uncaught
                               (save_forecast db fdb today
                                  (fr_store_id request)
                                  (fr_week_start request) method) ;;
                    Ok (fst saved)
               else Ok fdb) ;;
            Ok (fdb', forecast)
        end
  end.

(** *** Accuracy *)

Record AccuracyReport := mkAccuracy {
  acc_data_points : nat;
  mape : option R;
  mae : option R;
  bias : option R;
  accuracy_rating : option string
}.

Definition _rate_accuracy (mape_ : R) : string :=
  if Rltb mape_ 10 then "excellent"
  else if Rltb mape_ 20 then "good"
  else if Rltb mape_ 30 then "fair"
  else "poor".

(** The rows [get_forecast_accuracy] selects, as pairs
    [(predicted_orders, actual_orders)]. *)
Definition accuracy_rows (fdb : ForecastDB) (store_id : Z)
  (start_date end_date : date) : list (R * R) :=
  flat_map
    (fun f =>
       if (of_store_id f =? store_id) && (start_date <=? of_date f)
          && (of_date f <=? end_date)
       then match actual_orders f with
            | Some a => [(predicted_orders f, a)]
            | None => []
            end
       else [])
    (order_forecasts fdb).

Definition percentage_errors_of (rows : list (R * R)) : list R :=
  flat_map
    (fun pa =>
       let error := (snd pa - fst pa)%R in
       if Rltb 0 (snd pa) then [(Rabs error / snd pa * 100)%R] else [])
    rows.

(** The unrounded [mape] local of [get_forecast_accuracy]. *)
Definition mape_of (rows : list (R * R)) : option R :=
  match percentage_errors_of rows with
  | [] => None
  | pe => Some (Rsum pe / INR (length pe))%R
  end.

(** Python truthiness of [mape]: [None] and [0.0] are false. *)
Definition mape_truthy (m : option R) : bool :=
  match m with
  | Some x => negb (Req_b x 0)
  | None => false
  end.

Definition get_forecast_accuracy (fdb : ForecastDB) (store_id : Z)
  (start_date end_date : date) : AccuracyReport :=
  let forecasts := accuracy_rows fdb store_id start_date end_date in
  match forecasts with
  | [] => mkAccuracy 0 None None None None
  | _ =>
      let errors := map (fun pa => (snd pa - fst pa)%R) forecasts in
      let absolute_errors := map Rabs errors in
      let mae_ :=
        (Rsum absolute_errors / INR (length absolute_errors))%R in
      let mape_ := mape_of forecasts in
      let bias_ := (Rsum errors / INR (length errors))%R in
      mkAccuracy (length forecasts)
        (if mape_truthy mape_
         then match mape_ with
              | Some m => Some (R_round m 2)
              | None => None
              end
         else None)
        (Some (R_round mae_ 2)) (Some (R_round bias_ 2))
        (Some (if mape_truthy mape_
               then match mape_ with
                    | Some m => _rate_accuracy m
                    | None => "insufficient_data"%string
                    end
               else "insufficient_data"%string))
  end.

(** ** Labor standards (app/services/labor_standards.py) *)

Definition default_orders_per_picker_hour : R := 10%R.

(** Reads the store's standard; when there is none, inserts the default
    one and returns it.  This is the call as it returns; whether the
    commit of the insert is accepted is decided by
    [get_labor_standard_committed]. *)
Definition get_labor_standard (fdb : ForecastDB) (store_id : Z)
  : ForecastDB * LaborStandard :=
  match first (fun s => ls_store_id s =? store_id) (labor_standards fdb) with
  | Some standard => (fdb, standard)
  | None =>
      let standard :=
        mkLaborStandard store_id default_orders_per_picker_hour
          default_min_shift_hours default_max_shift_hours in
      (mkFDB (historical_orders fdb) (order_forecasts fdb)
         (labor_standards fdb ++ [standard]),
       standard)
  end.

(** The call under the foreign key [labor_standards.store_id ->
    stores.id] of the database: the insert of the default standard for
    a store id that has no store row fails at [commit] with an
    [IntegrityError], which the service does not catch. *)
Definition get_labor_standard_committed (db : DB) (fdb : ForecastDB)
  (store_id : Z) : result PyError (ForecastDB * LaborStandard) :=
  match first (fun s => ls_store_id s =? store_id) (labor_standards fdb),
        store_by_id db store_id with
  | None, None => Err IntegrityError
  | _, _ => Ok (get_labor_standard fdb store_id)
  end.

Definition calculate_required_hours (predicted_orders_ orders_per_hour : R)
  : R :=
  if Rle_dec orders_per_hour 0 then 0%R
  else (predicted_orders_ / orders_per_hour)%R.

(** A requirements dictionary: hour to required picker hours. *)
Definition Requirements := list (Z * R).

Definition requirements_get (r : Requirements) (hour : Z) (default : R) : R :=
  match first (fun kv => fst kv =? hour) r with
  | Some kv => snd kv
  | None => default
  end.

Definition get_hourly_requirements (db : DB) (fdb : ForecastDB)
  (today : date) (store_id : Z) (target_date : date) (auto_generate : bool)
  : result PyError (ForecastDB * Requirements) :=
  committed <- get_labor_standard_committed db fdb store_id ;;
  let '(fdb1, standard) := committed in
  match store_by_id db store_id with
  | None => Ok (fdb1, [])
  | Some store =>
      let stored :=
        map (fun f => (of_hour f, predicted_orders f))
          (filter (fun f => (of_store_id f =? store_id)
                            && (of_date f =? target_date))
             (order_forecasts fdb1)) in
      forecasts <-
        (match stored with
         | [] =>
             if auto_generate then
               daily_forecast <-
                 forecast_day db fdb1 today store_id target_date ENSEMBLE ;;
               Ok (map (fun hourly => (hf_hour hourly,
                                       hf_predicted_orders hourly))
                     (hourly_forecasts daily_forecast))
             else Ok stored
         | _ => Ok stored
         end) ;;
      let start_hour := start_hour_of store store_open_hour in
      let end_hour := end_hour_of store store_close_hour in
      Ok (fdb1,
          map (fun hour =>
                 let predicted :=
                   match first (fun f => fst f =? hour) forecasts with
                   | Some f => snd f
                   | None => 0%R
                   end in
                 let required_hours :=
                   calculate_required_hours predicted
                     (orders_per_picker_hour standard) in
                 (hour, R_round required_hours 2))
            (range start_hour end_hour))
  end.




(** ** Schedule optimizer (app/services/optimizer.py) *)

Inductive OptimizationStatus :=
  OPTIMAL | FEASIBLE | INFEASIBLE | TIMEOUT | OPT_ERROR.

Record ShiftTemplate := mkTemplate {
  start_hour : Z;
  end_hour : Z;
  t_break_minutes : Z
}.

Definition t_duration_hours (t : ShiftTemplate) : Z :=
  end_hour t - start_hour t.

Definition working_hours (t : ShiftTemplate) : Q :=
  (inject_Z (t_duration_hours t) - inject_Z (t_break_minutes t) / 60)%Q.

Definition SHIFT_TEMPLATES : list ShiftTemplate :=
  [ mkTemplate 8 16 30; mkTemplate 9 17 30; mkTemplate 10 18 30;
    mkTemplate 11 19 30; mkTemplate 12 20 30; mkTemplate 14 22 30;
    mkTemplate 8 17 60; mkTemplate 13 22 60 ].

Definition template_eqb (a b : ShiftTemplate) : bool :=
  (start_hour a =? start_hour b) && (end_hour a =? end_hour b)
  && (t_break_minutes a =? t_break_minutes b).

Record EmployeeConstraints := mkConstraints {
  ec_employee_id : Z;
  available_days : list Z;
  preferred_hours : list (Z * (Z * Z));
  time_off_days : list Z;
  max_hours_remaining : Q;
  max_days_remaining : Z
}.

Record DemandSlot := mkSlot {
  sl_day_index : Z;
  sl_hour : Z;
  required_pickers : R
}.

Record LockedShift := mkLocked {
  lk_employee_id : Z;
  lk_day_index : Z;
  shift_template_idx : nat
}.

Record ManualOverride := mkOverride {
  mo_employee_id : Z;
  mo_day_index : Z;
  must_work : bool;
  cannot_work : bool;
  preferred_shift_idx : option nat
}.

(** The report fields of [OptimizationResult] ([message], [stats],
    [warnings]) are texts and counts derived from the shifts; the status
    and the shifts are kept. *)
Record OptimizationResult := mkOptResult {
  opt_status : OptimizationStatus;
  opt_shifts : list GeneratedShift
}.

Definition _get_employees (db : DB) (store_id : Z) : list Employee :=
  filter (fun e => (emp_store_id e =? store_id)
                   && EmployeeStatus_eqb (emp_status e) ACTIVE)
    (employees db).

(** [set.discard] *)
Definition discard (x : Z) (s : list Z) : list Z :=
  filter (fun y => negb (y =? x)) s.

(** [set.add] *)
Definition set_add (x : Z) (s : list Z) : list Z :=
  if existsb (Z.eqb x) s then s else s ++ [x].

(** The first loop of [_get_employee_constraints], over the employee's
    availability rows.  A dictionary is the list of its assignments, the
    latest first. *)
Definition availability_step (st : list Z * list (Z * (Z * Z)))
  (avail : Availability) : list Z * list (Z * (Z * Z)) :=
  let '(days, pref) := st in
  if negb (is_available avail) then (discard (av_day_of_week avail) days, pref)
  else
    match preferred_start avail, preferred_end avail with
    | Some ps, Some pe =>
        (days, (av_day_of_week avail, (hour_of ps, hour_of pe)) :: pref)
    | _, _ => (days, pref)
    end.

(** The second loop, over the approved requests that meet the week. *)
Definition time_off_step (week_start : date) (st : list Z * list Z)
  (request : TimeOffRequest) : list Z * list Z :=
  fold_left
    (fun st day_offset =>
       let check_date := week_start + day_offset in
       if (to_start_date request <=? check_date)
          && (check_date <=? to_end_date request)
       then (set_add day_offset (fst st), discard day_offset (snd st))
       else st)
    (range 0 7) st.

Definition existing_hours_of (sh : Shift) : Q :=
  (inject_Z (total_seconds sh) / 3600 - inject_Z (break_minutes sh) / 60)%Q.

Definition _get_employee_constraints (db : DB) (employee : Employee)
  (week_start : date) : EmployeeConstraints :=
  let avails :=
    filter (fun a => av_employee_id a =? emp_id employee)
      (availabilities db) in
  let '(available0, preferred) :=
    fold_left availability_step avails (range 0 7, []) in
  let week_end := week_start + 6 in
  let time_off :=
    filter (fun r => (to_employee_id r =? emp_id employee)
                     && TimeOffStatus_eqb (to_status r) TO_APPROVED
                     && (to_start_date r <=? week_end)
                     && (week_start <=? to_end_date r))
      (time_off_requests db) in
  let '(time_off_days_, available) :=
    fold_left (time_off_step week_start) time_off ([], available0) in
  let existing_shifts :=
    employee_week_shifts db (emp_id employee) week_start in
  let existing_hours := Qsum (map existing_hours_of existing_shifts) in
  let existing_days :=
    Z.of_nat (length (nodup Z.eq_dec (map sh_date existing_shifts))) in
  mkConstraints (emp_id employee) available preferred time_off_days_
    (Qmaxq 0 (inject_Z max_hours_per_week - existing_hours))
    (Z.max 0 (days_on_per_week - existing_days)).

(** The loop of [_get_demand_slots] over the days of the week; the
    labor service may insert the store's default standard on the way. *)
Fixpoint demand_loop (db : DB) (fdb : ForecastDB) (today : date)
  (store : Store) (week_start : date) (days : list Z)
  : result PyError (ForecastDB * list DemandSlot) :=
  match days with
  | [] => Ok (fdb, [])
  | day_index :: rest =>
      r <- get_hourly_requirements db fdb today (st_id store)
             (week_start + day_index) true ;;
      more <- demand_loop db (fst r) today store week_start rest ;;
      let slots :=
        flat_map
          (fun hour =>
             let required := requirements_get (snd r) hour 0%R in
             if Rltb 0 required then [mkSlot day_index hour required]
             else [])
          (range (start_hour_of store 8) (end_hour_of store 22)) in
      Ok (fst more, slots ++ snd more)
  end.

Definition _get_demand_slots (db : DB) (fdb : ForecastDB) (today : date)
  (store_id : Z) (week_start : date)
  : result PyError (ForecastDB * list DemandSlot) :=
  match store_by_id db store_id with
  | None => Ok (fdb, [])
  | Some store => demand_loop db fdb today store week_start (range 0 7)
  end.

Definition dict_get {V : Type} (d : list (Z * V)) (k : Z) : option V :=
  match first (fun kv => fst kv =? k) d with
  | Some kv => Some (snd kv)
  | None => None
  end.

Definition template_applicable (ec : EmployeeConstraints) (day_index : Z)
  (store : Store) (template : ShiftTemplate) : bool :=
  let start_h := start_hour_of store 8 in
  let end_h := end_hour_of store 22 in
  if (start_hour template <? start_h) || (end_h <? end_hour template)
  then false
  else
    match dict_get (preferred_hours ec) day_index with
    | Some (pref_start, pref_end) =>
        if (start_hour template <? pref_start)
           || (pref_end <? end_hour template)
        then false
        else negb (Qltb (max_hours_remaining ec) (working_hours template))
    | None => negb (Qltb (max_hours_remaining ec) (working_hours template))
    end.

Definition _get_applicable_shifts (ec : EmployeeConstraints) (day_index : Z)
  (store : Store) : list ShiftTemplate :=
  if negb (existsb (Z.eqb day_index) (available_days ec)) then []
  else filter (template_applicable ec day_index store) SHIFT_TEMPLATES.

(** *** The CP model *)

Inductive Var :=
| ShiftVar (emp day : Z) (idx : nat)
| DayVar (emp day : Z).

Inductive Constraint :=
| EqConst (v : Var) (c : Z)
| SumGe (vs : list Var) (c : Z)
| SumLe (vs : list Var) (c : Z)
| MaxEq (target : Var) (vs : list Var)
| WeightedSumLe (terms : list (Z * Var)) (c : Z).

Record CpModel := mkModel {
  constraints : list Constraint;
  objective : list (Z * Var)
}.

Inductive CpStatus :=
  CP_UNKNOWN | CP_MODEL_INVALID | CP_FEASIBLE | CP_INFEASIBLE | CP_OPTIMAL.

Record SolverResponse := mkResponse {
  cp_status : CpStatus;
  Value : Var -> Z
}.

Definition Var_eqb (a b : Var) : bool :=
  match a, b with
  | ShiftVar e d i, ShiftVar e' d' i' =>
      (e =? e') && (d =? d') && Nat.eqb i i'
  | DayVar e d, DayVar e' d' => (e =? e') && (d =? d')
  | _, _ => false
  end.

Definition sum_values (val : Var -> Z) (vs : list Var) : Z :=
  fold_right (fun v acc => val v + acc) 0 vs.

Definition weighted_sum_values (val : Var -> Z) (terms : list (Z * Var)) : Z :=
  fold_right (fun cv acc => fst cv * val (snd cv) + acc) 0 terms.

Definition is_boolean (z : Z) : bool := (z =? 0) || (z =? 1).

(** The meaning of one constraint for an assignment of the Boolean
    variables. *)
Definition holds (val : Var -> Z) (c : Constraint) : bool :=
  match c with
  | EqConst v k => val v =? k
  | SumGe vs k => k <=? sum_values val vs
  | SumLe vs k => sum_values val vs <=? k
  | MaxEq target vs => val target =? fold_right Z.max 0 (map val vs)
  | WeightedSumLe terms k => weighted_sum_values val terms <=? k
  end.

Definition vars_of (c : Constraint) : list Var :=
  match c with
  | EqConst v _ => [v]
  | SumGe vs _ | SumLe vs _ => vs
  | MaxEq target vs => target :: vs
  | WeightedSumLe terms _ => map snd terms
  end.

Definition satisfies (val : Var -> Z) (m : CpModel) : bool :=
  forallb (fun c => holds val c && forallb (fun v => is_boolean (val v))
                                     (vars_of c))
    (constraints m).

(** What the code relies on from [CpSolver.Solve]: a response with
    status OPTIMAL or FEASIBLE carries values that satisfy the model. *)
Definition solver_sound (solver : CpModel -> SolverResponse) : Prop :=
  forall m,
    cp_status (solver m) = CP_OPTIMAL \/ cp_status (solver m) = CP_FEASIBLE ->
    satisfies (Value (solver m)) m = true.

(** [int(x)] on a rational and on a real: truncation toward zero. *)
Definition Q_int (q : Q) : Z :=
  if Qltb q 0 then Qceiling q else Qfloor q.

Definition R_int (r : R) : Z :=
  if Rlt_dec r 0 then - Int_part (- r) else Int_part r.

(** [shift_vars]: employee id, then day, then template index.  Each
    level lists its keys in insertion order. *)
Definition ShiftVars := list (Z * list (Z * list nat)).

Definition enumerate {A : Type} (l : list A) : list (nat * A) :=
  combine (seq 0 (length l)) l.

Definition initial_day_vars (ec : EmployeeConstraints) (store : Store)
  (day : Z) : list nat :=
  let applicable := _get_applicable_shifts ec day store in
  map fst
    (filter (fun it => existsb (template_eqb (snd it)) applicable)
       (enumerate SHIFT_TEMPLATES)).

Definition initial_shift_vars (emp_constraints : list (Z * EmployeeConstraints))
  (store : Store) (emps : list Employee) : result PyError ShiftVars :=
  fold_right
    (fun emp acc =>
       rest <- acc ;;
       match dict_get emp_constraints (emp_id emp) with
       | None => Err KeyError
       | Some ec =>
           Ok ((emp_id emp,
                map (fun day => (day, initial_day_vars ec store day))
                  (range 0 7)) :: rest)
       end)
    (Ok []) emps.

Definition sv_day (sv : ShiftVars) (e d : Z) : option (list nat) :=
  match dict_get sv e with
  | Some days => dict_get days d
  | None => None
  end.

Fixpoint day_insert (d : Z) (i : nat) (days : list (Z * list nat))
  : list (Z * list nat) :=
  match days with
  | [] => [(d, [i])]
  | (d', idxs) :: rest =>
      if d' =? d
      then (d', if existsb (Nat.eqb i) idxs then idxs else idxs ++ [i])
           :: rest
      else (d', idxs) :: day_insert d i rest
  end.

Fixpoint sv_insert (e d : Z) (i : nat) (sv : ShiftVars) : ShiftVars :=
  match sv with
  | [] => [(e, [(d, [i])])]
  | (e', days) :: rest =>
      if e' =? e then (e', day_insert d i days) :: rest
      else (e', days) :: sv_insert e d i rest
  end.

Definition day_vars (e d : Z) (idxs : list nat) : list Var :=
  map (ShiftVar e d) idxs.

(** All shift variables, in the order the nested loops visit them. *)
Definition all_shift_vars (sv : ShiftVars) : list (Z * Z * nat) :=
  flat_map
    (fun ed => flat_map
                 (fun di => map (fun i => (fst ed, fst di, i)) (snd di))
                 (snd ed))
    sv.

Definition override_constraints (sv : ShiftVars) (o : ManualOverride)
  : list Constraint :=
  match sv_day sv (mo_employee_id o) (mo_day_index o) with
  | None => []
  | Some idxs =>
      let vars := day_vars (mo_employee_id o) (mo_day_index o) idxs in
      if cannot_work o then map (fun v => EqConst v 0) vars
      else if must_work o then
        match vars with
        | [] => []
        | _ => [SumGe vars 1]
        end
      else []
  end.

Definition lock_step (st : ShiftVars * list Constraint) (locked : LockedShift)
  : ShiftVars * list Constraint :=
  let e := lk_employee_id locked in
  let d := lk_day_index locked in
  let i := shift_template_idx locked in
  (sv_insert e d i (fst st), snd st ++ [EqConst (ShiftVar e d i) 1]).

Definition one_shift_per_day (sv : ShiftVars) : list Constraint :=
  flat_map
    (fun ed =>
       flat_map
         (fun di =>
            match snd di with
            | [] => []
            | idxs => [SumLe (day_vars (fst ed) (fst di) idxs) 1]
            end)
         (snd ed))
    sv.

Definition worked_days (days : list (Z * list nat)) : list (Z * list nat) :=
  filter (fun di => negb (Nat.eqb (length (snd di)) 0)) days.

Fixpoint max_days_constraints
  (emp_constraints : list (Z * EmployeeConstraints)) (sv : ShiftVars)
  : result PyError (list Constraint) :=
  match sv with
  | [] => Ok []
  | (e, days) :: rest =>
      let worked := worked_days days in
      let maxeqs :=
        map (fun di => MaxEq (DayVar e (fst di)) (day_vars e (fst di) (snd di)))
          worked in
      here <-
        (match worked with
         | [] => Ok maxeqs
         | _ =>
             match dict_get emp_constraints e with
             | None => Err KeyError
             | Some ec =>
                 let max_days :=
                   Z.min (max_days_remaining ec) days_on_per_week in
                 Ok (maxeqs
                     ++ [SumLe (map (fun di => DayVar e (fst di)) worked)
                           max_days])
             end
         end) ;;
      more <- max_days_constraints emp_constraints rest ;;
      Ok (here ++ more)
  end.

Fixpoint hours_terms (e d : Z) (idxs : list nat)
  : result PyError (list (Z * Var)) :=
  match idxs with
  | [] => Ok []
  | i :: rest =>
      match nth_error SHIFT_TEMPLATES i with
      | None => Err IndexError
      | Some template =>
          more <- hours_terms e d rest ;;
          Ok ((Q_int (working_hours template * 10), ShiftVar e d i) :: more)
      end
  end.

Fixpoint employee_hours_terms (e : Z) (days : list (Z * list nat))
  : result PyError (list (Z * Var)) :=
  match days with
  | [] => Ok []
  | (d, idxs) :: rest =>
      here <- hours_terms e d idxs ;;
      more <- employee_hours_terms e rest ;;
      Ok (here ++ more)
  end.

Definition Qminq (a b : Q) : Q := if Qltb b a then b else a.

Fixpoint max_hours_constraints
  (emp_constraints : list (Z * EmployeeConstraints)) (sv : ShiftVars)
  : result PyError (list Constraint) :=
  match sv with
  | [] => Ok []
  | (e, days) :: rest =>
      hours_worked <- employee_hours_terms e days ;;
      here <-
        (match hours_worked with
         | [] => Ok []
         | _ =>
             match dict_get emp_constraints e with
             | None => Err KeyError
             | Some ec =>
                 let max_hours :=
                   Qminq (max_hours_remaining ec)
                     (inject_Z max_hours_per_week) in
                 Ok [WeightedSumLe hours_worked (Q_int (max_hours * 10))]
             end
         end) ;;
      more <- max_hours_constraints emp_constraints rest ;;
      Ok (here ++ more)
  end.

(** The shift variables that cover a demand slot. *)
Definition covering_shifts (sv : ShiftVars) (slot : DemandSlot) : list Var :=
  flat_map
    (fun ed =>
       match dict_get (snd ed) (sl_day_index slot) with
       | None => []
       | Some idxs =>
           flat_map
             (fun i =>
                match nth_error SHIFT_TEMPLATES i with
                | Some template =>
                    if (start_hour template <=? sl_hour slot)
                       && (sl_hour slot <? end_hour template)
                    then [ShiftVar (fst ed) (sl_day_index slot) i]
                    else []
                | None => []
                end)
             idxs
       end)
    sv.

Definition coverage_score (sv : ShiftVars) (slot : DemandSlot)
  : list (Z * Var) :=
  let assigned := covering_shifts sv slot in
  let required := R_int (required_pickers slot) in
  map (fun iv => (if Z.of_nat (fst iv) <? required then 100 else -10,
                  snd iv))
    (enumerate assigned).

Definition build_objective (sv : ShiftVars) (demand_slots : list DemandSlot)
  : list (Z * Var) :=
  flat_map (coverage_score sv) demand_slots
  ++ map (fun k => (1, ShiftVar (fst (fst k)) (snd (fst k)) (snd k)))
       (all_shift_vars sv).

(** The variables and hard constraints [optimize] adds to the model, in
    its order. *)
Definition build_constraints (emp_constraints : list (Z * EmployeeConstraints))
  (store : Store) (emps : list Employee) (locked_shifts : list LockedShift)
  (manual_overrides : list ManualOverride)
  : result PyError (ShiftVars * list Constraint) :=
  sv0 <- initial_shift_vars emp_constraints store emps ;;
  let overrides := flat_map (override_constraints sv0) manual_overrides in
  let '(sv, cs) := fold_left lock_step locked_shifts (sv0, overrides) in
  c2 <- max_days_constraints emp_constraints sv ;;
  c3 <- max_hours_constraints emp_constraints sv ;;
  Ok (sv, cs ++ one_shift_per_day sv ++ c2 ++ c3).

(** Solution extraction. *)
Fixpoint extract_shifts (val : Var -> Z) (emps : list Employee)
  (week_start : date) (keys : list (Z * Z * nat))
  : result PyError (list GeneratedShift) :=
  match keys with
  | [] => Ok []
  | (e, d, i) :: rest =>
      match first (fun emp => emp_id emp =? e) emps with
      | None => Err StopIteration
      | Some _ =>
          more <- extract_shifts val emps week_start rest ;;
          if val (ShiftVar e d i) =? 1 then
            match nth_error SHIFT_TEMPLATES i with
            | None => Err IndexError
            | Some template =>
                Ok (mkGenerated e (week_start + d)
                      (time_of_hour (start_hour template))
                      (time_of_hour (end_hour template))
                      (t_break_minutes template)
                    :: more)
            end
          else Ok more
      end
  end.

Definition emp_constraints_of (db : DB) (week_start : date)
  (emps : list Employee) : list (Z * EmployeeConstraints) :=
  rev (map (fun emp => (emp_id emp,
                        _get_employee_constraints db emp week_start))
         emps).

(** The body of [optimize] after the store and the employees are read;
    an exception anywhere in it is caught by [optimize]. *)
Definition optimize_body (solver : CpModel -> SolverResponse) (db : DB)
  (fdb : ForecastDB) (today : date) (store : Store) (emps : list Employee)
  (week_start : date) (locked_shifts : list LockedShift)
  (manual_overrides : list ManualOverride)
  : result PyError OptimizationResult :=
  let emp_constraints := emp_constraints_of db week_start emps in
  demand <- _get_demand_slots db fdb today (st_id store) week_start ;;
  match snd demand with
  | [] => Ok (mkOptResult FEASIBLE [])
  | demand_slots =>
      built <- build_constraints emp_constraints store emps locked_shifts
                 manual_overrides ;;
      let '(sv, cs) := built in
      let model := mkModel cs (build_objective sv demand_slots) in
      let response := solver model in
      match cp_status response with
      | CP_OPTIMAL =>
          generated <- extract_shifts (Value response) emps week_start
                         (all_shift_vars sv) ;;
          Ok (mkOptResult OPTIMAL generated)
      | CP_FEASIBLE =>
          generated <- extract_shifts (Value response) emps week_start
                         (all_shift_vars sv) ;;
          Ok (mkOptResult FEASIBLE generated)
      | CP_INFEASIBLE => Ok (mkOptResult INFEASIBLE [])
      | _ => Ok (mkOptResult TIMEOUT [])
      end
  end.

Definition optimize (solver : CpModel -> SolverResponse) (db : DB)
  (fdb : ForecastDB) (today : date) (store_id : Z) (week_start : date)
  (locked_shifts : list LockedShift) (manual_overrides : list ManualOverride)
  : OptimizationResult :=
  match store_by_id db store_id with
  | None => mkOptResult OPT_ERROR []
  | Some store =>
      match _get_employees db store_id with
      | [] => mkOptResult OPT_ERROR []
      | emps =>
          match optimize_body solver db fdb today store emps week_start
                  locked_shifts manual_overrides with
          | Ok r => r
          | Err _ => mkOptResult OPT_ERROR []
          end
      end
  end.

(** ** Optimizer routes (app/api/routes/optimizer.py) *)

Record OptimizeRequest := mkOptimizeRequest {
  rq_store_id : Z;
  rq_week_start : date;
  apply_immediately : bool;
  rq_locked_shifts : list LockedShift;
  rq_manual_overrides : list ManualOverride
}.

Definition is_success (s : OptimizationStatus) : bool :=
  match s with
  | OPTIMAL | FEASIBLE => true
  | _ => false
  end.

Definition published_schedule_for (db : DB) (store_id : Z)
  (week_start : date) : option Schedule :=
  first (fun sc => (sc_store_id sc =? store_id)
                   && (week_start_date sc =? week_start)
                   && ScheduleStatus_eqb (sc_status sc) PUBLISHED)
        (schedules db).

Definition generate_schedule (solver : CpModel -> SolverResponse) (db : DB)
  (fdb : ForecastDB) (today : date) (request : OptimizeRequest)
  (current_user_id : Z) : http (DB * OptimizationResult * option Z) :=
  match store_by_id db (rq_store_id request) with
  | None => Err HTTP_404
  | Some _ =>
      if negb (weekday (rq_week_start request) =? 0) then Err HTTP_400
      else
        match published_schedule_for db (rq_store_id request)
                (rq_week_start request) with
        | Some _ => Err HTTP_400
        | None =>
            let result_ :=
              optimize solver db fdb today (rq_store_id request)
                (rq_week_start request) (rq_locked_shifts request)
                (rq_manual_overrides request) in
            if apply_immediately request && is_success (opt_status result_)
            then
              match opt_shifts result_ with
              | [] => Ok (db, result_, None)
              | shifts_ =>
                  let '(db', schedule, _) :=
                    apply_schedule db (rq_store_id request)
                      (rq_week_start request) shifts_ current_user_id in
                  Ok (db', result_, Some (sc_id schedule))
              end
            else Ok (db, result_, None)
        end
  end.

Definition fill_schedule_gaps (solver : CpModel -> SolverResponse) (db : DB)
  (fdb : ForecastDB) (today : date) (schedule_id : Z) (current_user_id : Z)
  : http (DB * OptimizationResult) :=
  match schedule_by_id db schedule_id with
  | None => Err HTTP_404
  | Some schedule =>
      if ScheduleStatus_eqb (sc_status schedule) PUBLISHED then Err HTTP_400
      else
        let result_ :=
          optimize solver db fdb today (sc_store_id schedule)
            (week_start_date schedule) [] [] in
        if negb (is_success (opt_status result_)) then Ok (db, result_)
        else
          match opt_shifts result_ with
          | [] => Ok (db, result_)
          | shifts_ =>
              let '(db', _, _) :=
                apply_schedule db (sc_store_id schedule)
                  (week_start_date schedule) shifts_ current_user_id in
              Ok (db', result_)
          end
  end.

(** ** States of the schedules table *)

Definition published_for (db : DB) (store_id : Z) (week_start : date)
  : list Schedule :=
  filter (fun sc => (sc_store_id sc =? store_id)
                    && (week_start_date sc =? week_start)
                    && ScheduleStatus_eqb (sc_status sc) PUBLISHED)
    (schedules db).

Definition at_most_one_published (db : DB) : Prop :=
  forall store_id week_start,
    (length (published_for db store_id week_start) <= 1)%nat.

(** One committed request of a route that writes the schedules table
    behind a check of the (store, week_start) pair, or any write that
    leaves the schedules table as it is. *)
Inductive guarded_step : DB -> DB -> Prop :=
| step_create : forall db store_id week_start user db' sc,
    create_schedule db store_id week_start user = Ok (db', sc) ->
    guarded_step db db'
| step_publish : forall db now sid validate force db' sc,
    publish_schedule db now sid validate force = Ok (db', sc) ->
    guarded_step db db'
| step_unpublish : forall db sid db' sc,
    unpublish_schedule db sid = Ok (db', sc) ->
    guarded_step db db'
| step_delete : forall db sid db',
    delete_schedule db sid = Ok db' ->
    guarded_step db db'
| step_generate : forall solver db fdb today request user db' r sid,
    generate_schedule solver db fdb today request user = Ok (db', r, sid) ->
    guarded_step db db'
| step_fill_gaps : forall solver db fdb today sid user db' r,
    fill_schedule_gaps solver db fdb today sid user = Ok (db', r) ->
    guarded_step db db'
| step_other_tables : forall db db',
    schedules db' = schedules db ->
    guarded_step db db'.

Inductive guarded_reachable : DB -> Prop :=
| reach_empty : guarded_reachable empty_db
| reach_step : forall db db',
    guarded_reachable db -> guarded_step db db' -> guarded_reachable db'.

(** The same, with the route [POST /optimizer/apply] added. *)
Inductive reachable : DB -> Prop :=
| reachable_empty : reachable empty_db
| reachable_guarded : forall db db',
    reachable db -> guarded_step db db' -> reachable db'
| reachable_apply : forall db store_id week_start shifts_ user db' sid n,
    reachable db ->
    apply_optimized_schedule db store_id week_start shifts_ user
      = Ok (db', sid, n) ->
    reachable db'.

(** * Further routes and services *)

(** ** Compliance status of an employee (app/services/compliance.py) *)

Record ShiftLine := mkShiftLine {
  line_date : date;
  line_start : time;
  line_end : time;
  line_hours : Q
}.

Record ComplianceStatus := mkStatus {
  cs_employee_id : Z;
  cs_week_start : date;
  cs_total_hours : Q;
  cs_max_hours : Z;
  hours_remaining : Q;
  days_worked : Z;
  cs_max_days : Z;
  days_remaining : Z;
  is_at_limit : bool;
  cs_shifts : list ShiftLine
}.

Definition get_employee_compliance_status (db : DB) (employee_id : Z)
  (week_start : date) : ComplianceStatus :=
  let shifts_ := employee_week_shifts db employee_id week_start in
  let total_hours := Qsum (map _get_shift_duration_hours shifts_) in
  let work_dates := nodup Z.eq_dec (map sh_date shifts_) in
  let days_worked_ := Z.of_nat (length work_dates) in
  mkStatus employee_id week_start (py_round total_hours 2) max_hours_per_week
    (py_round (Qmaxq 0 (inject_Z max_hours_per_week - total_hours)) 2)
    days_worked_ days_on_per_week
    (Z.max 0 (days_on_per_week - days_worked_))
    (Qleb (inject_Z max_hours_per_week) total_hours
     || (days_on_per_week <=? days_worked_))
    (map (fun s => mkShiftLine (sh_date s) (start_time s) (end_time s)
                     (py_round (_get_shift_duration_hours s) 2))
       (sort_by (fun a b => sh_date a <=? sh_date b) shifts_)).

(** The route [GET /shifts/{shift_id}/compliance]
    (app/api/routes/shifts.py). *)
Definition check_shift_compliance (db : DB) (shift_id : Z)
  : http (Z * date * ComplianceResult) :=
  match shift_by_id db shift_id with
  | None => Err HTTP_404
  | Some shift =>
      Ok (sh_employee_id shift, sh_date shift, validate_shift db shift None)
  end.

(** ** The other swap routes (app/api/routes/swaps.py) *)

Definition get_employee_for_user (db : DB) (user_id : Z) : option Employee :=
  first (fun e => emp_user_id e =? user_id) (employees db).

Definition create_notification (db : DB) (user_id : Z)
  (notification_type : NotificationType) : DB :=
  add_notification db (mkNotification user_id notification_type).

Record ShiftSwapCreate := mkSwapCreate {
  sc_requester_shift_id : Z;
  sc_requested_shift_id : option Z
}.

Definition set_swap_status (sw : ShiftSwap) (s : SwapStatus) : ShiftSwap :=
  mkSwap (sw_id sw) (requester_shift_id sw) (requested_shift_id sw) s
    (approved_by sw) (approved_at sw).

Definition update_swap_row (db : DB) (swap_id : Z) (sw : ShiftSwap) : DB :=
  with_shift_swaps db
    (map (fun row => if sw_id row =? swap_id then sw else row)
       (shift_swaps db)).

Definition is_open (s : SwapStatus) : bool :=
  SwapStatus_eqb s SW_PENDING || SwapStatus_eqb s SW_ACCEPTED.

(** The reload of the swap that ends each route; a missing row cannot be
    serialised. *)
Definition reload_swap (db : DB) (swap_id : Z) : http (DB * ShiftSwap) :=
  match swap_by_id db swap_id with
  | Some swap => Ok (db, swap)
  | None => Err HTTP_500
  end.

(** [today] is [date.today()]. *)
Definition create_shift_swap (db : DB) (today : date) (current_user_id : Z)
  (swap_data : ShiftSwapCreate) : http (DB * ShiftSwap) :=
  match shift_by_id db (sc_requester_shift_id swap_data) with
  | None => Err HTTP_404
  | Some requester_shift =>
      match get_employee_for_user db current_user_id with
      | None => Err HTTP_403
      | Some employee =>
          if negb (sh_employee_id requester_shift =? emp_id employee)
          then Err HTTP_403
          else if sh_date requester_shift <? today then Err HTTP_400
          else
            match first (fun sw =>
                           (requester_shift_id sw
                            =? sc_requester_shift_id swap_data)
                           && is_open (sw_status sw))
                    (shift_swaps db) with
            | Some _ => Err HTTP_400
            | None =>
                _ <- (if truthy (sc_requested_shift_id swap_data) then
                        match sc_requested_shift_id swap_data with
                        | Some i =>
                            match shift_by_id db i with
                            | None => Err HTTP_404
                            | Some requested_shift =>
                                if sh_employee_id requested_shift
                                   =? emp_id employee
                                then Err HTTP_400
                                else Ok tt
                            end
                        | None => Ok tt
                        end
                      else Ok tt) ;;
                let swap :=
                  mkSwap (next_id (map sw_id (shift_swaps db)))
                    (sc_requester_shift_id swap_data)
                    (sc_requested_shift_id swap_data) SW_PENDING None None in
                reload_swap (with_shift_swaps db (shift_swaps db ++ [swap]))
                  (sw_id swap)
            end
      end
  end.

Definition accept_shift_swap (db : DB) (today : date) (current_user_id : Z)
  (swap_id : Z) (accepting_shift_id : Z) : http (DB * ShiftSwap) :=
  match swap_by_id db swap_id with
  | None => Err HTTP_404
  | Some swap =>
      if negb (SwapStatus_eqb (sw_status swap) SW_PENDING) then Err HTTP_400
      else
        match shift_by_id db accepting_shift_id with
        | None => Err HTTP_404
        | Some accepting_shift =>
            match get_employee_for_user db current_user_id with
            | None => Err HTTP_403
            | Some employee =>
                if negb (sh_employee_id accepting_shift =? emp_id employee)
                then Err HTTP_403
                else
                  match shift_by_id db (requester_shift_id swap) with
                  | None => Err HTTP_500
                  | Some requester_shift =>
                      if sh_employee_id requester_shift =? emp_id employee
                      then Err HTTP_400
                      else if sh_date accepting_shift <? today
                      then Err HTTP_400
                      else
                        let swap' :=
                          mkSwap (sw_id swap) (requester_shift_id swap)
                            (Some accepting_shift_id) SW_ACCEPTED
                            (approved_by swap) (approved_at swap) in
                        let db1 := update_swap_row db swap_id swap' in
                        let db2 :=
                          match employee_by_id db1
                                  (sh_employee_id requester_shift) with
                          | Some requester_employee =>
                              if negb (emp_user_id requester_employee =? 0)
                              then create_notification db1
                                     (emp_user_id requester_employee)
                                     SWAP_REQUESTED
                              else db1
                          | None => db1
                          end in
                        reload_swap db2 (sw_id swap')
                  end
            end
        end
  end.

Definition cancel_shift_swap (db : DB) (current_user_id : Z) (swap_id : Z)
  : http (DB * ShiftSwap) :=
  match swap_by_id db swap_id with
  | None => Err HTTP_404
  | Some swap =>
      if negb (is_open (sw_status swap)) then Err HTTP_400
      else
        match get_employee_for_user db current_user_id with
        | None => Err HTTP_403
        | Some employee =>
            match shift_by_id db (requester_shift_id swap) with
            | None => Err HTTP_500
            | Some requester_shift =>
                if negb (sh_employee_id requester_shift =? emp_id employee)
                then Err HTTP_403
                else
                  let swap' := set_swap_status swap SW_CANCELLED in
                  reload_swap (update_swap_row db swap_id swap') (sw_id swap')
            end
        end
  end.

(** The route [PATCH /swaps/{swap_id}]. *)
Definition update_shift_swap (db : DB) (now : Z) (current_user_id : Z)
  (swap_id : Z) (status : SwapStatus) : http (DB * ShiftSwap) :=
  match swap_by_id db swap_id with
  | None => Err HTTP_404
  | Some swap =>
      if negb (is_open (sw_status swap)) then Err HTTP_400
      else if SwapStatus_eqb status SW_APPROVED
      then approve_shift_swap db now current_user_id swap_id
      else
        let swap' :=
          if SwapStatus_eqb status SW_APPROVED
             || SwapStatus_eqb status SW_DENIED
          then mkSwap (sw_id swap) (requester_shift_id swap)
                 (requested_shift_id swap) status (Some current_user_id)
                 (Some now)
          else set_swap_status swap status in
        reload_swap (update_swap_row db swap_id swap') (sw_id swap')
  end.

(** ** Recording actual orders (forecaster.py, routes/forecasts.py) *)

Definition forecast_key (store_id : Z) (target_date : date) (hour : Z)
  (f : OrderForecast) : bool :=
  (of_store_id f =? store_id) && (of_date f =? target_date)
  && (of_hour f =? hour).

Definition set_actual_orders (f : OrderForecast) (a : R) : OrderForecast :=
  mkOrderForecast (of_store_id f) (of_date f) (of_hour f)
    (predicted_orders f) (Some a).

(** The row [.first()] returned is the one that is modified. *)
Fixpoint update_first {A : Type} (p : A -> bool) (g : A -> A) (l : list A)
  : list A :=
  match l with
  | [] => []
  | x :: rest => if p x then g x :: rest else x :: update_first p g rest
  end.

Definition update_actuals (fdb : ForecastDB) (store_id : Z)
  (target_date : date) (hour : Z) (actual_orders_ : R) : ForecastDB * bool :=
  match first (forecast_key store_id target_date hour)
          (order_forecasts fdb) with
  | Some _ =>
      (mkFDB (historical_orders fdb)
         (update_first (forecast_key store_id target_date hour)
            (fun f => set_actual_orders f actual_orders_)
            (order_forecasts fdb))
         (labor_standards fdb),
       true)
  | None => (fdb, false)
  end.

(** The route [POST /forecasts/update-actuals]; its query parameters are
    validated ([hour] in 0..23, [actual_orders >= 0]) before the body
    runs.  The route does not look the store up: when it has to insert a
    row for a store id without a store row, the commit violates the
    foreign key [order_forecasts.store_id -> stores.id] and the
    [IntegrityError] is a 500 answer. *)
Definition update_actual_orders (db : DB) (fdb : ForecastDB) (store_id : Z)
  (target_date : date) (hour : Z) (actual_orders_ : R) : http ForecastDB :=
  if (hour <? 0) || (23 <? hour) || Rltb actual_orders_ 0
  then Err (HTTP_422 [] [])
  else
    let '(fdb1, updated) :=
      update_actuals fdb store_id target_date hour actual_orders_ in
    if updated then Ok fdb1
    else
      match store_by_id db store_id with
      | None => Err HTTP_500
      | Some _ =>
          Ok (mkFDB (historical_orders fdb1)
                (order_forecasts fdb1
                 ++ [mkOrderForecast store_id target_date hour 0%R
                       (Some actual_orders_)])
                (labor_standards fdb1))
      end.

(** ** Staffing estimates (app/services/labor_standards.py) *)

(** [math.ceil] *)
Definition R_ceil (x : R) : Z := - Int_part (- x).

(** [None] is the [ZeroDivisionError] of a zero shift length. *)
Definition calculate_pickers_needed (required_hours : R) (shift_length : Z)
  : option Z :=
  if Rle_dec required_hours 0 then Some 0
  else if shift_length =? 0 then None
  else Some (R_ceil (required_hours / IZR shift_length)).

(** ** Locking an existing shift (app/api/routes/optimizer.py) *)

(** The search for the first template with the hours of the shift. *)
Fixpoint matching_template (start_h end_h : Z)
  (templates : list (nat * ShiftTemplate)) : option nat :=
  match templates with
  | [] => None
  | (idx, template) :: rest =>
      if (start_hour template =? start_h) && (end_hour template =? end_h)
      then Some idx
      else matching_template start_h end_h rest
  end.

Definition lock_existing_shift (db : DB) (shift_id : Z) : http LockedShift :=
  match shift_by_id db shift_id with
  | None => Err HTTP_404
  | Some shift =>
      match schedule_by_id db (sh_schedule_id shift) with
      | None => Err HTTP_404
      | Some schedule =>
          let day_index := sh_date shift - week_start_date schedule in
          if (day_index <? 0) || (6 <? day_index) then Err HTTP_400
          else
            match matching_template (hour_of (start_time shift))
                    (hour_of (end_time shift))
                    (enumerate SHIFT_TEMPLATES) with
            | None => Err HTTP_400
            | Some idx => Ok (mkLocked (sh_employee_id shift) day_index idx)
            end
      end
  end.

(** ** The forecasting methods on binary64 (app/services/forecaster.py) *)

(** The four methods once more, on the values Python computes with: a
    [float] is an IEEE 754 binary64 number and [+], [-], [*], [/] and
    [math.sqrt] round to nearest, ties to even, which is what the
    primitive floats of Rocq do. *)
Module Binary64.
Import PrimFloat.
Local Open Scope float_scope.
#[local] Set Warnings "-inexact-float".

Definition float := PrimFloat.float.

(** A bucket of samples: [(date, order_count)] pairs. *)
Definition bucket := list (date * float).

(** [float(n)] of an [int]: the nearest binary64 value. *)
Definition float_of_Z (z : Z) : float :=
  FloatOps.SF2Prim
    (SpecFloat.binary_normalize FloatOps.prec FloatOps.emax z 0 false).

Definition float_of_nat (n : nat) : float := float_of_Z (Z.of_nat n).

(** [sum(values)]: the additions from left to right, starting at 0. *)
Definition fsum (values : list float) : float :=
  fold_left PrimFloat.add values 0.

(** [max(0, x)] *)
Definition max0 (x : float) : float := if 0 <? x then x else 0.

(** [min(a, b, c)] and [max(a, b, c)]: the first extreme argument. *)
Definition min3 (a b c : float) : float :=
  let m := if b <? a then b else a in
  if c <? m then c else m.

Definition max3 (a b c : float) : float :=
  let m := if a <? b then b else a in
  if m <? c then c else m.

Definition WEIGHT_DECAY : float := 0.85.

Definition ALPHA : float := 0.3.

Section Methods.

(** [x ** y] on floats.  CPython's [float_pow] answers [1.0] when [y] is
    zero and [0.0] for a zero [x] and a positive [y]; otherwise it calls
    [pow] of the C library, whose rounding the language does not fix.
    The function is a parameter of the methods. *)
Variable float_pow : float -> float -> float.

Definition _simple_average (data_points : bucket) : float * float * float :=
  match data_points with
  | [] => (0, 0, 0)
  | _ =>
      let values := map snd data_points in
      let mean := fsum values / float_of_nat (length values) in
      let margin :=
        if (1 <? length values)%nat then
          let variance :=
            fsum (map (fun v => float_pow (v - mean) 2) values)
            / float_of_nat (length values - 1) in
          let std_dev := PrimFloat.sqrt variance in
          1.96 * std_dev / PrimFloat.sqrt (float_of_nat (length values))
        else mean * 0.3 in
      (mean, max0 (mean - margin), mean + margin)
  end.

Definition sample_weight (reference_date : date) (d : date) : float :=
  let weeks_ago := float_of_Z (reference_date - d) / 7 in
  float_pow WEIGHT_DECAY weeks_ago.

Definition _weighted_average (data_points : bucket) (reference_date : date)
  : float * float * float :=
  match data_points with
  | [] => (0, 0, 0)
  | _ =>
      let sorted_points :=
        sort_by (fun a b => (fst b <=? fst a)%Z) data_points in
      let weighted_values :=
        map (fun p => (snd p, sample_weight reference_date (fst p)))
          sorted_points in
      let weighted_sum :=
        fsum (map (fun vw => fst vw * snd vw) weighted_values) in
      let weight_total := fsum (map snd weighted_values) in
      if weight_total =? 0 then (0, 0, 0)
      else
        let mean := weighted_sum / weight_total in
        let margin :=
          if (1 <? length weighted_values)%nat then
            let variance_sum :=
              fsum (map (fun vw => snd vw * float_pow (fst vw - mean) 2)
                      weighted_values) in
            let variance := variance_sum / weight_total in
            let std_dev := PrimFloat.sqrt variance in
            1.96 * std_dev
          else mean * 0.3 in
        (mean, max0 (mean - margin), mean + margin)
  end.

End Methods.

Definition smooth_step (level value : float) : float :=
  ALPHA * value + (1 - ALPHA) * level.

(** The second loop of [_exponential_smoothing]: the absolute one-step
    errors, with the running smoothed value. *)
Fixpoint smoothing_errors (smooth : float) (values : list float)
  : list float :=
  match values with
  | [] => []
  | value :: rest =>
      PrimFloat.abs (value - smooth)
      :: smoothing_errors (smooth_step smooth value) rest
  end.

Definition _exponential_smoothing (data_points : bucket)
  : float * float * float :=
  match data_points with
  | [] => (0, 0, 0)
  | _ =>
      let sorted_points :=
        sort_by (fun a b => (fst a <=? fst b)%Z) data_points in
      match map snd sorted_points with
      | [] => (0, 0, 0)
      | v0 :: rest =>
          let level := fold_left smooth_step rest v0 in
          let errors := smoothing_errors v0 rest in
          let margin :=
            match errors with
            | [] => level * 0.3
            | _ =>
                let mae := fsum errors / float_of_nat (length errors) in
                1.96 * mae
            end in
          (level, max0 (level - margin), level + margin)
      end
  end.

Definition _ensemble_forecast (float_pow : float -> float -> float)
  (data_points : bucket) (reference_date : date) : float * float * float :=
  let '(s0, s1, s2) := _simple_average float_pow data_points in
  let '(w0, w1, w2) :=
    _weighted_average float_pow data_points reference_date in
  let '(e0, e1, e2) := _exponential_smoothing data_points in
  let predicted := 0.25 * s0 + 0.45 * w0 + 0.30 * e0 in
  let conf_low := min3 s1 w1 e1 in
  let conf_high := max3 s2 w2 e2 in
  (predicted, conf_low, conf_high).

End Binary64.

(** ** Auxiliary predicates and sample states *)

Definition monday : date := 739257.

Definition has_type (t : ViolationType) (l : list ComplianceViolation) : bool :=
  existsb (fun v => ViolationType_eqb (v_type v) t) l.

Definition overlap_shift_a : Shift :=
  mkShift (Some 1) 1 1 monday (time_of_hour 8) (time_of_hour 11) 0 SCHEDULED
    None None None None.

Definition overlap_shift_b : Shift :=
  mkShift (Some 2) 1 1 monday (time_of_hour 9) (time_of_hour 12) 0 SCHEDULED
    None None None None.

Definition db_overlap : DB :=
  mkDB [mkStore 1 (Some (time_of_hour 8)) (Some (time_of_hour 22))]
    [mkEmployee 1 1 1 ACTIVE] [] []
    [mkSchedule 1 1 monday DRAFT 1 None]
    [overlap_shift_a; overlap_shift_b] [] [].

Definition all_findings (r : ComplianceResult) : list ComplianceViolation :=
  violations r ++ warnings r ++ info r.

Definition break_rule_ok (sh : Shift) : Prop :=
  required_break_for (_get_shift_total_hours sh) <= break_minutes sh.

Definition nine_hour_shift : Shift :=
  mkShift (Some 1) 1 1 monday (time_of_hour 8) (time_of_hour 17) 60 SCHEDULED
    None None None None.

Definition db_nine_hour : DB :=
  mkDB [mkStore 1 (Some (time_of_hour 8)) (Some (time_of_hour 22))]
    [mkEmployee 1 1 1 ACTIVE] [] []
    [mkSchedule 1 1 monday DRAFT 1 None]
    [nine_hour_shift] [] [].

Definition break_only_update : ShiftUpdate :=
  mkShiftUpdate None None None None (Some 0).

Definition without_shift (db : DB) (shift_id : Z) : DB :=
  with_shifts db
    (filter (fun sh => negb (opt_Z_eqb (sh_id sh) (Some shift_id)))
       (shifts db)).

Definition drop_called_out (db : DB) : DB :=
  with_shifts db
    (filter (fun sh => negb (ShiftStatus_eqb (sh_status sh) CALLED_OUT))
       (shifts db)).

Definition eight_hour_shift : Shift :=
  mkShift (Some 1) 1 1 monday (time_of_hour 8) (time_of_hour 16) 30 SCHEDULED
    None None None None.

Definition db_before_callout : DB :=
  mkDB [mkStore 1 (Some (time_of_hour 8)) (Some (time_of_hour 22))]
    [mkEmployee 1 1 1 ACTIVE; mkEmployee 2 2 1 ACTIVE] [] []
    [mkSchedule 1 1 monday PUBLISHED 1 (Some 0)]
    [eight_hour_shift] [] [].

Definition same_but_employee (a b : Shift) : Prop :=
  sh_id a = sh_id b /\ sh_schedule_id a = sh_schedule_id b
  /\ sh_date a = sh_date b /\ start_time a = start_time b
  /\ end_time a = end_time b /\ break_minutes a = break_minutes b
  /\ sh_status a = sh_status b /\ callout_reason a = callout_reason b
  /\ callout_time a = callout_time b
  /\ original_employee_id a = original_employee_id b
  /\ covered_by_id a = covered_by_id b.

Definition pair_of (sc : Schedule) : Z * Z :=
  (sc_store_id sc, week_start_date sc).

(** One schedule row per (store, week_start), distinct primary keys, and
    no archived row. *)
Definition one_schedule_per_week (l : list Schedule) : Prop :=
  NoDup (map pair_of l) /\ NoDup (map sc_id l)
  /\ forall sc, In sc l -> sc_status sc <> ARCHIVED.

Definition store_one : Store :=
  mkStore 1 (Some (time_of_hour 8)) (Some (time_of_hour 22)).

Definition db_store_only : DB :=
  mkDB [store_one] [mkEmployee 1 1 1 ACTIVE; mkEmployee 2 2 1 ACTIVE]
    [] [] [] [] [] [].

Definition monday_shift : GeneratedShift :=
  mkGenerated 1 monday (time_of_hour 8) (time_of_hour 16) 30.

Definition tuesday_shift : GeneratedShift :=
  mkGenerated 1 (monday + 1) (time_of_hour 8) (time_of_hour 16) 30.

Definition db_of {A : Type} (r : http (DB * A)) : DB :=
  match r with
  | Ok (db, _) => db
  | Err _ => empty_db
  end.

Definition db_first_draft : DB :=
  fst (fst (apply_schedule db_store_only 1 monday [monday_shift] 1)).

Definition db_first_published : DB :=
  db_of (publish_schedule db_first_draft 0 1 true false).

Definition db_second_draft : DB :=
  fst (fst (apply_schedule db_first_published 1 monday [tuesday_shift] 1)).

Definition db_two_published : DB :=
  db_of (publish_schedule db_second_draft 0 2 true false).

Definition swap_shift_a : Shift :=
  mkShift (Some 1) 1 1 monday (time_of_hour 8) (time_of_hour 16) 30 SCHEDULED
    None None None None.

Definition swap_shift_b : Shift :=
  mkShift (Some 2) 1 2 (monday + 2) (time_of_hour 10) (time_of_hour 18) 30
    SCHEDULED None None None None.

Definition db_swap : DB :=
  mkDB [store_one] [mkEmployee 1 1 1 ACTIVE; mkEmployee 2 2 1 ACTIVE] [] []
    [mkSchedule 1 1 monday PUBLISHED 1 (Some 0)]
    [swap_shift_a; swap_shift_b]
    [mkSwap 1 1 (Some 2) SW_ACCEPTED None None] [].

Definition interval_ok (t : R * R * R) : Prop :=
  let '(predicted, low, high) := t in
  (0 <= low /\ low <= predicted /\ predicted <= high)%R.

Definition nonneg_bucket (b : bucket) : Prop :=
  forall p, In p b -> (0 <= snd p)%R.

Definition exact_forecast_row : OrderForecast :=
  mkOrderForecast 1 monday 12 10%R (Some 10%R).

Definition fdb_exact : ForecastDB := mkFDB [] [exact_forecast_row] [].

Definition fdb_none : ForecastDB := mkFDB [] [] [].


Definition standard_of (fdb : ForecastDB) (store_id : Z)
  : option LaborStandard :=
  first (fun s => ls_store_id s =? store_id) (labor_standards fdb).


(** The (hour, predicted orders) pairs [get_hourly_requirements] works
    from: the stored forecast rows of the store and date, or, when there
    are none and [auto_generate] is set, the hours of [forecast_day]. *)
Definition forecasts_used (fdb : ForecastDB) (today : date) (store_id : Z)
  (target_date : date) (auto_generate : bool) (store : Store)
  : list (Z * R) :=
  match map (fun f => (of_hour f, predicted_orders f))
          (filter (fun f => (of_store_id f =? store_id)
                            && (of_date f =? target_date))
             (order_forecasts fdb)) with
  | [] =>
      if auto_generate then
        map (fun hourly => (hf_hour hourly, hf_predicted_orders hourly))
          (map (fun hour =>
                  forecast_hour target_date hour ENSEMBLE
                    (_get_historical_data fdb today store_id))
             (range (start_hour_of store 8) (end_hour_of store 22)))
      else []
  | stored => stored
  end.

(** The requirements of the given hours under a standard: per hour, the
    predicted orders divided by the standard's orders per picker hour,
    rounded to two digits. *)
Definition requirements_of (standard : LaborStandard)
  (forecasts : list (Z * R)) (hours : list Z) : Requirements :=
  map (fun hour =>
         (hour,
          R_round
            (calculate_required_hours
               match first (fun f => fst f =? hour) forecasts with
               | Some f => snd f
               | None => 0%R
               end
               (orders_per_picker_hour standard)) 2))
    hours.

Definition operating_hours (store : Store) : list Z :=
  range (start_hour_of store store_open_hour)
    (end_hour_of store store_close_hour).

Definition all_hourly (w : WeeklyForecast) : list HourlyForecast :=
  flat_map hourly_forecasts (daily_forecasts w).

Definition no_history (fdb : ForecastDB) (store_id : Z) : Prop :=
  filter (fun r => ho_store_id r =? store_id) (historical_orders fdb) = [].

Definition friday_history : HistoricalOrder :=
  mkHistorical 2 (monday - 3) 12 25%R None.

Definition fdb_other_store : ForecastDB := mkFDB [friday_history] [] [].

(** The generated shift a shift variable stands for. *)
Definition shift_of_var (week_start : date) (e d : Z) (i : nat)
  : option GeneratedShift :=
  match nth_error SHIFT_TEMPLATES i with
  | Some template =>
      Some (mkGenerated e (week_start + d)
              (time_of_hour (start_hour template))
              (time_of_hour (end_hour template))
              (t_break_minutes template))
  | None => None
  end.

Definition from_lock (week_start : date) (l : LockedShift)
  (g : GeneratedShift) : Prop :=
  shift_of_var week_start (lk_employee_id l) (lk_day_index l)
    (shift_template_idx l) = Some g.

Definition on_approved_time_off (db : DB) (g : GeneratedShift) : Prop :=
  exists r, approved_time_off_on db (g_employee_id g) (g_date g) = Some r.

Definition time_off_monday : TimeOffRequest :=
  mkTimeOff 1 1 monday monday TO_APPROVED.

Definition db_locked : DB :=
  mkDB [store_one] [mkEmployee 1 1 1 ACTIVE] [] [time_off_monday]
    [] [] [] [].

Definition fdb_locked : ForecastDB :=
  mkFDB [] [mkOrderForecast 1 monday 12 50%R None]
    [mkLaborStandard 1 10%R 4 8].

Definition monday_lock : LockedShift := mkLocked 1 0 0.

Definition locked_generated : GeneratedShift :=
  mkGenerated 1 monday (time_of_hour 8) (time_of_hour 16) 30.

(** A solver that assigns 1 to the variables the model forces to 1 (and
    to their day variables), 0 to the others, and answers FEASIBLE when
    that assignment satisfies the model. *)
Definition forced_ones (cs : list Constraint) : list Var :=
  flat_map (fun c => match c with
                     | EqConst v 1 => [v]
                     | _ => []
                     end) cs.

Definition lock_value (cs : list Constraint) (v : Var) : Z :=
  match v with
  | ShiftVar _ _ _ => if existsb (Var_eqb v) (forced_ones cs) then 1 else 0
  | DayVar e d =>
      if existsb (fun f => match f with
                           | ShiftVar e' d' _ => (e =? e') && (d =? d')
                           | DayVar _ _ => false
                           end) (forced_ones cs)
      then 1 else 0
  end.

Definition lock_solver (m : CpModel) : SolverResponse :=
  let val := lock_value (constraints m) in
  mkResponse
    (if forallb (fun c => holds val c
                          && forallb (fun v => is_boolean (val v))
                               (vars_of c))
          (constraints m)
     then CP_FEASIBLE else CP_UNKNOWN)
    val.

(** Primary keys of the shifts table are pairwise distinct. *)
Definition unique_shift_ids (db : DB) : Prop := NoDup (map sh_id (shifts db)).

Definition unique_employee_ids (db : DB) : Prop :=
  NoDup (map emp_id (employees db)).

(** The employee [find_replacements] leaves out: the one who called out. *)
Definition absent_employee (shift : Shift) : Z :=
  if truthy (original_employee_id shift)
  then match original_employee_id shift with
       | Some o => o
       | None => sh_employee_id shift
       end
  else sh_employee_id shift.

Fixpoint sorted_by {A : Type} (leb : A -> A -> bool) (l : list A) : Prop :=
  match l with
  | [] => True
  | x :: rest => (forall y, In y rest -> leb x y = true) /\ sorted_by leb rest
  end.

Definition callout_shift : Shift :=
  mkShift (Some 1) 1 1 monday (time_of_hour 8) (time_of_hour 16) 30 CALLED_OUT
    None (Some 0) (Some 1) None.

Definition db_called_out : DB :=
  mkDB [mkStore 1 (Some (time_of_hour 8)) (Some (time_of_hour 22))]
    [mkEmployee 1 1 1 ACTIVE; mkEmployee 2 2 1 ACTIVE] [] []
    [mkSchedule 1 1 monday PUBLISHED 1 (Some 0)]
    [callout_shift] [] [].

Definition scheduled_shift : Shift :=
  mkShift (Some 1) 1 1 monday (time_of_hour 8) (time_of_hour 16) 30 SCHEDULED
    None None None None.

Definition db_scheduled : DB :=
  mkDB [mkStore 1 (Some (time_of_hour 8)) (Some (time_of_hour 22))]
    [mkEmployee 1 1 1 ACTIVE; mkEmployee 2 2 1 ACTIVE] [] []
    [mkSchedule 1 1 monday PUBLISHED 1 (Some 0)]
    [scheduled_shift] [] [].

Definition db_two_candidates : DB :=
  mkDB [mkStore 1 (Some (time_of_hour 8)) (Some (time_of_hour 22))]
    [mkEmployee 1 1 1 ACTIVE; mkEmployee 2 2 1 ACTIVE;
     mkEmployee 3 3 1 ACTIVE]
    [mkAvailability 2 0 false None None] []
    [mkSchedule 1 1 monday PUBLISHED 1 (Some 0)]
    [callout_shift] [] [].

Definition with_availabilities (db : DB) (l : list Availability) : DB :=
  mkDB (stores db) (employees db) l (time_off_requests db) (schedules db)
    (shifts db) (shift_swaps db) (notifications db).

Definition five_hour_shift : Shift :=
  mkShift (Some 1) 1 1 monday (time_of_hour 8) (time_of_hour 13) 0 SCHEDULED
    None None None None.

Definition db_five_hours : DB :=
  mkDB [mkStore 1 (Some (time_of_hour 8)) (Some (time_of_hour 22))]
    [mkEmployee 1 1 1 ACTIVE] [] []
    [mkSchedule 1 1 monday DRAFT 1 None]
    [five_hour_shift] [] [].

Definition short_break_shift : Shift :=
  mkShift (Some 1) 1 1 monday (time_of_hour 8) (time_of_hour 17) 0 SCHEDULED
    None None None None.

Definition db_short_break : DB :=
  mkDB [mkStore 1 (Some (time_of_hour 8)) (Some (time_of_hour 22))]
    [mkEmployee 1 1 1 ACTIVE] [] []
    [mkSchedule 1 1 monday DRAFT 1 None]
    [short_break_shift] [] [].

Definition six_long_days : list Shift :=
  map (fun k =>
         mkShift (Some (k + 1)) 1 1 (monday + k) (time_of_hour 8)
           (time_of_hour 16) 0 SCHEDULED None None None None)
    [0; 1; 2; 3; 4; 5].

Definition db_six_long_days : DB :=
  mkDB [mkStore 1 (Some (time_of_hour 8)) (Some (time_of_hour 22))]
    [mkEmployee 1 1 1 ACTIVE] [] []
    [mkSchedule 1 1 monday DRAFT 1 None]
    six_long_days [] [].

(** The employee ids of a list in the order of their first occurrence,
    leaving out those already seen. *)
Fixpoint first_occurrences (seen : list Z) (l : list Z) : list Z :=
  match l with
  | [] => []
  | x :: rest =>
      if existsb (Z.eqb x) seen then first_occurrences seen rest
      else x :: first_occurrences (x :: seen) rest
  end.

Definition published_notification (e : Employee) : Notification :=
  mkNotification (emp_user_id e) SCHEDULE_PUBLISHED.

Definition db_two_workers : DB :=
  mkDB [mkStore 1 (Some (time_of_hour 8)) (Some (time_of_hour 22))]
    [mkEmployee 1 11 1 ACTIVE; mkEmployee 2 12 1 ACTIVE] [] []
    [mkSchedule 1 1 monday DRAFT 1 None]
    [mkShift (Some 1) 1 1 monday (time_of_hour 8) (time_of_hour 12) 0
       SCHEDULED None None None None;
     mkShift (Some 2) 1 2 monday (time_of_hour 8) (time_of_hour 12) 0
       SCHEDULED None None None None;
     mkShift (Some 3) 1 1 (monday + 1) (time_of_hour 8) (time_of_hour 12) 0
       SCHEDULED None None None None] [] [].

Definition swap_monday_shift : Shift :=
  mkShift (Some 1) 1 1 monday (time_of_hour 8) (time_of_hour 16) 30 SCHEDULED
    None None None None.

Definition swap_tuesday_shift : Shift :=
  mkShift (Some 2) 1 2 (monday + 1) (time_of_hour 8) (time_of_hour 16) 30
    SCHEDULED None None None None.

Definition db_before_swap : DB :=
  mkDB [mkStore 1 (Some (time_of_hour 8)) (Some (time_of_hour 22))]
    [mkEmployee 1 11 1 ACTIVE; mkEmployee 2 12 1 ACTIVE] [] []
    [mkSchedule 1 1 monday PUBLISHED 1 (Some 0)]
    [swap_monday_shift; swap_tuesday_shift] [] [].

Definition db_pending_swap : DB :=
  with_shift_swaps db_before_swap [mkSwap 1 1 None SW_PENDING None None].

Definition db_cancelled_swap : DB :=
  with_shift_swaps db_before_swap [mkSwap 1 1 None SW_CANCELLED None None].

Definition forecast_in_week (store_id : Z) (week_start : date)
  (f : OrderForecast) : bool :=
  (of_store_id f =? store_id) && (week_start <=? of_date f)
  && (of_date f <=? week_start + 6).

Definition forecast_rows (store_id : Z) (w : WeeklyForecast)
  : list OrderForecast :=
  flat_map
    (fun daily =>
       map (fun hourly =>
              mkOrderForecast store_id (hf_date hourly) (hf_hour hourly)
                (hf_predicted_orders hourly) None)
         (hourly_forecasts daily))
    (daily_forecasts w).

Definition fdb_one_sample : ForecastDB :=
  mkFDB [mkHistorical 1 (monday - 7) 12 25%R None] [] [].

Definition full_day_shift : Shift :=
  mkShift (Some 1) 1 1 (monday + 2) (time_of_hour 9) (time_of_hour 17) 30
    SCHEDULED None None None None.

Definition full_day_schedule : Schedule := mkSchedule 1 1 monday DRAFT 1 None.

Definition db_full_day : DB :=
  mkDB [mkStore 1 (Some (time_of_hour 8)) (Some (time_of_hour 22))]
    [mkEmployee 1 11 1 ACTIVE] [] [] [full_day_schedule] [full_day_shift]
    [] [].

(** The keys of the shift-variable dictionary are distinct at both
    levels, as the keys of the nested Python dictionaries are. *)
Definition sv_wf (sv : ShiftVars) : Prop :=
  NoDup (map fst sv)
  /\ forall e days, In (e, days) sv -> NoDup (map fst days).

(** The (employee, date) pairs of the shift variables set to 1, in the
    order the extraction visits them. *)
Definition booked (val : Var -> Z) (week_start : date) (sv : ShiftVars)
  : list (Z * date) :=
  flat_map
    (fun ed =>
       flat_map
         (fun di =>
            map (fun _ : nat => (fst ed, week_start + fst di))
              (filter (fun i => val (ShiftVar (fst ed) (fst di) i) =? 1)
                 (snd di)))
         (snd ed))
    sv.

Definition booking (g : GeneratedShift) : Z * date :=
  (g_employee_id g, g_date g).

Definition shift_columns (sh : Shift)
  : Z * Z * date * time * time * Z * ShiftStatus :=
  (sh_schedule_id sh, sh_employee_id sh, sh_date sh, start_time sh,
   end_time sh, break_minutes sh, sh_status sh).

Definition generated_columns (schedule_id : Z) (g : GeneratedShift)
  : Z * Z * date * time * time * Z * ShiftStatus :=
  (schedule_id, g_employee_id g, g_date g, g_start_time g, g_end_time g,
   g_break_minutes g, SCHEDULED).

(** The foreign key of [shifts.schedule_id]. *)
Definition shifts_reference_schedules (db : DB) : Prop :=
  forall sh, In sh (shifts db) ->
             exists sc, In sc (schedules db) /\ sc_id sc = sh_schedule_id sh.

(** A power function with the two special cases of CPython's
    [float_pow]; its other values are not used. *)
Definition pow_special_cases (x y : PrimFloat.float) : PrimFloat.float :=
  if PrimFloat.eqb y PrimFloat.zero then PrimFloat.one
  else if PrimFloat.eqb x PrimFloat.zero then PrimFloat.zero
  else PrimFloat.nan.

(** One sample of 47 orders, and the same sample stored twice, both
    dated on the day that is forecast. *)
Definition single_sample : Binary64.bucket :=
  [(monday, Binary64.float_of_Z 47)].

Definition repeated_sample : Binary64.bucket :=
  [(monday, Binary64.float_of_Z 47); (monday, Binary64.float_of_Z 47)].

(** * Properties *)

(** ** generic facts *)

Lemma ViolationType_eqb_eq a b : ViolationType_eqb a b = true <-> a = b.
Proof. destruct a, b; simpl; split; intro H; try reflexivity; discriminate. Qed.

Lemma opt_Z_eqb_eq a b : opt_Z_eqb a b = true <-> a = b.
Proof.
  destruct a as [x|], b as [y|]; simpl; split; intro H;
    try discriminate; try reflexivity.
  - apply Z.eqb_eq in H. now subst.
  - inversion H. apply Z.eqb_refl.
Qed.

Lemma key_eqb_eq a b : key_eqb a b = true <-> a = b.
Proof.
  destruct a as [[t1 e1] d1], b as [[t2 e2] d2]. unfold key_eqb.
  rewrite !andb_true_iff, ViolationType_eqb_eq, Z.eqb_eq, opt_Z_eqb_eq.
  split.
  - intros [[-> ->] ->]. reflexivity.
  - intro H. inversion H. auto.
Qed.

Lemma with_severity_In s l v :
  In v (with_severity s l) -> In v l.
Proof. unfold with_severity. intro H. apply filter_In in H. tauto. Qed.

Lemma deduplicate_In seen l v :
  In v (deduplicate seen l) -> In v l.
Proof.
  revert seen. induction l as [|x l IH]; simpl; intros seen H; [easy|].
  destruct (existsb _ seen).
  - right. eapply IH. exact H.
  - destruct H as [->|H]; [now left|]. right. eapply IH. exact H.
Qed.

Lemma deduplicate_not_seen seen l v :
  In v (deduplicate seen l) -> ~ In (violation_key v) seen.
Proof.
  revert seen. induction l as [|x l IH]; simpl; intros seen H; [easy|].
  destruct (existsb _ seen) eqn:E.
  - eapply IH. exact H.
  - destruct H as [->|H].
    + intro Hin. 
      assert (existsb (key_eqb (violation_key v)) seen = true).
      { apply existsb_exists. exists (violation_key v). split; [exact Hin|].
        apply key_eqb_eq. reflexivity. }
      congruence.
    + intro Hin. apply (IH _ H). now right.
Qed.

Lemma deduplicate_NoDup seen l :
  NoDup (map violation_key (deduplicate seen l)).
Proof.
  revert seen. induction l as [|x l IH]; simpl; intros seen; [constructor|].
  destruct (existsb _ seen) eqn:E; [apply IH|].
  simpl. constructor; [|apply IH].
  intro Hin. apply in_map_iff in Hin. destruct Hin as [v [Hk Hv]].
  apply deduplicate_not_seen in Hv. apply Hv. rewrite Hk. now left.
Qed.

Lemma deduplicate_complete seen l v :
  In v l -> ~ In (violation_key v) seen ->
  exists v', In v' (deduplicate seen l) /\ violation_key v' = violation_key v.
Proof.
  revert seen. induction l as [|x l IH]; simpl; intros seen H Hs; [easy|].
  destruct (existsb _ seen) eqn:E.
  - destruct H as [->|H].
    + exfalso. apply existsb_exists in E. destruct E as [k [Hk1 Hk2]].
      apply key_eqb_eq in Hk2. subst k. contradiction.
    + apply IH; assumption.
  - destruct H as [->|H].
    + exists v. split; [now left|reflexivity].
    + destruct (key_eqb (violation_key v) (violation_key x)) eqn:E2.
      * apply key_eqb_eq in E2.
        exists x. split; [now left|now symmetry].
      * destruct (IH (violation_key x :: seen) H) as [v' [H1 H2]].
        { intros [Hx|Hx]; [|contradiction].
          assert (key_eqb (violation_key v) (violation_key x) = true)
            by (apply key_eqb_eq; now symmetry).
          congruence. }
        exists v'. split; [now right|exact H2].
Qed.

Lemma has_type_false t l :
  has_type t l = false <-> forall v, In v l -> v_type v <> t.
Proof.
  unfold has_type. split.
  - intros H v Hin Ht.
    assert (existsb (fun v => ViolationType_eqb (v_type v) t) l = true).
    { apply existsb_exists. exists v. split; [exact Hin|].
      apply ViolationType_eqb_eq. exact Ht. }
    congruence.
  - intro H. destruct (existsb _ l) eqn:E; [|reflexivity].
    apply existsb_exists in E. destruct E as [v [Hin Ht]].
    apply ViolationType_eqb_eq in Ht. exfalso. eapply H; eauto.
Qed.

(** ** C3 *)

Ltac findings_types :=
  repeat match goal with
  | H : In _ (_ ++ _) |- _ => apply in_app_or in H; destruct H as [H|H]
  | H : In _ [] |- _ => destruct H
  | H : In _ [_] |- _ => destruct H as [H|[]]; subst; simpl
  | H : In _ (if ?c then _ else _) |- _ => destruct c
  | H : In _ (match ?c with _ => _ end) |- _ => destruct c
  end.

Lemma employee_findings_no_overlap db w g v :
  In v (employee_findings db w g) -> v_type v <> SHIFT_OVERLAP.
Proof.
  destruct g as [e l]. unfold employee_findings.
  unfold validate_weekly_hours, validate_consecutive_days.
  intro H. apply in_app_or in H. destruct H as [H|H].
  { findings_types; discriminate. }
  apply in_app_or in H. destruct H as [H|H].
  { findings_types; discriminate. }
  apply in_flat_map in H. destruct H as [sh [_ H]].
  unfold validate_daily_hours, validate_break_requirements,
    validate_time_off_conflicts, validate_availability in H.
  findings_types; discriminate.
Qed.

(** No finding of [validate_schedule] has type [SHIFT_OVERLAP], whatever
    the database holds. *)
Lemma validate_schedule_never_reports_overlap db schedule_id v :
  In v (violations (validate_schedule db schedule_id)
        ++ warnings (validate_schedule db schedule_id)
        ++ info (validate_schedule db schedule_id)) ->
  v_type v <> SHIFT_OVERLAP.
Proof.
  unfold validate_schedule. destruct (schedule_by_id db schedule_id) as [sc|].
  - simpl. intro H.
    assert (Hin : In v (schedule_findings db sc)).
    { repeat (apply in_app_or in H; destruct H as [H|H]);
        apply with_severity_In, deduplicate_In in H; exact H. }
    unfold schedule_findings in Hin. apply in_flat_map in Hin.
    destruct Hin as [g [_ Hg]]. eapply employee_findings_no_overlap; eauto.
  - simpl. intros [<-|[]]. discriminate.
Qed.

(** C3: schedule-level validation does not run the overlap check that
    per-shift validation runs.  No result of [validate_schedule] holds a
    [SHIFT_OVERLAP] finding; on a schedule with two overlapping shifts of
    one employee it finds nothing and answers compliant, while
    [validate_shift] on either of the two shifts reports
    [SHIFT_OVERLAP]. *)
Theorem validate_schedule_misses_shift_overlap :
  (forall db schedule_id,
      has_type SHIFT_OVERLAP (all_findings (validate_schedule db schedule_id))
      = false)
  /\ schedule_shifts db_overlap 1 = [overlap_shift_a; overlap_shift_b]
  /\ validate_schedule db_overlap 1 = mkResult true [] [] []
  /\ has_type SHIFT_OVERLAP
       (violations (validate_shift db_overlap overlap_shift_a None)) = true
  /\ has_type SHIFT_OVERLAP
       (violations (validate_shift db_overlap overlap_shift_b None)) = true.
Proof.
  split.
  - intros db sid. apply has_type_false. intros v Hv.
    eapply validate_schedule_never_reports_overlap. exact Hv.
  - repeat split; vm_compute; reflexivity.
Qed.

(** The findings [validate_schedule] keeps have pairwise distinct keys
    (type, employee, date), and every key found is kept once. *)
Lemma validate_schedule_deduplicates db sc :
  NoDup (map violation_key (deduplicate [] (schedule_findings db sc)))
  /\ forall v, In v (schedule_findings db sc) ->
       exists v', In v' (deduplicate [] (schedule_findings db sc))
                  /\ violation_key v' = violation_key v.
Proof.
  split; [apply deduplicate_NoDup|].
  intros v Hv. apply deduplicate_complete; [exact Hv|]. intros [].
Qed.

(** ** C10 *)

Lemma auto_break_rule sh : break_rule_ok (auto_break sh).
Proof.
  unfold break_rule_ok, auto_break, _get_shift_total_hours,
    get_required_break_minutes, required_break_for.
  set (h := (inject_Z (total_seconds sh) / 3600)%Q).
  set (req := if Qleb 9 h then break_minutes_9hr_shift
              else if Qleb 8 h then break_minutes_8hr_shift else 0).
  destruct (break_minutes sh <? req) eqn:E.
  - change (total_seconds (set_break_minutes sh req)) with (total_seconds sh).
    simpl. fold h. fold req. lia.
  - fold h. fold req. apply Z.ltb_ge in E. exact E.
Qed.

Lemma auto_break_value sh :
  break_minutes (auto_break sh)
  = Z.max (break_minutes sh) (required_break_for (_get_shift_total_hours sh)).
Proof.
  unfold auto_break, _get_shift_total_hours, get_required_break_minutes,
    required_break_for.
  set (h := (inject_Z (total_seconds sh) / 3600)%Q).
  set (req := if Qleb 9 h then break_minutes_9hr_shift
              else if Qleb 8 h then break_minutes_8hr_shift else 0).
  destruct (break_minutes sh <? req) eqn:E; simpl.
  - apply Z.ltb_lt in E. lia.
  - apply Z.ltb_ge in E. lia.
Qed.

Lemma break_rule_no_finding sh :
  break_rule_ok sh -> validate_break_requirements sh = [].
Proof.
  unfold break_rule_ok, validate_break_requirements. intro H.
  destruct (break_minutes sh <? _) eqn:E; [|reflexivity].
  apply Z.ltb_lt in E. lia.
Qed.

Lemma shift_findings_break db sh w :
  break_rule_ok sh ->
  has_type INSUFFICIENT_BREAK (shift_findings db sh w) = false.
Proof.
  intro Hb. apply has_type_false. intros v H. unfold shift_findings in H.
  rewrite (break_rule_no_finding sh Hb) in H.
  unfold validate_daily_hours, validate_weekly_hours,
    validate_consecutive_days, validate_time_off_conflicts,
    validate_availability, validate_shift_overlap in H.
  repeat (apply in_app_or in H; destruct H as [H|H]);
    try (findings_types; discriminate).
  apply in_flat_map in H. destruct H as [x [_ H]].
  findings_types; discriminate.
Qed.

Lemma validate_shift_break db sh w :
  break_rule_ok sh ->
  has_type INSUFFICIENT_BREAK (violations (validate_shift db sh w)) = false.
Proof.
  intro Hb. unfold validate_shift, categorize. simpl.
  apply has_type_false. intros v H. apply with_severity_In in H.
  revert v H. apply has_type_false. apply shift_findings_break. exact Hb.
Qed.

Lemma gate_422 r force vs ws :
  compliance_gate r force = Err (HTTP_422 vs ws) -> vs = violations r.
Proof.
  unfold compliance_gate. destruct (negb (is_compliant r)).
  - intro H. inversion H. reflexivity.
  - destruct (_ && _); discriminate.
Qed.

Lemma shift_by_id_update db i sh old :
  shift_by_id db i = Some old -> sh_id sh = Some i ->
  shift_by_id (update_shift_row db i sh) i = Some sh.
Proof.
  unfold shift_by_id, update_shift_row, first. simpl.
  intros H Hid. induction (shifts db) as [|x l IH]; simpl in *; [discriminate|].
  destruct (opt_Z_eqb (sh_id x) (Some i)) eqn:E.
  - rewrite Hid. simpl. rewrite Z.eqb_refl. reflexivity.
  - rewrite E. apply IH. exact H.
Qed.

Lemma shift_by_id_sh_id db i sh :
  shift_by_id db i = Some sh -> sh_id sh = Some i.
Proof.
  unfold shift_by_id, first. intro H. apply find_some in H.
  destruct H as [_ H]. apply opt_Z_eqb_eq in H. exact H.
Qed.

Lemma apply_update_sh_id sh u : sh_id (apply_update sh u) = sh_id sh.
Proof.
  unfold apply_update.
  destruct (u_employee_id u), (u_date u), (u_start_time u), (u_end_time u),
    (u_break_minutes u); reflexivity.
Qed.

Lemma auto_break_sh_id sh : sh_id (auto_break sh) = sh_id sh.
Proof. unfold auto_break. destruct (_ <? _); reflexivity. Qed.

Lemma auto_break_total_hours sh i :
  _get_shift_total_hours (set_id (auto_break sh) i)
  = _get_shift_total_hours sh.
Proof. unfold auto_break. destruct (_ <? _); reflexivity. Qed.

(** C10, as amended: [create_shift] always raises [break_minutes] to the
    minimum required for the elapsed length of the shift, and
    [update_shift] does so when the request sets [start_time] or
    [end_time].  In those cases a persisted shift satisfies the break
    rule, and a 422 answer carries no [INSUFFICIENT_BREAK] finding. *)
Theorem break_raised_on_create_and_on_time_update :
  forall db validate force,
    (forall shift_data,
        match create_shift db shift_data validate force with
        | Ok (db', sh) =>
            In sh (shifts db') /\ break_rule_ok sh
            /\ break_minutes sh
               = Z.max (c_break_minutes shift_data)
                   (required_break_for (_get_shift_total_hours sh))
        | Err (HTTP_422 vs _) => has_type INSUFFICIENT_BREAK vs = false
        | Err _ => True
        end)
    /\ (forall shift_id shift_data,
           if is_set (u_start_time shift_data)
              || is_set (u_end_time shift_data)
           then
             match update_shift db shift_id shift_data validate force with
             | Ok (db', sh) =>
                 shift_by_id db' shift_id = Some sh /\ break_rule_ok sh
             | Err (HTTP_422 vs _) => has_type INSUFFICIENT_BREAK vs = false
             | Err _ => True
             end
           else True).
Proof.
  intros db validate force. split.
  - intro d. unfold create_shift.
    destruct (schedule_by_id db (c_schedule_id d)); [|exact I].
    set (s0 := mkShift None _ _ _ _ _ _ _ _ _ _ _).
    pose proof (auto_break_rule s0) as Hb.
    destruct validate.
    + destruct (compliance_gate _ force) as [[]|e] eqn:G; simpl.
      * unfold insert_shift. simpl. split; [|split].
        -- apply in_or_app. right. now left.
        -- exact Hb.
        -- rewrite auto_break_total_hours.
           change (break_minutes (set_id (auto_break s0) (next_shift_id db)))
             with (break_minutes (auto_break s0)).
           rewrite auto_break_value. reflexivity.
      * destruct e; try exact I. apply gate_422 in G. subst.
        apply validate_shift_break. exact Hb.
    + simpl. split; [|split].
      * apply in_or_app. right. now left.
      * exact Hb.
      * rewrite auto_break_total_hours.
        change (break_minutes (set_id (auto_break s0) (next_shift_id db)))
          with (break_minutes (auto_break s0)).
        rewrite auto_break_value. reflexivity.
  - intros i u.
    destruct (is_set (u_start_time u) || is_set (u_end_time u)) eqn:Hset;
      [|exact I].
    unfold update_shift. rewrite Hset.
    destruct (shift_by_id db i) as [old|] eqn:F; [|exact I].
    pose proof (auto_break_rule (apply_update old u)) as Hb.
    assert (Hid : sh_id (auto_break (apply_update old u)) = Some i).
    { rewrite auto_break_sh_id, apply_update_sh_id.
      eapply shift_by_id_sh_id; eauto. }
    destruct validate.
    + destruct (compliance_gate _ force) as [[]|e] eqn:G; simpl.
      * split; [|exact Hb]. eapply shift_by_id_update; eauto.
      * destruct e; try exact I. apply gate_422 in G. subst.
        apply validate_shift_break. exact Hb.
    + simpl. split; [|exact Hb]. eapply shift_by_id_update; eauto.
Qed.

(** C10 fails for an update that sets only [break_minutes]: on a
    nine-hour shift with a 60-minute break, setting the break to 0 is not
    adjusted; with validation the request is blocked with an
    [INSUFFICIENT_BREAK] finding, without validation the shift is
    persisted with a break of 0 where 60 is required. *)
Lemma break_only_update_not_raised :
  (exists vs ws,
      update_shift db_nine_hour 1 break_only_update true false
      = Err (HTTP_422 vs ws)
      /\ has_type INSUFFICIENT_BREAK vs = true)
  /\ (exists db' sh,
         update_shift db_nine_hour 1 break_only_update false false
         = Ok (db', sh)
         /\ In sh (shifts db')
         /\ break_minutes sh = 0
         /\ required_break_for (_get_shift_total_hours sh) = 60
         /\ has_type INSUFFICIENT_BREAK (validate_break_requirements sh)
            = true).
Proof.
  split.
  - eexists. eexists. split; [vm_compute; reflexivity|reflexivity].
  - eexists. eexists. split; [vm_compute; reflexivity|].
    repeat split; try reflexivity. now left.
Qed.

(** ** C6 *)

Lemma week_hours_rows_update db i sh e w :
  counts_for_week (sh_status sh) = false ->
  week_hours_rows (update_shift_row db i sh) e w
  = week_hours_rows (without_shift db i) e w.
Proof.
  intro Hs. unfold week_hours_rows, update_shift_row, without_shift. simpl.
  induction (shifts db) as [|x l IH]; simpl; [reflexivity|].
  destruct (opt_Z_eqb (sh_id x) (Some i)); simpl.
  - rewrite Hs, andb_false_r. exact IH.
  - rewrite IH. reflexivity.
Qed.

Lemma week_hours_rows_drop db e w :
  week_hours_rows (drop_called_out db) e w = week_hours_rows db e w.
Proof.
  unfold week_hours_rows, drop_called_out. simpl.
  induction (shifts db) as [|x l IH]; simpl; [reflexivity|].
  destruct (sh_status x) eqn:S; simpl; rewrite ?S, ?IH; try reflexivity.
  rewrite andb_false_r. reflexivity.
Qed.

(** C6, as amended: the weekly total of the lifecycle routes,
    [get_employee_week_hours], is the same with all called-out shifts
    removed; and [mark_callout] leaves the shift on its employee (recorded
    as [original_employee_id]) while the shift stops counting in that
    employee's weekly total. *)
Theorem called_out_shift_not_in_week_hours :
  forall db,
    (forall employee_id week_start,
        get_employee_week_hours db employee_id week_start
        = get_employee_week_hours (drop_called_out db) employee_id
            week_start)
    /\ (forall now shift_id reason,
           match mark_callout db now shift_id reason with
           | Ok (db', sh) =>
               shift_by_id db' shift_id = Some sh
               /\ sh_status sh = CALLED_OUT
               /\ (exists old,
                      shift_by_id db shift_id = Some old
                      /\ sh_status old = SCHEDULED
                      /\ sh_employee_id sh = sh_employee_id old
                      /\ original_employee_id sh
                         = Some (sh_employee_id old))
               /\ (forall employee_id week_start,
                      get_employee_week_hours db' employee_id week_start
                      = get_employee_week_hours (without_shift db shift_id)
                          employee_id week_start)
           | Err _ => True
           end).
Proof.
  intro db. split.
  - intros e w. unfold get_employee_week_hours.
    rewrite week_hours_rows_drop. reflexivity.
  - intros now i reason. unfold mark_callout.
    destruct (shift_by_id db i) as [old|] eqn:F; [|exact I].
    destruct (ShiftStatus_eqb (sh_status old) SCHEDULED) eqn:S; simpl;
      [|exact I].
    split; [|split; [|split]].
    + eapply shift_by_id_update; eauto. simpl.
      eapply shift_by_id_sh_id; eauto.
    + reflexivity.
    + exists old. repeat split. destruct (sh_status old); try discriminate.
      reflexivity.
    + intros e w. unfold get_employee_week_hours.
      rewrite week_hours_rows_update; reflexivity.
Qed.

(** C6 fails on a scheduled 7.5-hour shift that is marked called-out:
    the shift stays on employee 1, uncovered, and the weekly total of
    employee 1 drops from 7.5 to 0. *)
Lemma called_out_hours_dropped :
  exists db' sh,
    mark_callout db_before_callout 0 1 None = Ok (db', sh)
    /\ shift_by_id db' 1 = Some sh
    /\ sh_status sh = CALLED_OUT
    /\ covered_by_id sh = None
    /\ sh_employee_id sh = 1
    /\ get_week_start (sh_date sh) = monday
    /\ (duration_hours sh == 15 # 2)%Q
    /\ (get_employee_week_hours db_before_callout 1 monday == 15 # 2)%Q
    /\ (get_employee_week_hours db' 1 monday == 0)%Q.
Proof.
  eexists. eexists. split; [vm_compute; reflexivity|].
  repeat split; vm_compute; reflexivity.
Qed.

(** ** C9 *)

Lemma set_employee_id_same sh e : same_but_employee (set_employee_id sh e) sh.
Proof. repeat split. Qed.

Lemma find_id_map (g : Shift -> Shift) i l :
  (forall x, sh_id (g x) = sh_id x) ->
  find (fun sh => opt_Z_eqb (sh_id sh) (Some i)) (map g l)
  = option_map g (find (fun sh => opt_Z_eqb (sh_id sh) (Some i)) l).
Proof.
  intro Hg. induction l as [|x l IH]; simpl; [reflexivity|].
  rewrite Hg. destruct (opt_Z_eqb (sh_id x) (Some i)); [reflexivity|exact IH].
Qed.

Lemma shifts_notify_employee db e t :
  shifts (notify_employee db e t) = shifts db.
Proof.
  unfold notify_employee. destruct (employee_by_id db e); [|reflexivity].
  destruct (negb _); reflexivity.
Qed.

(** C9: approving an accepted swap whose two shift references are set
    succeeds, exchanges the [employee_id] of the two shifts, leaves every
    other field of both shifts and every other shift as it was, and
    stamps the swap as approved. *)
Theorem approval_exchanges_only_employee_ids :
  forall db now current_user_id swap_id swap rid qid r q,
    swap_by_id db swap_id = Some swap ->
    sw_status swap = SW_ACCEPTED ->
    requester_shift_id swap = rid ->
    requested_shift_id swap = Some qid ->
    qid <> 0 ->
    shift_by_id db rid = Some r ->
    shift_by_id db qid = Some q ->
    exists db' swap' r' q',
      approve_shift_swap db now current_user_id swap_id = Ok (db', swap')
      /\ shift_by_id db' rid = Some r'
      /\ shift_by_id db' qid = Some q'
      /\ sh_employee_id r' = sh_employee_id q
      /\ sh_employee_id q' = sh_employee_id r
      /\ same_but_employee r' r
      /\ same_but_employee q' q
      /\ (forall i, i <> rid -> i <> qid ->
                    shift_by_id db' i = shift_by_id db i)
      /\ length (shifts db') = length (shifts db)
      /\ sw_status swap' = SW_APPROVED
      /\ approved_by swap' = Some current_user_id
      /\ approved_at swap' = Some now.
Proof.
  intros db now u sid swap rid qid r q Hsw Hst Hrid Hqid Hq0 Hr Hq.
  unfold approve_shift_swap. rewrite Hsw, Hst, Hqid, Hrid. simpl.
  assert (Hq0' : (qid =? 0) = false) by (apply Z.eqb_neq; exact Hq0).
  rewrite Hq0'. simpl. rewrite Hr, Hq.
  pose proof (shift_by_id_sh_id _ _ _ Hr) as Hrid'.
  pose proof (shift_by_id_sh_id _ _ _ Hq) as Hqid'.
  rewrite Hrid', Hqid'.
  set (g1 := fun row => if opt_Z_eqb (sh_id row) (Some rid)
                        then set_employee_id row (sh_employee_id q) else row).
  set (g2 := fun row => if opt_Z_eqb (sh_id row) (Some qid)
                        then set_employee_id row (sh_employee_id r) else row).
  assert (Hg1 : forall x, sh_id (g1 x) = sh_id x).
  { intro x. unfold g1. destruct (opt_Z_eqb _ _); reflexivity. }
  assert (Hg2 : forall x, sh_id (g2 x) = sh_id x).
  { intro x. unfold g2. destruct (opt_Z_eqb _ _); reflexivity. }
  assert (Hfind : forall i,
             shift_by_id
               (notify_employee
                  (notify_employee
                     (with_shift_swaps
                        (with_shifts (with_shifts db (map g1 (shifts db)))
                           (map g2 (map g1 (shifts db))))
                        (map (fun row => if sw_id row =? sid
                                         then mkSwap (sw_id swap) rid
                                                (Some qid) SW_APPROVED
                                                (Some u) (Some now)
                                         else row)
                           (shift_swaps db)))
                     (sh_employee_id r) SWAP_APPROVED)
                  (sh_employee_id q) SWAP_APPROVED) i
             = option_map (fun x => g2 (g1 x)) (shift_by_id db i)).
  { intro i. unfold shift_by_id, first. rewrite !shifts_notify_employee.
    simpl. rewrite (find_id_map g2 i _ Hg2), (find_id_map g1 i _ Hg1).
    destruct (find _ (shifts db)); reflexivity. }
  eexists. eexists. exists (g2 (g1 r)), (g2 (g1 q)).
  split; [reflexivity|].
  split; [rewrite Hfind, Hr; reflexivity|].
  split; [rewrite Hfind, Hq; reflexivity|].
  assert (Hrr : opt_Z_eqb (sh_id r) (Some rid) = true)
    by (apply opt_Z_eqb_eq; exact Hrid').
  assert (Hqq : opt_Z_eqb (sh_id q) (Some qid) = true)
    by (apply opt_Z_eqb_eq; exact Hqid').
  destruct (Z.eq_dec rid qid) as [E|NE].
  - subst qid. assert (r = q) by congruence. subst q.
    unfold g2, g1. rewrite Hrr. simpl. rewrite Hrr. simpl.
    repeat split; try reflexivity.
    + intros i H1 H2. rewrite Hfind. destruct (shift_by_id db i) eqn:F;
        [|reflexivity]. simpl. apply shift_by_id_sh_id in F.
      unfold g2, g1. rewrite F. simpl.
      assert ((i =? rid) = false) by (apply Z.eqb_neq; exact H1).
      rewrite H. simpl. rewrite F. simpl. rewrite H. reflexivity.
    + rewrite !shifts_notify_employee. simpl. rewrite !length_map.
      reflexivity.
  - assert (Hrq : opt_Z_eqb (sh_id r) (Some qid) = false).
    { rewrite Hrid'. simpl. apply Z.eqb_neq. exact NE. }
    assert (Hqr : opt_Z_eqb (sh_id q) (Some rid) = false).
    { rewrite Hqid'. simpl. apply Z.eqb_neq. congruence. }
    unfold g2, g1. rewrite Hrr, Hqr. simpl. rewrite Hrq, Hqq.
    repeat split; try reflexivity.
    + intros i H1 H2. rewrite Hfind. destruct (shift_by_id db i) eqn:F;
        [|reflexivity]. simpl. apply shift_by_id_sh_id in F.
      unfold g2, g1. rewrite F. simpl.
      assert (Hi1 : (i =? rid) = false) by (apply Z.eqb_neq; exact H1).
      assert (Hi2 : (i =? qid) = false) by (apply Z.eqb_neq; exact H2).
      rewrite Hi1. rewrite F. simpl. rewrite Hi2. reflexivity.
    + rewrite !shifts_notify_employee. simpl. rewrite !length_map.
      reflexivity.
Qed.

(** ** C1 *)

Lemma ScheduleStatus_eqb_eq a b : ScheduleStatus_eqb a b = true <-> a = b.
Proof. destruct a, b; simpl; split; intro H; try reflexivity; discriminate. Qed.

Lemma NoDup_map_filter {A B} (f : A -> B) p l :
  NoDup (map f l) -> NoDup (map f (filter p l)).
Proof.
  induction l as [|x l IH]; simpl; intro H; [constructor|].
  inversion H as [|? ? Hn Hd]; subst. destruct (p x); simpl.
  - constructor; [|auto]. intro Hin. apply Hn.
    apply in_map_iff in Hin. destruct Hin as [y [Hy Hin]].
    apply filter_In in Hin. apply in_map_iff. exists y. tauto.
  - auto.
Qed.

Lemma NoDup_map_inj_in {A B} (f : A -> B) l a b :
  NoDup (map f l) -> In a l -> In b l -> f a = f b -> a = b.
Proof.
  induction l as [|x l IH]; simpl; intros H Ha Hb E; [easy|].
  inversion H as [|? ? Hn Hd]; subst.
  destruct Ha as [->|Ha], Hb as [->|Hb]; auto.
  - exfalso. apply Hn. rewrite E. apply in_map. exact Hb.
  - exfalso. apply Hn. rewrite <- E. apply in_map. exact Ha.
Qed.

Lemma filter_pair_length l (store_id week_start : Z) p :
  NoDup (map pair_of l) ->
  Nat.le (length (filter (fun sc => (sc_store_id sc =? store_id)
                                    && (week_start_date sc =? week_start)
                                    && p sc) l)) 1.
Proof.
  induction l as [|x l IH]; simpl; intro H; [lia|].
  inversion H as [|? ? Hn Hd]; subst.
  destruct ((sc_store_id x =? store_id) && (week_start_date x =? week_start))
    eqn:E; simpl; [|auto].
  assert (Hnil : filter (fun sc => (sc_store_id sc =? store_id)
                                   && (week_start_date sc =? week_start)
                                   && p sc) l = []).
  { destruct (filter _ l) as [|y l'] eqn:F; [reflexivity|].
    exfalso. assert (Hy : In y (filter (fun sc =>
                              (sc_store_id sc =? store_id)
                              && (week_start_date sc =? week_start)
                              && p sc) l)) by (rewrite F; now left).
    apply filter_In in Hy. destruct Hy as [Hy1 Hy2].
    apply andb_true_iff in Hy2. destruct Hy2 as [Hy2 _].
    apply andb_true_iff in Hy2. destruct Hy2 as [Hs Hw].
    apply andb_true_iff in E. destruct E as [Es Ew].
    apply Z.eqb_eq in Hs, Hw, Es, Ew.
    apply Hn. apply in_map_iff. exists y. split; [|exact Hy1].
    unfold pair_of. congruence. }
  destruct (p x); simpl; rewrite Hnil; simpl; lia.
Qed.

Lemma one_schedule_at_most_one_published db :
  one_schedule_per_week (schedules db) -> at_most_one_published db.
Proof.
  intros [H _] s w. unfold published_for. apply filter_pair_length. exact H.
Qed.

Lemma next_id_fresh ids : ~ In (next_id ids) ids.
Proof.
  assert (H : forall x, In x ids -> x <= fold_right Z.max 0 ids).
  { induction ids as [|y l IH]; simpl; intros x Hx; [easy|].
    destruct Hx as [->|Hx]; [lia|]. specialize (IH x Hx). lia. }
  intro Hin. apply H in Hin. unfold next_id in Hin. lia.
Qed.

Lemma find_pair_none l store_id week_start :
  find (fun sc => (sc_store_id sc =? store_id)
                  && (week_start_date sc =? week_start)) l = None ->
  ~ In (store_id, week_start) (map pair_of l).
Proof.
  intros H Hin. apply in_map_iff in Hin. destruct Hin as [sc [E Hin]].
  pose proof (find_none _ _ H sc Hin) as Hf. simpl in Hf.
  unfold pair_of in E. inversion E. subst.
  rewrite !Z.eqb_refl in Hf. discriminate.
Qed.

Lemma one_schedule_add l sc :
  one_schedule_per_week l ->
  ~ In (pair_of sc) (map pair_of l) ->
  sc_id sc = next_id (map sc_id l) ->
  sc_status sc = DRAFT ->
  one_schedule_per_week (l ++ [sc]).
Proof.
  intros [Hp [Hi Ha]] Hn Hid Hs. unfold one_schedule_per_week.
  rewrite !map_app. simpl. split; [|split].
  - apply NoDup_app; [exact Hp| constructor; [easy|constructor] |].
    intros a Ha1 [<-|[]]. contradiction.
  - apply NoDup_app; [exact Hi| constructor; [easy|constructor] |].
    intros a Ha1 [<-|[]]. rewrite Hid in Ha1.
    exact (next_id_fresh _ Ha1).
  - intros x Hx. apply in_app_or in Hx. destruct Hx as [Hx|[<-|[]]].
    + apply Ha. exact Hx.
    + rewrite Hs. discriminate.
Qed.

Lemma replace_row_keys l sc sc' i :
  NoDup (map sc_id l) -> In sc l -> i = sc_id sc ->
  sc_id sc' = sc_id sc -> pair_of sc' = pair_of sc ->
  map pair_of (map (fun row => if sc_id row =? i then sc' else row) l)
  = map pair_of l
  /\ map sc_id (map (fun row => if sc_id row =? i then sc' else row) l)
     = map sc_id l.
Proof.
  intros Hi Hin -> Hid Hp. rewrite !map_map. split; apply map_ext_in.
  - intros row Hrow. destruct (sc_id row =? sc_id sc) eqn:E; [|reflexivity].
    apply Z.eqb_eq in E.
    assert (row = sc).
    { eapply (NoDup_map_inj_in sc_id); eauto. }
    subst row. exact Hp.
  - intros row Hrow. destruct (sc_id row =? sc_id sc) eqn:E; [|reflexivity].
    apply Z.eqb_eq in E. congruence.
Qed.

Lemma schedule_by_id_In db sid sc :
  schedule_by_id db sid = Some sc -> In sc (schedules db) /\ sc_id sc = sid.
Proof.
  unfold schedule_by_id, first. intro H. apply find_some in H.
  destruct H as [H1 H2]. apply Z.eqb_eq in H2. tauto.
Qed.

Lemma one_schedule_set_status db sc s at_ :
  one_schedule_per_week (schedules db) ->
  In sc (schedules db) -> s <> ARCHIVED ->
  one_schedule_per_week
    (schedules (update_schedule_row db (set_schedule_status sc s at_))).
Proof.
  intros [Hp [Hi Ha]] Hin Hs. unfold update_schedule_row. simpl.
  destruct (replace_row_keys (schedules db) sc (set_schedule_status sc s at_)
              (sc_id sc) Hi Hin eq_refl eq_refl eq_refl) as [E1 E2].
  unfold one_schedule_per_week. rewrite E1, E2. split; [exact Hp|].
  split; [exact Hi|].
  intros x Hx. apply in_map_iff in Hx. destruct Hx as [row [Hx Hrow]].
  destruct (sc_id row =? _) in Hx; subst x; [exact Hs|]. apply Ha. exact Hrow.
Qed.

Lemma schedules_publish_notifications l : forall db seen db',
  publish_notifications db l seen = Ok db' -> schedules db' = schedules db.
Proof.
  induction l as [|x l IH]; simpl; intros db seen db' H.
  - inversion H. reflexivity.
  - destruct (existsb _ seen); [eapply IH; eauto|].
    destruct (employee_by_id db (sh_employee_id x)); [|discriminate].
    apply IH in H. exact H.
Qed.

Lemma schedules_insert_generated l : forall db sid,
  schedules (fst (insert_generated db sid l)) = schedules db.
Proof.
  induction l as [|g l IH]; intros db sid; simpl; [reflexivity|].
  destruct (insert_generated _ sid l) as [db2 rows] eqn:E. simpl.
  pose proof (IH (with_shifts db
                    (shifts db ++
                     [set_id (mkShift None sid (g_employee_id g) (g_date g)
                                (g_start_time g) (g_end_time g)
                                (g_break_minutes g) SCHEDULED None None None
                                None) (next_shift_id db)])) sid) as H.
  rewrite E in H. exact H.
Qed.

(** What [apply_schedule] does to the schedules table. *)
Lemma schedules_apply_schedule db store_id week_start l user :
  let '(db', sc, _) := apply_schedule db store_id week_start l user in
  match find (fun sc => (sc_store_id sc =? store_id)
                        && (week_start_date sc =? week_start)
                        && ScheduleStatus_eqb (sc_status sc) DRAFT)
          (schedules db) with
  | Some _ => schedules db' = schedules db
  | None =>
      schedules db'
      = schedules db
        ++ [mkSchedule (next_schedule_id db) store_id week_start DRAFT user
              None]
  end.
Proof.
  unfold apply_schedule, first.
  destruct (find _ (schedules db)) as [sc|] eqn:F.
  - destruct (insert_generated _ (sc_id sc) l) as [db2 rows] eqn:E.
    pose proof (schedules_insert_generated l
                  (with_shifts db
                     (filter (fun sh => negb (sh_schedule_id sh =? sc_id sc))
                        (shifts db))) (sc_id sc)) as H.
    rewrite E in H. exact H.
  - destruct (insert_generated _ _ l) as [db2 rows] eqn:E.
    match type of E with
    | insert_generated ?d ?i l = _ =>
        pose proof (schedules_insert_generated l d i) as H
    end.
    rewrite E in H. exact H.
Qed.

Lemma no_schedule_for_pair l store_id week_start :
  (forall sc, In sc l -> sc_status sc <> ARCHIVED) ->
  find (fun sc => (sc_store_id sc =? store_id)
                  && (week_start_date sc =? week_start)
                  && ScheduleStatus_eqb (sc_status sc) DRAFT) l = None ->
  find (fun sc => (sc_store_id sc =? store_id)
                  && (week_start_date sc =? week_start)
                  && ScheduleStatus_eqb (sc_status sc) PUBLISHED) l = None ->
  ~ In (store_id, week_start) (map pair_of l).
Proof.
  intros Ha Hd Hp Hin. apply in_map_iff in Hin. destruct Hin as [sc [E Hin]].
  pose proof (find_none _ _ Hd sc Hin) as H1.
  pose proof (find_none _ _ Hp sc Hin) as H2. simpl in H1, H2.
  unfold pair_of in E. inversion E. subst. rewrite !Z.eqb_refl in H1, H2.
  simpl in H1, H2. specialize (Ha sc Hin).
  destruct (sc_status sc); simpl in *; congruence.
Qed.

Lemma guarded_step_invariant db db' :
  guarded_step db db' ->
  one_schedule_per_week (schedules db) ->
  one_schedule_per_week (schedules db').
Proof.
  intros Hstep J. destruct Hstep.
  - (* create_schedule *)
    unfold create_schedule, first in H.
    destruct (find _ (schedules db)) eqn:F; [discriminate|].
    inversion H; subst. simpl. apply one_schedule_add; auto.
    apply find_pair_none. exact F.
  - (* publish_schedule *)
    unfold publish_schedule in H.
    destruct (schedule_by_id db sid) as [s|] eqn:F; [|discriminate].
    destruct (ScheduleStatus_eqb _ _); [discriminate|].
    destruct (Nat.eqb _ 0); [discriminate|].
    destruct (if validate then _ else _) as [[]|]; [|discriminate].
    simpl in H.
    destruct (publish_notifications _ _ _) as [db2|] eqn:P; [|discriminate].
    simpl in H. inversion H; subst.
    rewrite (schedules_publish_notifications _ _ _ _ P).
    apply one_schedule_set_status; auto.
    + apply schedule_by_id_In in F. tauto.
    + discriminate.
  - (* unpublish_schedule *)
    unfold unpublish_schedule in H.
    destruct (schedule_by_id db sid) as [s|] eqn:F; [|discriminate].
    destruct (negb _); [discriminate|]. inversion H; subst.
    apply one_schedule_set_status; auto.
    + apply schedule_by_id_In in F. tauto.
    + discriminate.
  - (* delete_schedule *)
    unfold delete_schedule in H.
    destruct (schedule_by_id db sid) as [s|] eqn:F; [|discriminate].
    destruct (ScheduleStatus_eqb _ _); [discriminate|]. inversion H; subst.
    simpl. destruct J as [Hp [Hi Ha]]. split; [|split].
    + apply NoDup_map_filter. exact Hp.
    + apply NoDup_map_filter. exact Hi.
    + intros x Hx. apply filter_In in Hx. apply Ha. tauto.
  - (* generate_schedule *)
    unfold generate_schedule in H.
    destruct (store_by_id db _); [|discriminate].
    destruct (negb _); [discriminate|].
    unfold published_schedule_for, first in H.
    destruct (find _ (schedules db)) eqn:Fp; [discriminate|].
    destruct (apply_immediately request && _).
    2:{ inversion H; subst. exact J. }
    destruct (opt_shifts _) as [|g gs] eqn:Eg.
    { inversion H; subst. exact J. }
    pose proof (schedules_apply_schedule db (rq_store_id request)
                  (rq_week_start request) (g :: gs) user) as Ha.
    destruct (apply_schedule _ _ _ _ _) as [[db2 sc2] rows].
    inversion H; subst.
    destruct (find _ (schedules db)) eqn:Fd in Ha.
    + rewrite Ha. exact J.
    + rewrite Ha. apply one_schedule_add; auto.
      destruct J as [_ [_ Harch]].
      apply (no_schedule_for_pair _ _ _ Harch Fd Fp).
  - (* fill_schedule_gaps *)
    unfold fill_schedule_gaps in H.
    destruct (schedule_by_id db sid) as [s|] eqn:F; [|discriminate].
    destruct (ScheduleStatus_eqb (sc_status s) PUBLISHED) eqn:Sp;
      [discriminate|].
    destruct (negb _).
    { inversion H; subst. exact J. }
    destruct (opt_shifts _) as [|g gs] eqn:Eg.
    { inversion H; subst. exact J. }
    pose proof (schedules_apply_schedule db (sc_store_id s)
                  (week_start_date s) (g :: gs) user) as Ha.
    destruct (apply_schedule _ _ _ _ _) as [[db2 sc2] rows].
    inversion H; subst.
    destruct (find _ (schedules db)) eqn:Fd in Ha.
    + rewrite Ha. exact J.
    + exfalso. apply schedule_by_id_In in F. destruct F as [Hin _].
      pose proof (find_none _ _ Fd s Hin) as Hf. simpl in Hf.
      rewrite !Z.eqb_refl in Hf. simpl in Hf.
      destruct J as [_ [_ Harch]]. specialize (Harch s Hin).
      destruct (sc_status s); simpl in *; congruence.
  - (* other tables *)
    rewrite H. exact J.
Qed.

Lemma guarded_reachable_invariant db :
  guarded_reachable db -> one_schedule_per_week (schedules db).
Proof.
  induction 1 as [|db db' Hr IH Hs].
  - simpl. repeat split; try constructor. intros sc [].
  - eapply guarded_step_invariant; eauto.
Qed.

Lemma publish_schedule_own_check db now sid validate force db' sc' :
  publish_schedule db now sid validate force = Ok (db', sc') ->
  exists sc,
    schedule_by_id db sid = Some sc
    /\ sc_status sc <> PUBLISHED
    /\ sc' = set_schedule_status sc PUBLISHED (Some now)
    /\ schedules db'
       = map (fun row => if sc_id row =? sid then sc' else row) (schedules db).
Proof.
  unfold publish_schedule. intro H.
  destruct (schedule_by_id db sid) as [s|] eqn:F; [|discriminate].
  destruct (ScheduleStatus_eqb _ _) eqn:S; [discriminate|].
  destruct (Nat.eqb _ 0); [discriminate|].
  destruct (if validate then _ else _) as [[]|]; [|discriminate].
  simpl in H.
  destruct (publish_notifications _ _ _) as [db2|] eqn:P; [|discriminate].
  simpl in H. inversion H; subst. exists s. split; [reflexivity|].
  split.
  - intro E. rewrite E in S. discriminate.
  - split; [reflexivity|].
    rewrite (schedules_publish_notifications _ _ _ _ P). simpl.
    apply schedule_by_id_In in F. destruct F as [_ <-]. reflexivity.
Qed.

(** The routes other than [POST /optimizer/apply] keep the invariant:
    in every state reached through the routes that check the (store,
    week_start) pair before they add a schedule, at most one schedule
    is published per pair, also after a further publish; and a
    successful [publish_schedule] has checked only that the schedule it
    was given was not published, and has changed that row alone. *)
Lemma guarded_paths_keep_one_published :
  forall db,
    guarded_reachable db ->
    at_most_one_published db
    /\ forall now sid validate force db' sc',
        publish_schedule db now sid validate force = Ok (db', sc') ->
        at_most_one_published db'
        /\ exists sc,
            schedule_by_id db sid = Some sc
            /\ sc_status sc <> PUBLISHED
            /\ sc' = set_schedule_status sc PUBLISHED (Some now)
            /\ schedules db'
               = map (fun row => if sc_id row =? sid then sc' else row)
                   (schedules db).
Proof.
  intros db Hr. split.
  - apply one_schedule_at_most_one_published.
    apply guarded_reachable_invariant. exact Hr.
  - intros now sid validate force db' sc' H. split.
    + apply one_schedule_at_most_one_published.
      apply guarded_reachable_invariant.
      eapply reach_step; [exact Hr|]. eapply step_publish. exact H.
    + eapply publish_schedule_own_check. exact H.
Qed.

(** C1: the invariant is broken through [POST /optimizer/apply].  From
    a store with no schedule, apply, publish, apply again and publish
    again are four accepted requests, and they leave two published
    schedules for (store 1, that Monday).  The second apply is accepted
    although the pair already has a published schedule, where
    [POST /optimizer/generate] refuses the same pair with a 400 answer
    for every solver; and [publish_schedule] looks at the row it is
    given only. *)
Theorem second_schedule_published_through_apply :
  apply_optimized_schedule db_store_only 1 monday [monday_shift] 1
  = Ok (db_first_draft, 1, 1%nat)
  /\ option_map fst
       (match publish_schedule db_first_draft 0 1 true false with
        | Ok r => Some r
        | Err _ => None
        end) = Some db_first_published
  /\ (forall solver fdb today apply_now locked overrides user,
         generate_schedule solver db_first_published fdb today
           (mkOptimizeRequest 1 monday apply_now locked overrides) user
         = Err HTTP_400)
  /\ apply_optimized_schedule db_first_published 1 monday [tuesday_shift] 1
     = Ok (db_second_draft, 2, 1%nat)
  /\ option_map fst
       (match publish_schedule db_second_draft 0 2 true false with
        | Ok r => Some r
        | Err _ => None
        end) = Some db_two_published
  /\ reachable db_two_published
  /\ map (fun sc => (sc_id sc, sc_status sc))
       (published_for db_two_published 1 monday)
     = [(1, PUBLISHED); (2, PUBLISHED)]
  /\ ~ at_most_one_published db_two_published.
Proof.
  split; [vm_compute; reflexivity|]. split; [vm_compute; reflexivity|].
  split.
  { intros solver fdb today apply_now locked overrides user.
    unfold generate_schedule. cbn [rq_store_id rq_week_start].
    change (store_by_id db_first_published 1) with (Some store_one).
    cbv iota.
    change (negb (weekday monday =? 0)) with false. cbv iota.
    destruct (published_schedule_for db_first_published 1 monday) eqn:P;
      [reflexivity|]. vm_compute in P. discriminate. }
  split; [vm_compute; reflexivity|]. split; [vm_compute; reflexivity|].
  split; [|split].
  - assert (R0 : reachable db_store_only).
    { eapply reachable_guarded; [apply reachable_empty|].
      apply step_other_tables. reflexivity. }
    assert (R1 : reachable db_first_draft).
    { eapply (reachable_apply db_store_only 1 monday [monday_shift] 1);
        [exact R0|]. vm_compute. reflexivity. }
    assert (R2 : reachable db_first_published).
    { eapply reachable_guarded; [exact R1|].
      eapply (step_publish db_first_draft 0 1 true false).
      vm_compute. reflexivity. }
    assert (R3 : reachable db_second_draft).
    { eapply (reachable_apply db_first_published 1 monday [tuesday_shift] 1);
        [exact R2|]. vm_compute. reflexivity. }
    eapply reachable_guarded; [exact R3|].
    eapply (step_publish db_second_draft 0 2 true false).
    vm_compute. reflexivity.
  - vm_compute. reflexivity.
  - intro H. specialize (H 1 monday). vm_compute in H. lia.
Qed.

(** C9 on the swap of a Monday shift of employee 1 with a Wednesday
    shift of employee 2. *)
Lemma approval_exchanges_only_employee_ids_witness :
  exists db' swap' r' q',
    approve_shift_swap db_swap 5 9 1 = Ok (db', swap')
    /\ shift_by_id db' 1 = Some r'
    /\ shift_by_id db' 2 = Some q'
    /\ sh_employee_id r' = 2
    /\ sh_employee_id q' = 1
    /\ same_but_employee r' swap_shift_a
    /\ same_but_employee q' swap_shift_b.
Proof.
  destruct (approval_exchanges_only_employee_ids db_swap 5 9 1
              (mkSwap 1 1 (Some 2) SW_ACCEPTED None None) 1 2
              swap_shift_a swap_shift_b)
    as [db' [swap' [r' [q' H]]]];
    try reflexivity; try lia.
  exists db', swap', r', q'. tauto.
Defined.

(** ** real-number facts *)

Section RealFacts.
Local Open Scope R_scope.

Lemma fold_left_Rplus_nonneg l : forall a,
  0 <= a -> (forall x, In x l -> 0 <= x) -> 0 <= fold_left Rplus l a.
Proof.
  induction l as [|x l IH]; simpl; intros a Ha H; [exact Ha|].
  apply IH.
  - specialize (H x (or_introl eq_refl)). lra.
  - intros y Hy. apply H. now right.
Qed.

Lemma fold_left_Rplus_ge l : forall a,
  (forall x, In x l -> 0 <= x) -> a <= fold_left Rplus l a.
Proof.
  induction l as [|x l IH]; simpl; intros a H; [lra|].
  specialize (IH (a + x) (fun y Hy => H y (or_intror Hy))).
  specialize (H x (or_introl eq_refl)). lra.
Qed.

Lemma Rsum_nonneg l : (forall x, In x l -> 0 <= x) -> 0 <= Rsum l.
Proof. intro H. apply fold_left_Rplus_nonneg; [lra|exact H]. Qed.

Lemma Rsum_pos l :
  l <> [] -> (forall x, In x l -> 0 < x) -> 0 < Rsum l.
Proof.
  destruct l as [|x l]; [congruence|]. intros _ H. unfold Rsum. simpl.
  apply Rlt_le_trans with (0 + x).
  - specialize (H x (or_introl eq_refl)). lra.
  - apply fold_left_Rplus_ge. intros y Hy. apply Rlt_le. apply H. now right.
Qed.

Lemma Rdiv_nonneg a b : 0 <= a -> 0 < b -> 0 <= a / b.
Proof.
  intros Ha Hb. unfold Rdiv. apply Rmult_le_pos; [exact Ha|].
  apply Rlt_le. apply Rinv_0_lt_compat. exact Hb.
Qed.

Lemma margin_interval m margin :
  0 <= m -> 0 <= margin ->
  interval_ok (m, Rmax 0 (m - margin), m + margin).
Proof.
  intros Hm Hg. unfold interval_ok. split; [apply Rmax_l|]. split; [|lra].
  apply Rmax_lub; lra.
Qed.

Lemma INR_length_pos {A} (l : list A) : l <> [] -> 0 < INR (length l).
Proof.
  destruct l; [congruence|]. intros _. apply lt_0_INR. simpl. lia.
Qed.

End RealFacts.

(** ** sorting *)

Lemma insert_sorted_In {A} leb (x y : A) l :
  In y (insert_sorted leb x l) <-> y = x \/ In y l.
Proof.
  induction l as [|z l IH]; simpl.
  - intuition.
  - destruct (leb z x); simpl; rewrite ?IH; intuition.
Qed.

Lemma sort_by_In_acc {A} leb (l : list A) : forall acc y,
  In y (fold_left (fun acc x => insert_sorted leb x acc) l acc)
  <-> In y l \/ In y acc.
Proof.
  induction l as [|x l IH]; simpl; intros acc y; [tauto|].
  rewrite IH, insert_sorted_In. intuition.
Qed.

Lemma sort_by_In {A} leb (l : list A) y : In y (sort_by leb l) <-> In y l.
Proof. unfold sort_by. rewrite sort_by_In_acc. simpl. tauto. Qed.

Lemma insert_sorted_length {A} leb (x : A) l :
  length (insert_sorted leb x l) = S (length l).
Proof.
  induction l as [|z l IH]; simpl; [reflexivity|].
  destruct (leb z x); simpl; rewrite ?IH; reflexivity.
Qed.

Lemma sort_by_length_acc {A} leb (l : list A) : forall acc,
  length (fold_left (fun acc x => insert_sorted leb x acc) l acc)
  = (length l + length acc)%nat.
Proof.
  induction l as [|x l IH]; simpl; intros acc; [reflexivity|].
  rewrite IH, insert_sorted_length. lia.
Qed.

Lemma sort_by_length {A} leb (l : list A) :
  length (sort_by leb l) = length l.
Proof. unfold sort_by. rewrite sort_by_length_acc. simpl. lia. Qed.

Lemma sort_by_nonempty {A} leb (l : list A) : l <> [] -> sort_by leb l <> [].
Proof.
  intros H E. apply (f_equal (@length A)) in E. rewrite sort_by_length in E.
  destruct l; [congruence|discriminate].
Qed.

(** ** intervals over the real numbers *)

Section Methods.
Local Open Scope R_scope.

Lemma simple_average_interval b :
  b <> [] -> nonneg_bucket b -> interval_ok (_simple_average b).
Proof.
  intros Hne Hnn. unfold _simple_average. destruct b as [|p b']; [congruence|].
  set (b := p :: b') in *.
  set (values := map snd b).
  assert (Hv : forall x, In x values -> 0 <= x).
  { intros x Hx. apply in_map_iff in Hx. destruct Hx as [q [<- Hq]].
    apply Hnn. exact Hq. }
  assert (Hn : 0 < INR (length values)).
  { apply INR_length_pos. unfold values, b. simpl. discriminate. }
  apply margin_interval.
  - apply Rdiv_nonneg; [apply Rsum_nonneg; exact Hv|exact Hn].
  - destruct (1 <? length values)%nat.
    + apply Rdiv_nonneg.
      * apply Rmult_le_pos; [lra|apply sqrt_pos].
      * apply sqrt_lt_R0. exact Hn.
    + apply Rmult_le_pos; [|lra].
      apply Rdiv_nonneg; [apply Rsum_nonneg; exact Hv|exact Hn].
Qed.

Lemma sample_weight_pos rd d : 0 < sample_weight rd d.
Proof. unfold sample_weight, Rpower. apply exp_pos. Qed.

Lemma weighted_average_interval b rd :
  b <> [] -> nonneg_bucket b -> interval_ok (_weighted_average b rd).
Proof.
  intros Hne Hnn. unfold _weighted_average.
  destruct b as [|p b']; [congruence|].
  set (b := p :: b') in *.
  set (sorted := sort_by (fun a c => (fst c <=? fst a)%Z) b).
  set (wv := map (fun p => (snd p, sample_weight rd (fst p))) sorted).
  assert (Hs : forall q, In q sorted -> 0 <= snd q).
  { intros q Hq. apply sort_by_In in Hq. apply Hnn. exact Hq. }
  assert (Hwv : forall vw, In vw wv -> 0 <= fst vw /\ 0 < snd vw).
  { intros vw H. apply in_map_iff in H. destruct H as [q [<- Hq]]. simpl.
    split; [apply Hs; exact Hq|apply sample_weight_pos]. }
  assert (Hwne : wv <> []).
  { unfold wv. intro E. apply map_eq_nil in E.
    revert E. apply sort_by_nonempty. exact Hne. }
  assert (Htot : 0 < Rsum (map snd wv)).
  { apply Rsum_pos.
    - intro E. apply map_eq_nil in E. contradiction.
    - intros x Hx. apply in_map_iff in Hx. destruct Hx as [vw [<- Hvw]].
      apply Hwv. exact Hvw. }
  unfold Req_b. destruct (Req_dec_T (Rsum (map snd wv)) 0) as [E|_]; [lra|].
  assert (Hmean : 0 <= Rsum (map (fun vw => fst vw * snd vw) wv)
                       / Rsum (map snd wv)).
  { apply Rdiv_nonneg; [|exact Htot]. apply Rsum_nonneg.
    intros x Hx. apply in_map_iff in Hx. destruct Hx as [vw [<- Hvw]].
    destruct (Hwv vw Hvw). apply Rmult_le_pos; lra. }
  apply margin_interval; [exact Hmean|].
  destruct (1 <? length wv)%nat.
  - apply Rmult_le_pos; [lra|apply sqrt_pos].
  - apply Rmult_le_pos; [exact Hmean|lra].
Qed.

Lemma smooth_step_nonneg level value :
  0 <= level -> 0 <= value -> 0 <= smooth_step level value.
Proof.
  intros Hl Hv. unfold smooth_step, ALPHA.
  assert (0 <= 3 / 10 * value) by (apply Rmult_le_pos; lra).
  assert (0 <= (1 - 3 / 10) * level) by (apply Rmult_le_pos; lra).
  lra.
Qed.

Lemma fold_smooth_nonneg l : forall v0,
  0 <= v0 -> (forall x, In x l -> 0 <= x) ->
  0 <= fold_left smooth_step l v0.
Proof.
  induction l as [|x l IH]; simpl; intros v0 H0 H; [exact H0|].
  apply IH.
  - apply smooth_step_nonneg; [exact H0|]. apply H. now left.
  - intros y Hy. apply H. now right.
Qed.

Lemma smoothing_errors_nonneg l : forall s x,
  In x (smoothing_errors s l) -> 0 <= x.
Proof.
  induction l as [|v l IH]; simpl; intros s x H; [easy|].
  destruct H as [<-|H]; [apply Rabs_pos|]. eapply IH. exact H.
Qed.

Lemma exponential_smoothing_interval b :
  b <> [] -> nonneg_bucket b -> interval_ok (_exponential_smoothing b).
Proof.
  intros Hne Hnn. unfold _exponential_smoothing.
  destruct b as [|p b']; [congruence|].
  set (b := p :: b') in *.
  set (sorted := sort_by (fun a c => (fst a <=? fst c)%Z) b).
  assert (Hs : forall x, In x (map snd sorted) -> 0 <= x).
  { intros x Hx. apply in_map_iff in Hx. destruct Hx as [q [<- Hq]].
    apply sort_by_In in Hq. apply Hnn. exact Hq. }
  destruct (map snd sorted) as [|v0 rest] eqn:E.
  - unfold interval_ok. lra.
  - assert (Hlevel : 0 <= fold_left smooth_step rest v0).
    { apply fold_smooth_nonneg.
      - apply Hs. now left.
      - intros x Hx. apply Hs. now right. }
    apply margin_interval; [exact Hlevel|].
    destruct (smoothing_errors v0 rest) as [|e0 es] eqn:Ee.
    + apply Rmult_le_pos; [exact Hlevel|lra].
    + apply Rmult_le_pos; [lra|]. apply Rdiv_nonneg.
      * apply Rsum_nonneg. intros x Hx. rewrite <- Ee in Hx.
        eapply smoothing_errors_nonneg. exact Hx.
      * apply INR_length_pos. discriminate.
Qed.

Lemma Rmin3_le a b c : Rmin3 a b c <= a /\ Rmin3 a b c <= b /\ Rmin3 a b c <= c.
Proof.
  unfold Rmin3. pose proof (Rmin_l (Rmin a b) c).
  pose proof (Rmin_r (Rmin a b) c).
  pose proof (Rmin_l a b). pose proof (Rmin_r a b). lra.
Qed.

Lemma Rmax3_ge a b c : a <= Rmax3 a b c /\ b <= Rmax3 a b c /\ c <= Rmax3 a b c.
Proof.
  unfold Rmax3. pose proof (Rmax_l (Rmax a b) c).
  pose proof (Rmax_r (Rmax a b) c).
  pose proof (Rmax_l a b). pose proof (Rmax_r a b). lra.
Qed.

Lemma Rmin3_glb a b c x : x <= a -> x <= b -> x <= c -> x <= Rmin3 a b c.
Proof. intros. unfold Rmin3. repeat apply Rmin_glb; assumption. Qed.

Lemma ensemble_interval b rd :
  b <> [] -> nonneg_bucket b ->
  interval_ok (_ensemble_forecast b rd)
  /\ Rmin3 (fst (fst (_simple_average b)))
       (fst (fst (_weighted_average b rd)))
       (fst (fst (_exponential_smoothing b)))
     <= fst (fst (_ensemble_forecast b rd))
     <= Rmax3 (fst (fst (_simple_average b)))
          (fst (fst (_weighted_average b rd)))
          (fst (fst (_exponential_smoothing b))).
Proof.
  intros Hne Hnn.
  pose proof (simple_average_interval b Hne Hnn) as Hs.
  pose proof (weighted_average_interval b rd Hne Hnn) as Hw.
  pose proof (exponential_smoothing_interval b Hne Hnn) as He.
  unfold _ensemble_forecast.
  destruct (_simple_average b) as [[s0 s1] s2].
  destruct (_weighted_average b rd) as [[w0 w1] w2].
  destruct (_exponential_smoothing b) as [[e0 e1] e2].
  unfold interval_ok in *. simpl.
  pose proof (Rmin3_le s1 w1 e1). pose proof (Rmax3_ge s2 w2 e2).
  pose proof (Rmin3_le s0 w0 e0). pose proof (Rmax3_ge s0 w0 e0).
  assert (0 <= Rmin3 s1 w1 e1) by (apply Rmin3_glb; tauto).
  repeat split; try lra.
Qed.

End Methods.

(** ** rounding *)

Section Rounding.
Local Open Scope R_scope.

Lemma Int_part_bounds y : IZR (Int_part y) <= y < IZR (Int_part y) + 1.
Proof. destruct (base_Int_part y) as [H1 H2]. lra. Qed.

Lemma Int_part_mono x y : x <= y -> (Int_part x <= Int_part y)%Z.
Proof.
  intro H. pose proof (Int_part_bounds x). pose proof (Int_part_bounds y).
  assert (IZR (Int_part x) < IZR (Int_part y + 1)) by (rewrite plus_IZR; lra).
  apply lt_IZR in H2. lia.
Qed.

Lemma R_round_half_even_bounds y :
  (Int_part y <= R_round_half_even y <= Int_part y + 1)%Z.
Proof.
  unfold R_round_half_even.
  destruct (Rlt_dec _ _); [lia|]. destruct (Rlt_dec _ _); [lia|].
  destruct (Z.even _); lia.
Qed.

Lemma R_round_half_even_mono x y :
  x <= y -> (R_round_half_even x <= R_round_half_even y)%Z.
Proof.
  intro H. pose proof (Int_part_mono x y H) as Hm.
  pose proof (R_round_half_even_bounds x) as Bx.
  pose proof (R_round_half_even_bounds y) as By_.
  destruct (Z.eq_dec (Int_part x) (Int_part y)) as [E|NE]; [|lia].
  unfold R_round_half_even in *. rewrite <- E in *.
  destruct (Rlt_dec (x - IZR (Int_part x)) (1 / 2));
    destruct (Rlt_dec (y - IZR (Int_part x)) (1 / 2));
    destruct (Rlt_dec (1 / 2) (x - IZR (Int_part x)));
    destruct (Rlt_dec (1 / 2) (y - IZR (Int_part x)));
    repeat match goal with
           | Hn : ~ (_ < _) |- _ => apply Rnot_lt_le in Hn
           end;
    try lia; try lra;
    destruct (Z.even (Int_part x)); lia.
Qed.

Lemma R_round_mono x y n : x <= y -> R_round x n <= R_round y n.
Proof.
  intro H. unfold R_round.
  assert (Hs : 0 < IZR (10 ^ Z.of_nat n)).
  { apply IZR_lt. apply Z.pow_pos_nonneg; lia. }
  apply Rmult_le_compat_r; [apply Rlt_le, Rinv_0_lt_compat; exact Hs|].
  apply IZR_le. apply R_round_half_even_mono.
  apply Rmult_le_compat_r; lra.
Qed.

Lemma Int_part_IZR z : Int_part (IZR z) = z.
Proof.
  pose proof (Int_part_bounds (IZR z)) as [H1 H2].
  apply le_IZR in H1.
  assert (IZR z < IZR (Int_part (IZR z) + 1)) by (rewrite plus_IZR; lra).
  apply lt_IZR in H. lia.
Qed.

Lemma R_round_half_even_IZR z : R_round_half_even (IZR z) = z.
Proof.
  unfold R_round_half_even. rewrite Int_part_IZR.
  destruct (Rlt_dec _ _); [reflexivity|]. lra.
Qed.

Lemma R_round_0 n : R_round 0 n = 0.
Proof.
  unfold R_round. rewrite Rmult_0_l. rewrite R_round_half_even_IZR.
  unfold Rdiv. apply Rmult_0_l.
Qed.

Lemma R_round_interval p lo hi n :
  interval_ok (p, lo, hi) ->
  interval_ok (R_round p n, R_round lo n, R_round hi n).
Proof.
  unfold interval_ok. intros [H0 [H1 H2]]. repeat split.
  - rewrite <- (R_round_0 n). apply R_round_mono. exact H0.
  - apply R_round_mono. exact H1.
  - apply R_round_mono. exact H2.
Qed.

End Rounding.

Section Forecasts.
Local Open Scope R_scope.

Lemma run_method_interval method b rd :
  b <> [] -> nonneg_bucket b -> interval_ok (run_method method b rd).
Proof.
  intros Hne Hnn. destruct method; simpl.
  - apply simple_average_interval; assumption.
  - apply weighted_average_interval; assumption.
  - apply exponential_smoothing_interval; assumption.
  - apply ensemble_interval; assumption.
Qed.

(** Over the real numbers the interval is ordered: for a non-empty
    bucket of non-negative order counts every method returns
    [0 <= conf_low <= predicted <= conf_high], the ensemble point lies
    between the least and the greatest point of the three methods, and
    the rounding of [forecast_hour] keeps the order.  The methods
    evaluated on binary64 values do not keep these bounds (see the
    module [Binary64]). *)
Lemma forecast_interval_ordered :
  forall (data_points : bucket) (reference_date : date),
    data_points <> [] ->
    nonneg_bucket data_points ->
    (forall method,
        interval_ok (run_method method data_points reference_date))
    /\ Rmin3 (fst (fst (_simple_average data_points)))
         (fst (fst (_weighted_average data_points reference_date)))
         (fst (fst (_exponential_smoothing data_points)))
       <= fst (fst (_ensemble_forecast data_points reference_date))
       <= Rmax3 (fst (fst (_simple_average data_points)))
            (fst (fst (_weighted_average data_points reference_date)))
            (fst (fst (_exponential_smoothing data_points)))
    /\ (forall method hour historical_data,
           historical_get historical_data (weekday reference_date, hour)
           = data_points ->
           let h := forecast_hour reference_date hour method historical_data in
           0 <= confidence_low h <= hf_predicted_orders h
           /\ hf_predicted_orders h <= confidence_high h).
Proof.
  intros b rd Hne Hnn. split; [|split].
  - intro m. apply run_method_interval; assumption.
  - apply ensemble_interval; assumption.
  - intros m hour hd Hb. unfold forecast_hour. rewrite Hb.
    pose proof (run_method_interval m b rd Hne Hnn) as H.
    destruct (run_method m b rd) as [[p lo] hi].
    apply (R_round_interval _ _ _ 2%nat) in H. simpl.
    unfold interval_ok in H. tauto.
Qed.

End Forecasts.

(** ** C8 *)

Section Accuracy.
Local Open Scope R_scope.

Lemma Rltb_true a b : a < b -> Rltb a b = true.
Proof.
  intro H. unfold Rltb.
  destruct (Rlt_dec a b); [reflexivity|contradiction].
Qed.

Lemma Rltb_false a b : b <= a -> Rltb a b = false.
Proof. intro H. unfold Rltb. destruct (Rlt_dec a b); [lra|reflexivity]. Qed.

Lemma rate_accuracy_thresholds m :
  (m < 10 -> _rate_accuracy m = "excellent"%string)
  /\ (10 <= m < 20 -> _rate_accuracy m = "good"%string)
  /\ (20 <= m < 30 -> _rate_accuracy m = "fair"%string)
  /\ (30 <= m -> _rate_accuracy m = "poor"%string).
Proof.
  unfold _rate_accuracy. repeat split; intro H.
  - rewrite Rltb_true by lra. reflexivity.
  - rewrite Rltb_false, Rltb_true by lra. reflexivity.
  - rewrite !Rltb_false, Rltb_true by lra. reflexivity.
  - rewrite !Rltb_false by lra. reflexivity.
Qed.

(** The rating of a query whose MAPE is [m]: the thresholds apply when
    [m] is not zero; a MAPE of zero is reported as insufficient data. *)
Lemma accuracy_rating_of_mape fdb store_id start_date end_date m :
  mape_of (accuracy_rows fdb store_id start_date end_date) = Some m ->
  accuracy_rating (get_forecast_accuracy fdb store_id start_date end_date)
  = Some (if Req_dec_T m 0 then "insufficient_data"%string
          else _rate_accuracy m).
Proof.
  unfold get_forecast_accuracy. intro Hm.
  destruct (accuracy_rows fdb store_id start_date end_date) as [|r rows] eqn:E.
  - discriminate.
  - simpl. rewrite Hm. unfold mape_truthy, Req_b.
    destruct (Req_dec_T m 0); reflexivity.
Qed.

(** C8, evaluated on one forecast row with [predicted = actual = 10]:
    the MAPE is exactly 0, which [_rate_accuracy] rates excellent, but
    [get_forecast_accuracy] reports the rating insufficient_data (and no
    MAPE), because it tests the truthiness of the MAPE. *)
Theorem zero_mape_rated_insufficient_data :
  accuracy_rows fdb_exact 1 monday monday = [(10, 10)]
  /\ mape_of (accuracy_rows fdb_exact 1 monday monday)
     = Some ((0 + Rabs (10 - 10) / 10 * 100) / 1)
  /\ (0 + Rabs (10 - 10) / 10 * 100) / 1 = 0
  /\ _rate_accuracy 0 = "excellent"%string
  /\ accuracy_rating (get_forecast_accuracy fdb_exact 1 monday monday)
     = Some "insufficient_data"%string
  /\ mape (get_forecast_accuracy fdb_exact 1 monday monday) = None.
Proof.
  assert (Hrows : accuracy_rows fdb_exact 1 monday monday = [(10, 10)])
    by reflexivity.
  assert (Hz : (0 + Rabs (10 - 10) / 10 * 100) / 1 = 0).
  { replace (10 - 10) with 0 by lra. rewrite Rabs_R0. lra. }
  assert (Hm : mape_of [(10, 10)]
               = Some ((0 + Rabs (10 - 10) / 10 * 100) / 1)).
  { unfold mape_of, percentage_errors_of. simpl.
    rewrite Rltb_true by lra. simpl. reflexivity. }
  split; [exact Hrows|]. rewrite Hrows. split; [exact Hm|].
  split; [exact Hz|]. split.
  { unfold _rate_accuracy. rewrite Rltb_true by lra. reflexivity. }
  unfold get_forecast_accuracy. rewrite Hrows. simpl. rewrite Hm.
  unfold mape_truthy, Req_b. rewrite Hz.
  destruct (Req_dec_T 0 0) as [_|N]; [|contradiction]. simpl.
  split; reflexivity.
Qed.

End Accuracy.

(** ** C4 *)


Lemma forecast_day_found db fdb today store_id target_date method store :
  store_by_id db store_id = Some store ->
  forecast_day db fdb today store_id target_date method
  = Ok (make_daily target_date
          (map (fun hour =>
                  forecast_hour target_date hour method
                    (_get_historical_data fdb today store_id))
             (range (start_hour_of store 8) (end_hour_of store 22)))).
Proof. intro H. unfold forecast_day. rewrite H. reflexivity. Qed.


Lemma get_labor_standard_present fdb store_id s :
  standard_of fdb store_id = Some s ->
  get_labor_standard fdb store_id = (fdb, s).
Proof.
  unfold standard_of, get_labor_standard, first. intro H. rewrite H.
  reflexivity.
Qed.


Lemma committed_present db fdb store_id s :
  standard_of fdb store_id = Some s ->
  get_labor_standard_committed db fdb store_id = Ok (fdb, s).
Proof.
  intro H. unfold get_labor_standard_committed.
  rewrite (get_labor_standard_present _ _ _ H).
  unfold standard_of in H. rewrite H. reflexivity.
Qed.



(** What [get_hourly_requirements] returns for a store that exists,
    once the standard is read. *)
Lemma get_hourly_requirements_value db fdb today store_id target_date
  auto_generate store fdb1 standard :
  store_by_id db store_id = Some store ->
  get_labor_standard_committed db fdb store_id = Ok (fdb1, standard) ->
  get_hourly_requirements db fdb today store_id target_date auto_generate
  = Ok (fdb1,
        requirements_of standard
          (forecasts_used fdb1 today store_id target_date auto_generate
             store)
          (operating_hours store)).
Proof.
  intros S C. unfold get_hourly_requirements. rewrite C. cbn [bind].
  rewrite S. unfold forecasts_used, requirements_of, operating_hours.
  destruct (map _ (filter _ (order_forecasts fdb1))) as [|f fs] eqn:F.
  - destruct auto_generate.
    + rewrite (forecast_day_found _ _ _ _ _ _ store S). reflexivity.
    + reflexivity.
  - reflexivity.
Qed.

Lemma requirements_of_hours standard forecasts hours :
  map fst (requirements_of standard forecasts hours) = hours.
Proof.
  unfold requirements_of. rewrite map_map. simpl. apply map_id.
Qed.

(** With the standard configured, [get_hourly_requirements] raises
    nothing: it returns a dictionary, empty when the store row is missing
    and with one entry per operating hour otherwise. *)
Lemma get_hourly_requirements_returns db fdb today store_id target_date
  auto_generate s :
  standard_of fdb store_id = Some s ->
  exists reqs,
    get_hourly_requirements db fdb today store_id target_date auto_generate
    = Ok (fdb, reqs)
    /\ map fst reqs
       = match store_by_id db store_id with
         | Some store => operating_hours store
         | None => []
         end.
Proof.
  intro Hs. destruct (store_by_id db store_id) as [store|] eqn:S.
  - rewrite (get_hourly_requirements_value _ _ _ _ _ _ store fdb s S
               (committed_present db fdb store_id s Hs)).
    eexists. split; [reflexivity|]. apply requirements_of_hours.
  - unfold get_hourly_requirements.
    rewrite (committed_present db fdb store_id s Hs). cbn [bind].
    rewrite S. eexists. split; reflexivity.
Qed.





(** ** C5 *)

Lemma Ok_inj {E A : Type} (a b : A) : @Ok E A a = Ok b -> a = b.
Proof. intro H. injection H. trivial. Qed.

Lemma no_history_no_data fdb today store_id :
  no_history fdb store_id -> _get_historical_data fdb today store_id = [].
Proof.
  unfold no_history, _get_historical_data. intro H.
  assert (E : filter (fun r => (ho_store_id r =? store_id)
                               && (today - 7 * DEFAULT_LOOKBACK_WEEKS
                                   <=? ho_date r))
                (historical_orders fdb) = []).
  { induction (historical_orders fdb) as [|x l IH]; simpl in *; [reflexivity|].
    destruct (ho_store_id x =? store_id); [discriminate|]. simpl.
    apply IH. exact H. }
  rewrite E. reflexivity.
Qed.

Lemma forecast_week_days_found db fdb today store_id method store days :
  store_by_id db store_id = Some store ->
  exists ws,
    forecast_week_days db fdb today store_id method days
    = Ok (map (fun target_date =>
                 make_daily target_date
                   (map (fun hour =>
                           forecast_hour target_date hour method
                             (_get_historical_data fdb today store_id))
                      (range (start_hour_of store 8) (end_hour_of store 22))))
            days, ws).
Proof.
  intro S. induction days as [|d days IH]; simpl.
  - eexists. reflexivity.
  - rewrite (forecast_day_found _ _ _ _ _ _ store S). simpl.
    destruct IH as [ws ->]. simpl. eexists. reflexivity.
Qed.

Lemma forecast_week_found db fdb today store_id week_start method store :
  store_by_id db store_id = Some store ->
  weekday week_start = 0 ->
  exists ws,
    forecast_week db fdb today store_id week_start method
    = Ok (mkWeekly store_id week_start
            (map (fun target_date =>
                    make_daily target_date
                      (map (fun hour =>
                              forecast_hour target_date hour method
                                (_get_historical_data fdb today store_id))
                         (range (start_hour_of store 8)
                            (end_hour_of store 22))))
               (week_dates week_start))
            (R_round
               (Rsum
                  (map df_total_predicted_orders
                     (map (fun target_date =>
                             make_daily target_date
                               (map (fun hour =>
                                       forecast_hour target_date hour method
                                         (_get_historical_data fdb today
                                            store_id))
                                  (range (start_hour_of store 8)
                                     (end_hour_of store 22))))
                        (week_dates week_start)))) 2)
            (method_value method)
            (match _get_historical_data fdb today store_id with
             | [] => [NoHistoricalData]
             | _ => []
             end ++ ws)).
Proof.
  intros S W. unfold forecast_week. rewrite W.
  change (negb (0 =? 0)) with false. cbv iota.
  destruct (forecast_week_days_found db fdb today store_id method store
              (week_dates week_start) S) as [ws ->].
  cbn [bind]. eexists. reflexivity.
Qed.

Lemma forecast_week_store db fdb today store_id week_start method w :
  forecast_week db fdb today store_id week_start method = Ok w ->
  weekday week_start = 0 /\ exists store, store_by_id db store_id = Some store.
Proof.
  unfold forecast_week. destruct (weekday week_start =? 0) eqn:W; simpl;
    [|discriminate].
  intro H. split; [apply Z.eqb_eq; exact W|].
  destruct (store_by_id db store_id) as [store|] eqn:S; [eauto|].
  exfalso. unfold week_dates in H.
  change (range 0 7) with (0 :: map (fun i => 0 + Z.of_nat i) (seq 1 6)) in H.
  simpl in H. unfold forecast_day in H. rewrite S in H. simpl in H.
  discriminate.
Qed.

Lemma default_days_hourly sh eh days : forall daily,
  default_days sh eh days = Ok daily ->
  forall d h, In d daily -> In h (hourly_forecasts d) ->
    hf_method h = "default_pattern"%string /\ data_points_used h = 0%nat.
Proof.
  induction days as [|t days IH]; simpl; intros daily H d h Hd Hh.
  - inversion H; subst. destruct Hd.
  - destruct (max_by _ _); [|discriminate].
    destruct (default_days sh eh days) as [more|]; [|discriminate].
    simpl in H. inversion H; subst. destruct Hd as [<-|Hd].
    + simpl in Hh. apply in_map_iff in Hh. destruct Hh as [hour [<- _]].
      split; reflexivity.
    + eapply IH; eauto.
Qed.

Lemma default_days_returns sh eh days :
  sh < eh -> exists daily, default_days sh eh days = Ok daily
                           /\ map df_date daily = days.
Proof.
  intro Hlt. induction days as [|t days IH]; simpl.
  - eexists. split; reflexivity.
  - assert (Hr : exists x l, range sh eh = x :: l).
    { unfold range. destruct (Z.to_nat (eh - sh)) eqn:E; [lia|].
      simpl. eauto. }
    destruct Hr as [x [l ->]]. simpl.
    destruct IH as [daily [-> Hd]]. simpl. eexists. split; [reflexivity|].
    simpl. rewrite Hd. reflexivity.
Qed.

(** C5, as amended: for a store with no historical rows,
    [forecast_week] carries the no-history warning and reports
    [data_points_used = 0] for every hour, tagged with the requested
    method; [generate_default_forecast] carries a warning and tags every
    hour [default_pattern] with [data_points_used = 0]; the generate route
    returns the latter; and both return a result for an existing store
    (a Monday, respectively a non-empty operating window). *)
Theorem cold_start_forecasts :
  forall db fdb today store_id week_start method,
    no_history fdb store_id ->
    (forall w,
        forecast_week db fdb today store_id week_start method = Ok w ->
        In NoHistoricalData (wf_warnings w)
        /\ forall h, In h (all_hourly w) ->
             data_points_used h = 0%nat
             /\ hf_method h = method_value method)
    /\ (forall w,
           generate_default_forecast db store_id week_start = Ok w ->
           wf_warnings w = [UsingDefaultPattern]
           /\ wf_method w = "default_pattern"%string
           /\ forall h, In h (all_hourly w) ->
                data_points_used h = 0%nat
                /\ hf_method h = "default_pattern"%string)
    /\ (forall name save fdb' w,
           generate_forecast db fdb today
             (mkForecastRequest store_id week_start name save)
           = Ok (fdb', w) ->
           generate_default_forecast db store_id week_start = Ok w)
    /\ (forall store,
           store_by_id db store_id = Some store ->
           (weekday week_start = 0 ->
            exists w,
              forecast_week db fdb today store_id week_start method = Ok w)
           /\ (start_hour_of store 8 < end_hour_of store 22 ->
               exists w,
                 generate_default_forecast db store_id week_start = Ok w)).
Proof.
  intros db fdb today sid ws m Hno.
  pose proof (no_history_no_data fdb today sid Hno) as Hd.
  split; [|split; [|split]].
  - intros w Hw.
    destruct (forecast_week_store _ _ _ _ _ _ _ Hw) as [W [store S]].
    destruct (forecast_week_found db fdb today sid ws m store S W)
      as [warns E].
    rewrite E in Hw. apply Ok_inj in Hw. subst w.
    cbn [wf_warnings]. rewrite Hd.
    split; [now left|].
    intros h Hh. unfold all_hourly in Hh. cbn [daily_forecasts] in Hh.
    apply in_flat_map in Hh. destruct Hh as [d [Hd1 Hd2]].
    apply in_map_iff in Hd1. destruct Hd1 as [t [<- _]].
    cbn [make_daily hourly_forecasts] in Hd2.
    apply in_map_iff in Hd2. destruct Hd2 as [hour [<- _]].
    unfold forecast_hour. cbn [historical_get first find].
    destruct (run_method m [] t) as [[p lo] hi].
    cbn [data_points_used hf_method length]. split; reflexivity.
  - intros w Hw. unfold generate_default_forecast in Hw.
    destruct (store_by_id db sid) as [store|]; [|discriminate].
    destruct (default_days _ _ _) as [daily|] eqn:E; [|discriminate].
    cbn [bind] in Hw. apply Ok_inj in Hw. subst w.
    cbn [wf_warnings wf_method].
    split; [reflexivity|]. split; [reflexivity|].
    intros h Hh. unfold all_hourly in Hh. cbn [daily_forecasts] in Hh.
    apply in_flat_map in Hh. destruct Hh as [d [Hd1 Hd2]].
    destruct (default_days_hourly _ _ _ _ E d h Hd1 Hd2). tauto.
  - intros name save fdb' w. unfold generate_forecast.
    cbn [fr_store_id fr_week_start fr_method save_to_db].
    destruct (store_by_id db sid); [|discriminate].
    destruct (negb (weekday ws =? 0)); [discriminate|].
    destruct (parse_method name) as [m'|]; [|discriminate].
    unfold no_history in Hno. rewrite Hno. cbn [length Nat.eqb].
    destruct (generate_default_forecast db sid ws) as [w0|];
      [|discriminate].
    cbn [uncaught bind].
    destruct (if save then _ else _) as [f|]; [|discriminate].
    cbn [bind]. intro H. apply Ok_inj in H. congruence.
  - intros store S. split.
    + intro W. destruct (forecast_week_found db fdb today sid ws m store S W)
        as [warns E]. eexists. exact E.
    + intro Hlt. unfold generate_default_forecast. rewrite S.
      destruct (default_days_returns _ _ (week_dates ws) Hlt) as [daily [-> _]].
      simpl. eexists. reflexivity.
Qed.

(** C5 (amended) on store 1 when only store 2 has history. *)
Lemma cold_start_forecasts_witness :
  no_history fdb_other_store 1
  /\ forall w,
      generate_default_forecast db_store_only 1 monday = Ok w ->
      wf_warnings w = [UsingDefaultPattern]
      /\ wf_method w = "default_pattern"%string
      /\ forall h, In h (all_hourly w) ->
           data_points_used h = 0%nat
           /\ hf_method h = "default_pattern"%string.
Proof.
  assert (H : no_history fdb_other_store 1) by reflexivity.
  split; [exact H|].
  exact (proj1 (proj2 (cold_start_forecasts db_store_only fdb_other_store
                         monday 1 monday ENSEMBLE H))).
Defined.

(** C5 fails for [forecast_week] itself: with no history the Monday 08:00
    forecast of store 1 is tagged ensemble, not default_pattern. *)
Lemma forecast_week_tags_requested_method :
  no_history fdb_none 1
  /\ exists w h,
      forecast_week db_store_only fdb_none monday 1 monday ENSEMBLE = Ok w
      /\ In h (all_hourly w)
      /\ hf_date h = monday /\ hf_hour h = 8
      /\ hf_method h = "ensemble"%string
      /\ hf_method h <> "default_pattern"%string
      /\ data_points_used h = 0%nat
      /\ In NoHistoricalData (wf_warnings w).
Proof.
  split; [reflexivity|].
  destruct (forecast_week_found db_store_only fdb_none monday 1 monday ENSEMBLE
              store_one eq_refl eq_refl) as [warns E].
  eexists. exists (forecast_hour monday 8 ENSEMBLE []). split; [exact E|].
  split.
  - unfold all_hourly. cbn [daily_forecasts]. apply in_flat_map.
    exists (make_daily monday
              (map (fun hour => forecast_hour monday hour ENSEMBLE
                                  (_get_historical_data fdb_none monday 1))
                 (range (start_hour_of store_one 8)
                    (end_hour_of store_one 22)))).
    split.
    + apply in_map_iff. exists monday. split; [reflexivity|].
      unfold week_dates. apply in_map_iff. exists 0. split; [reflexivity|].
      now left.
    + cbn [make_daily hourly_forecasts]. apply in_map_iff. exists 8.
      split; [reflexivity|]. now left.
  - unfold forecast_hour. 
    destruct (run_method ENSEMBLE
                (historical_get [] (weekday monday, 8)) monday)
      as [[p lo] hi] eqn:R.
    cbn. repeat split; try reflexivity.
    + discriminate.
    + now left.
Qed.

(** ** C2 *)

Lemma range_In lo hi x : In x (range lo hi) <-> lo <= x < hi.
Proof.
  unfold range. rewrite in_map_iff. split.
  - intros [i [<- Hi]]. apply in_seq in Hi. lia.
  - intro H. exists (Z.to_nat (x - lo)). split; [lia|]. apply in_seq. lia.
Qed.

Lemma discard_In x y s : In y (discard x s) <-> In y s /\ y <> x.
Proof.
  unfold discard. rewrite filter_In. rewrite negb_true_iff, Z.eqb_neq. tauto.
Qed.

(** Days of the week inside an approved request are not available. *)
Lemma time_off_inner_removed week_start request offsets : forall st d,
  (~ In d (snd st)
   \/ (In d offsets
       /\ to_start_date request <= week_start + d <= to_end_date request)) ->
  ~ In d (snd (fold_left
                 (fun st day_offset =>
                    let check_date := week_start + day_offset in
                    if (to_start_date request <=? check_date)
                       && (check_date <=? to_end_date request)
                    then (set_add day_offset (fst st),
                          discard day_offset (snd st))
                    else st)
                 offsets st)).
Proof.
  induction offsets as [|o offsets IH]; simpl; intros st d H.
  - destruct H as [H|[[] _]]. exact H.
  - apply IH. 
    destruct ((to_start_date request <=? week_start + o)
              && (week_start + o <=? to_end_date request)) eqn:C.
    + simpl. destruct H as [H|[[->|Hin] Hr]].
      * left. rewrite discard_In. tauto.
      * left. rewrite discard_In. intros [_ Hne]. congruence.
      * right. tauto.
    + destruct H as [H|[[->|Hin] Hr]].
      * left. exact H.
      * exfalso. apply andb_false_iff in C.
        destruct C as [C|C]; apply Z.leb_gt in C; lia.
      * right. tauto.
Qed.

Lemma time_off_loop_removed week_start requests : forall st d,
  (~ In d (snd st)
   \/ (0 <= d < 7
       /\ exists r, In r requests
                    /\ to_start_date r <= week_start + d <= to_end_date r)) ->
  ~ In d (snd (fold_left (time_off_step week_start) requests st)).
Proof.
  induction requests as [|r requests IH]; simpl; intros st d H.
  - destruct H as [H|[_ [r [[] _]]]]. exact H.
  - apply IH. destruct H as [H|[Hd [r' [[->|Hin] Hr]]]].
    + left. unfold time_off_step. apply time_off_inner_removed. now left.
    + left. unfold time_off_step. apply time_off_inner_removed. right.
      split; [apply range_In; lia|exact Hr].
    + right. split; [exact Hd|]. exists r'. tauto.
Qed.

Lemma approved_time_off_on_In db e d r :
  approved_time_off_on db e d = Some r ->
  In r (time_off_requests db) /\ to_employee_id r = e
  /\ to_status r = TO_APPROVED /\ to_start_date r <= d <= to_end_date r.
Proof.
  unfold approved_time_off_on, first. intro H. apply find_some in H.
  destruct H as [Hin H]. rewrite !andb_true_iff in H.
  destruct H as [[[H1 H2] H3] H4].
  apply Z.eqb_eq in H1. apply Z.leb_le in H3, H4.
  destruct (to_status r); try discriminate. repeat split; auto.
Qed.

Lemma constraints_exclude_time_off db employee week_start d r :
  0 <= d < 7 ->
  approved_time_off_on db (emp_id employee) (week_start + d) = Some r ->
  ~ In d (available_days (_get_employee_constraints db employee week_start)).
Proof.
  intros Hd Hr. apply approved_time_off_on_In in Hr.
  destruct Hr as [Hin [He [Hs [H1 H2]]]].
  unfold _get_employee_constraints.
  destruct (fold_left availability_step _ _) as [available0 preferred].
  match goal with
  | |- context [fold_left (time_off_step week_start) ?l ?s] =>
      pose proof (time_off_loop_removed week_start l s d) as H;
      destruct (fold_left (time_off_step week_start) l s) as [tod av] eqn:E
  end.
  simpl. simpl in H. apply H. right. split; [exact Hd|]. exists r.
  split; [|lia]. apply filter_In. split; [exact Hin|].
  rewrite He, Z.eqb_refl, Hs. simpl.
  apply andb_true_iff. split; apply Z.leb_le; lia.
Qed.

Lemma dict_get_In {V} (d : list (Z * V)) k v :
  dict_get d k = Some v -> In (k, v) d.
Proof.
  unfold dict_get, first. destruct (find _ d) as [[k' v']|] eqn:F;
    [|discriminate].
  intro H. inversion H; subst. apply find_some in F. destruct F as [Hin Hk].
  simpl in Hk. apply Z.eqb_eq in Hk. subst. exact Hin.
Qed.

Lemma emp_constraints_of_get db week_start emps e ec :
  dict_get (emp_constraints_of db week_start emps) e = Some ec ->
  exists emp, In emp emps /\ emp_id emp = e
              /\ ec = _get_employee_constraints db emp week_start.
Proof.
  intro H. apply dict_get_In in H. unfold emp_constraints_of in H.
  apply in_rev in H. apply in_map_iff in H. destruct H as [emp [E Hin]].
  inversion E; subst. exists emp. auto.
Qed.

Lemma initial_day_vars_available ec store d i :
  In i (initial_day_vars ec store d) -> In d (available_days ec).
Proof.
  unfold initial_day_vars, _get_applicable_shifts.
  destruct (existsb (Z.eqb d) (available_days ec)) eqn:E; simpl.
  - intros _. apply existsb_exists in E. destruct E as [x [Hx Hd]].
    apply Z.eqb_eq in Hd. subst. exact Hx.
  - intros [].
Qed.

Lemma all_shift_vars_In sv e d i :
  In (e, d, i) (all_shift_vars sv)
  <-> exists days idxs, In (e, days) sv /\ In (d, idxs) days /\ In i idxs.
Proof.
  unfold all_shift_vars. rewrite in_flat_map. split.
  - intros [[e' days] [H1 H2]]. simpl in H2. apply in_flat_map in H2.
    destruct H2 as [[d' idxs] [H2 H3]]. simpl in H3.
    apply in_map_iff in H3. destruct H3 as [i' [E H3]]. inversion E; subst.
    eauto.
  - intros [days [idxs [H1 [H2 H3]]]]. exists (e, days). split; [exact H1|].
    simpl. apply in_flat_map. exists (d, idxs). split; [exact H2|].
    simpl. apply in_map_iff. exists i. auto.
Qed.

Lemma initial_shift_vars_In ecs store emps : forall sv0 e d i,
  initial_shift_vars ecs store emps = Ok sv0 ->
  In (e, d, i) (all_shift_vars sv0) ->
  exists ec, dict_get ecs e = Some ec /\ 0 <= d < 7
             /\ In i (initial_day_vars ec store d).
Proof.
  unfold initial_shift_vars.
  induction emps as [|emp emps IH]; simpl; intros sv0 e d i H Hin.
  - inversion H; subst. destruct Hin.
  - destruct (fold_right _ (Ok []) emps) as [rest|]; [|discriminate].
    simpl in H. destruct (dict_get ecs (emp_id emp)) as [ec|] eqn:G;
      [|discriminate].
    inversion H; subst. clear H.
    apply all_shift_vars_In in Hin. destruct Hin as [days [idxs [H1 [H2 H3]]]].
    destruct H1 as [H1|H1].
    + inversion H1; subst. exists ec. split; [exact G|].
      simpl in H2.
      repeat (destruct H2 as [H2|H2];
              [inversion H2; subst; split; [lia|exact H3]|]).
      destruct H2.
    + eapply IH; [reflexivity|]. apply all_shift_vars_In. eauto.
Qed.

Lemma day_insert_In d i days d' idxs x :
  In (d', idxs) (day_insert d i days) -> In x idxs ->
  (d' = d /\ x = i) \/ exists idxs0, In (d', idxs0) days /\ In x idxs0.
Proof.
  induction days as [|[d0 l0] days IH]; simpl; intros H Hx.
  - destruct H as [H|[]]. inversion H; subst. left.
    destruct Hx as [<-|[]]. auto.
  - destruct (d0 =? d) eqn:E.
    + apply Z.eqb_eq in E. subst d0. destruct H as [H|H].
      * inversion H; subst. destruct (existsb (Nat.eqb i) l0).
        -- right. exists l0. split; [now left|exact Hx].
        -- apply in_app_or in Hx. destruct Hx as [Hx|[<-|[]]].
           ++ right. exists l0. split; [now left|exact Hx].
           ++ left. auto.
      * right. exists idxs. split; [now right|exact Hx].
    + destruct H as [H|H].
      * inversion H; subst. right. exists idxs. split; [now left|exact Hx].
      * destruct (IH H Hx) as [?|[idxs0 [? ?]]]; [now left|].
        right. exists idxs0. split; [now right|assumption].
Qed.

Lemma sv_insert_In e d i sv k :
  In k (all_shift_vars (sv_insert e d i sv)) ->
  k = (e, d, i) \/ In k (all_shift_vars sv).
Proof.
  destruct k as [[e' d'] x]. rewrite !all_shift_vars_In.
  induction sv as [|[e0 days0] sv IH]; simpl;
    intros [days [idxs [H1 [H2 H3]]]].
  - destruct H1 as [H1|[]]. inversion H1; subst.
    destruct H2 as [H2|[]]. inversion H2; subst.
    destruct H3 as [<-|[]]. now left.
  - destruct (e0 =? e) eqn:E.
    + apply Z.eqb_eq in E. subst e0. destruct H1 as [H1|H1].
      * inversion H1; subst.
        destruct (day_insert_In _ _ _ _ _ _ H2 H3) as [[-> ->]|[l0 [? ?]]];
          [now left|].
        right. exists days0, l0. split; [now left|]. auto.
      * right. exists days, idxs. split; [now right|]. auto.
    + destruct H1 as [H1|H1].
      * inversion H1; subst. right. exists days, idxs.
        split; [now left|]. auto.
      * destruct IH as [?|[days1 [idxs1 [? [? ?]]]]]; [eauto|now left|].
        right. exists days1, idxs1. split; [now right|]. auto.
Qed.

Lemma lock_fold_In locked : forall st k,
  In k (all_shift_vars (fst (fold_left lock_step locked st))) ->
  In k (all_shift_vars (fst st))
  \/ exists l, In l locked
               /\ k = (lk_employee_id l, lk_day_index l, shift_template_idx l).
Proof.
  induction locked as [|l locked IH]; simpl; intros st k H; [now left|].
  apply IH in H. destruct H as [H|[l' [Hin ->]]].
  - simpl in H. apply sv_insert_In in H. destruct H as [->|H]; [|now left].
    right. exists l. split; [now left|reflexivity].
  - right. exists l'. split; [now right|reflexivity].
Qed.

Lemma extract_shifts_In val emps week_start keys : forall generated g,
  extract_shifts val emps week_start keys = Ok generated ->
  In g generated ->
  exists e d i, In (e, d, i) keys
                /\ shift_of_var week_start e d i = Some g
                /\ val (ShiftVar e d i) = 1.
Proof.
  induction keys as [|[[e d] i] keys IH]; simpl; intros generated g H Hin.
  - inversion H; subst. destruct Hin.
  - destruct (first _ emps); [|discriminate].
    destruct (extract_shifts val emps week_start keys) as [more|];
      [|discriminate].
    simpl in H. destruct (val (ShiftVar e d i) =? 1) eqn:V.
    + destruct (nth_error SHIFT_TEMPLATES i) as [t|] eqn:T; [|discriminate].
      inversion H; subst. destruct Hin as [<-|Hin].
      * exists e, d, i. split; [now left|]. unfold shift_of_var. rewrite T.
        split; [reflexivity|]. apply Z.eqb_eq. exact V.
      * destruct (IH more g eq_refl Hin) as [e' [d' [i' [? ?]]]].
        exists e', d', i'. split; [now right|assumption].
    + inversion H; subst.
      destruct (IH generated g eq_refl Hin) as [e' [d' [i' [? ?]]]].
      exists e', d', i'. split; [now right|assumption].
Qed.

Lemma shift_of_var_fields week_start e d i g :
  shift_of_var week_start e d i = Some g ->
  g_employee_id g = e /\ g_date g = week_start + d.
Proof.
  unfold shift_of_var. destruct (nth_error SHIFT_TEMPLATES i);
    [|discriminate].
  intro H. inversion H. split; reflexivity.
Qed.

(** C2, as amended: whenever [optimize] returns OPTIMAL or FEASIBLE, an
    emitted shift whose date lies in an approved time-off request of its
    employee is the shift of one of the locked shifts passed in.  With no
    locked shifts no emitted shift is on approved time off. *)
Theorem unlocked_shifts_avoid_time_off :
  forall solver db fdb today store_id week_start locked_shifts
         manual_overrides g,
    is_success
      (opt_status (optimize solver db fdb today store_id week_start
                     locked_shifts manual_overrides)) = true ->
    In g (opt_shifts (optimize solver db fdb today store_id week_start
                        locked_shifts manual_overrides)) ->
    on_approved_time_off db g ->
    exists l, In l locked_shifts /\ from_lock week_start l g.
Proof.
  intros solver db fdb today sid ws locked overrides g Hs Hin [r Hr].
  unfold optimize in *.
  destruct (store_by_id db sid) as [store|]; [|destruct Hin].
  destruct (_get_employees db sid) as [|emp0 emps0] eqn:Eemps;
    [destruct Hin|].
  set (emps := emp0 :: emps0) in *.
  unfold optimize_body in *.
  destruct (_get_demand_slots db fdb today (st_id store) ws)
    as [[fdb' slots]|]; [|destruct Hin].
  simpl in Hs, Hin. destruct slots as [|slot slots]; [destruct Hin|].
  destruct (build_constraints _ store emps locked overrides)
    as [[sv cs]|] eqn:B; [|destruct Hin].
  simpl in Hs, Hin.
  assert (Hkeys : forall generated,
             extract_shifts
               (Value (solver (mkModel cs
                                 (build_objective sv (slot :: slots)))))
               emps ws (all_shift_vars sv) = Ok generated ->
             In g generated ->
             exists l, In l locked /\ from_lock ws l g).
  { intros generated He Hg.
    destruct (extract_shifts_In _ _ _ _ _ _ He Hg) as [e [d [i [Hk [Hv _]]]]].
    unfold build_constraints in B.
    destruct (initial_shift_vars _ store emps) as [sv0|] eqn:I;
      [|discriminate].
    simpl in B.
    destruct (fold_left lock_step locked _) as [sv1 cs1] eqn:L.
    destruct (max_days_constraints _ sv1); [|discriminate]. simpl in B.
    destruct (max_hours_constraints _ sv1); [|discriminate]. simpl in B.
    inversion B; subst sv1. clear B.
    pose proof (lock_fold_In locked
                  (sv0, flat_map (override_constraints sv0) overrides)
                  (e, d, i)) as HL.
    rewrite L in HL. simpl in HL. destruct (HL Hk) as [H0|[l [Hl El]]].
    - exfalso.
      destruct (initial_shift_vars_In _ _ _ _ _ _ _ I H0)
        as [ec [Hec [Hd Hi]]].
      apply emp_constraints_of_get in Hec.
      destruct Hec as [emp [_ [Heid ->]]].
      apply initial_day_vars_available in Hi.
      destruct (shift_of_var_fields _ _ _ _ _ Hv) as [G1 G2].
      rewrite G1, G2, <- Heid in Hr.
      exact (constraints_exclude_time_off db emp ws d r Hd Hr Hi).
    - exists l. split; [exact Hl|]. inversion El; subst. exact Hv. }
  destruct (cp_status (solver _)); simpl in Hs, Hin; try destruct Hin.
  - destruct (extract_shifts _ emps ws (all_shift_vars sv)) as [generated|]
      eqn:He; simpl in Hin; [|destruct Hin].
    eapply Hkeys; eauto.
  - destruct (extract_shifts _ emps ws (all_shift_vars sv)) as [generated|]
      eqn:He; simpl in Hin; [|destruct Hin].
    eapply Hkeys; eauto.
Qed.

(** What a successful [optimize] call went through. *)
Lemma optimize_success_shape solver db fdb today store_id week_start
  locked_shifts manual_overrides :
  is_success
    (opt_status (optimize solver db fdb today store_id week_start
                   locked_shifts manual_overrides)) = true ->
  exists store fdb' slots,
    store_by_id db store_id = Some store
    /\ _get_demand_slots db fdb today (st_id store) week_start
       = Ok (fdb', slots)
    /\ (slots = []
        \/ exists sv cs generated,
            build_constraints
              (emp_constraints_of db week_start (_get_employees db store_id))
              store (_get_employees db store_id) locked_shifts
              manual_overrides = Ok (sv, cs)
            /\ (cp_status (solver (mkModel cs (build_objective sv slots)))
                = CP_OPTIMAL
                \/ cp_status (solver (mkModel cs (build_objective sv slots)))
                   = CP_FEASIBLE)
            /\ extract_shifts
                 (Value (solver (mkModel cs (build_objective sv slots))))
                 (_get_employees db store_id) week_start (all_shift_vars sv)
               = Ok generated
            /\ opt_shifts (optimize solver db fdb today store_id week_start
                             locked_shifts manual_overrides) = generated).
Proof.
  unfold optimize.
  destruct (store_by_id db store_id) as [store|]; [|discriminate].
  destruct (_get_employees db store_id) as [|emp0 emps0] eqn:Eemps;
    [discriminate|].
  unfold optimize_body.
  destruct (_get_demand_slots db fdb today (st_id store) week_start)
    as [[fdb' slots]|] eqn:D; [|discriminate].
  cbn [bind snd]. intro H. exists store, fdb', slots.
  split; [reflexivity|]. split; [exact D|].
  destruct slots as [|slot slots]; [now left|]. right.
  destruct (build_constraints _ store (emp0 :: emps0) locked_shifts
              manual_overrides) as [[sv cs]|] eqn:B; [|discriminate].
  cbn [bind] in *. exists sv, cs.
  destruct (cp_status (solver _)) eqn:S; try discriminate.
  - destruct (extract_shifts _ _ week_start (all_shift_vars sv))
      as [generated|] eqn:X; [|discriminate].
    exists generated. cbn [bind opt_shifts]. repeat split; auto.
  - destruct (extract_shifts _ _ week_start (all_shift_vars sv))
      as [generated|] eqn:X; [|discriminate].
    exists generated. cbn [bind opt_shifts]. repeat split; auto.
Qed.

Lemma extract_shifts_complete val emps week_start keys :
  forall generated e d i g,
    extract_shifts val emps week_start keys = Ok generated ->
    In (e, d, i) keys ->
    val (ShiftVar e d i) = 1 ->
    shift_of_var week_start e d i = Some g ->
    In g generated.
Proof.
  induction keys as [|[[e0 d0] i0] keys IH]; simpl;
    intros generated e d i g H Hin Hv Hg; [destruct Hin|].
  destruct (first _ emps); [|discriminate].
  destruct (extract_shifts val emps week_start keys) as [more|];
    [|discriminate].
  simpl in H. destruct Hin as [E|Hin].
  - inversion E; subst. rewrite Hv in H. simpl in H.
    unfold shift_of_var in Hg.
    destruct (nth_error SHIFT_TEMPLATES i); [|discriminate].
    inversion H; inversion Hg; subst. now left.
  - destruct (val (ShiftVar e0 d0 i0) =? 1).
    + destruct (nth_error SHIFT_TEMPLATES i0); [|discriminate].
      inversion H; subst. right. eapply IH; eauto.
    + inversion H; subst. eapply IH; eauto.
Qed.

Lemma satisfies_EqConst val m v k :
  satisfies val m = true -> In (EqConst v k) (constraints m) -> val v = k.
Proof.
  unfold satisfies. intros H Hin. rewrite forallb_forall in H.
  specialize (H _ Hin). apply andb_true_iff in H. destruct H as [H _].
  simpl in H. apply Z.eqb_eq. exact H.
Qed.

(** ** demand of a store with stored forecasts *)

Section Demand.
Local Open Scope R_scope.

Lemma requirements_get_map (F : Z -> R) l k default :
  In k l ->
  requirements_get (map (fun hour => (hour, F hour)) l) k default = F k.
Proof.
  unfold requirements_get, first. induction l as [|x l IH]; simpl;
    intro H; [destruct H|].
  destruct (x =? k)%Z eqn:E.
  - apply Z.eqb_eq in E. subst. reflexivity.
  - destruct H as [->|H]; [rewrite Z.eqb_refl in E; discriminate|].
    apply IH. exact H.
Qed.

Lemma demand_loop_returns db today store week_start days fdb s :
  standard_of fdb (st_id store) = Some s ->
  exists slots, demand_loop db fdb today store week_start days
                = Ok (fdb, slots).
Proof.
  intro Hs. induction days as [|d days IH]; simpl.
  - eexists. reflexivity.
  - destruct (get_hourly_requirements_returns db fdb today (st_id store)
                (week_start + d)%Z true s Hs) as [reqs [-> _]].
    cbn [bind fst snd].
    destruct IH as [slots ->].
    cbn [bind fst snd]. eexists. reflexivity.
Qed.

Lemma demand_loop_slot db today store week_start fdb s reqs hour :
  forall days day,
    standard_of fdb (st_id store) = Some s ->
    In day days ->
    get_hourly_requirements db fdb today (st_id store) (week_start + day)%Z
      true = Ok (fdb, reqs) ->
    In hour (range (start_hour_of store 8) (end_hour_of store 22)) ->
    0 < requirements_get reqs hour 0 ->
    exists fdb' slots,
      demand_loop db fdb today store week_start days = Ok (fdb', slots)
      /\ slots <> [].
Proof.
  intros days day Hs. induction days as [|d days IH]; intros Hin Hreq Hh Hpos;
    [destruct Hin|].
  simpl.
  destruct (get_hourly_requirements_returns db fdb today (st_id store)
              (week_start + d)%Z true s Hs) as [reqs_d [Hd _]].
  rewrite Hd. cbn [bind fst snd].
  destruct (demand_loop_returns db today store week_start days fdb s Hs)
    as [more Hm].
  rewrite Hm. cbn [bind fst snd]. eexists. eexists. split; [reflexivity|].
  destruct Hin as [->|Hin].
  - rewrite Hreq in Hd. apply Ok_inj in Hd. inversion Hd; subst reqs_d.
    intro E. apply app_eq_nil in E. destruct E as [E _].
    assert (Hin : In (mkSlot day hour (requirements_get reqs hour 0))
                    (flat_map
                       (fun hour0 =>
                          if Rltb 0 (requirements_get reqs hour0 0)
                          then [mkSlot day hour0
                                  (requirements_get reqs hour0 0)]
                          else [])
                       (range (start_hour_of store 8)
                          (end_hour_of store 22)))).
    { apply in_flat_map. exists hour. split; [exact Hh|].
      rewrite Rltb_true by exact Hpos. now left. }
    rewrite E in Hin. destruct Hin.
  - destruct (IH Hin Hreq Hh Hpos) as [f2 [s2 [H2 Hne]]].
    rewrite Hm in H2. apply Ok_inj in H2. inversion H2; subst.
    intro E. apply app_eq_nil in E. destruct E as [_ E]. contradiction.
Qed.

End Demand.

Lemma lock_solver_sound : solver_sound lock_solver.
Proof.
  intros m H. unfold lock_solver in *. simpl in *. unfold satisfies.
  destruct (forallb _ (constraints m)); [reflexivity|].
  destruct H; discriminate.
Qed.

Section LockedDemand.
Local Open Scope R_scope.

Lemma get_hourly_requirements_stored db fdb today store_id target_date
  auto_generate store s f fs :
  store_by_id db store_id = Some store ->
  standard_of fdb store_id = Some s ->
  map (fun f => (of_hour f, predicted_orders f))
    (filter (fun f => (of_store_id f =? store_id)%Z
                      && (of_date f =? target_date)%Z)
       (order_forecasts fdb)) = f :: fs ->
  get_hourly_requirements db fdb today store_id target_date auto_generate
  = Ok (fdb,
        map (fun hour =>
               (hour,
                R_round
                  (calculate_required_hours
                     match first (fun f0 => (fst f0 =? hour)%Z) (f :: fs) with
                     | Some f0 => snd f0
                     | None => 0
                     end
                     (orders_per_picker_hour s)) 2))
          (range (start_hour_of store store_open_hour)
             (end_hour_of store store_close_hour))).
Proof.
  intros S L F. unfold get_hourly_requirements.
  rewrite (committed_present db _ _ _ L). cbn [bind]. rewrite S, F.
  reflexivity.
Qed.

Lemma locked_store_has_demand today :
  exists fdb' slot slots,
    _get_demand_slots db_locked fdb_locked today 1 monday
    = Ok (fdb', slot :: slots).
Proof.
  unfold _get_demand_slots.
  change (store_by_id db_locked 1) with (Some store_one).
  pose proof (get_hourly_requirements_stored db_locked fdb_locked today 1
                (monday + 0)%Z true store_one (mkLaborStandard 1 10 4 8)
                (12%Z, 50) [] eq_refl eq_refl eq_refl) as Hreq.
  match type of Hreq with
  | _ = Ok (_, ?r) => set (reqs := r) in *
  end.
  assert (Hpos : 0 < requirements_get reqs 12 0).
  { unfold reqs. rewrite requirements_get_map.
    - change (match first (fun f0 : Z * R => (fst f0 =? 12)%Z) [(12%Z, 50)]
              with Some f0 => snd f0 | None => 0 end) with 50.
      change (orders_per_picker_hour (mkLaborStandard 1 10 4 8)) with 10.
      unfold calculate_required_hours.
      destruct (Rle_dec 10 0) as [C|_]; [lra|].
      unfold R_round. change (10 ^ Z.of_nat 2)%Z with 100%Z.
      replace (50 / 10 * 100) with (IZR 500) by lra.
      rewrite R_round_half_even_IZR. lra.
    - apply range_In. change (8 <= 12 < 22)%Z. lia. }
  destruct (demand_loop_slot db_locked today store_one monday fdb_locked
              (mkLaborStandard 1 10 4 8) reqs 12 (range 0 7) 0%Z eq_refl)
    as [fdb' [slots [H Hne]]].
  - apply range_In. lia.
  - exact Hreq.
  - apply range_In. change (8 <= 12 < 22)%Z. lia.
  - exact Hpos.
  - destruct slots as [|slot slots]; [congruence|]. eauto.
Qed.

End LockedDemand.

Lemma lock_solver_ignores_objective cs obj :
  lock_solver (mkModel cs obj) = lock_solver (mkModel cs []).
Proof. reflexivity. Qed.

Lemma locked_build :
  exists sv cs,
    build_constraints
      (emp_constraints_of db_locked monday (_get_employees db_locked 1))
      store_one (_get_employees db_locked 1) [monday_lock] []
    = Ok (sv, cs)
    /\ In (EqConst (ShiftVar 1 0 0) 1) cs
    /\ In (1, 0, 0%nat) (all_shift_vars sv)
    /\ cp_status (lock_solver (mkModel cs [])) = CP_FEASIBLE
    /\ extract_shifts (Value (lock_solver (mkModel cs [])))
         (_get_employees db_locked 1) monday (all_shift_vars sv)
       = Ok [locked_generated].
Proof.
  eexists. eexists. split; [vm_compute; reflexivity|].
  split; [vm_compute; tauto|]. split; [vm_compute; tauto|].
  split; vm_compute; reflexivity.
Qed.

(** C2 fails with a locked shift: employee 1 has approved time off on the
    Monday, the call locks employee 1 on day 0 with template 0, and every
    sound solver that succeeds emits the Monday 08:00-16:00 shift of
    employee 1. *)
Lemma locked_shift_lands_on_time_off :
  on_approved_time_off db_locked locked_generated
  /\ solver_sound lock_solver
  /\ optimize lock_solver db_locked fdb_locked monday 1 monday [monday_lock] []
     = mkOptResult FEASIBLE [locked_generated]
  /\ forall solver,
      solver_sound solver ->
      is_success
        (opt_status (optimize solver db_locked fdb_locked monday 1 monday
                       [monday_lock] [])) = true ->
      In locked_generated
        (opt_shifts (optimize solver db_locked fdb_locked monday 1 monday
                       [monday_lock] [])).
Proof.
  destruct locked_build as [sv [cs [B [Hc [Hk [Hst Hex]]]]]].
  destruct (locked_store_has_demand monday) as [fdb' [slot [slots D]]].
  split; [|split; [|split]].
  - exists time_off_monday. reflexivity.
  - exact lock_solver_sound.
  - unfold optimize.
    change (store_by_id db_locked 1) with (Some store_one). cbv iota.
    change (_get_employees db_locked 1) with [mkEmployee 1 1 1 ACTIVE] in *.
    cbv iota. unfold optimize_body.
    change (st_id store_one) with 1. rewrite D. cbn [bind snd].
    rewrite B. cbn [bind]. rewrite lock_solver_ignores_objective.
    rewrite Hst, Hex. reflexivity.
  - intros solver Hsound Hs.
    destruct (optimize_success_shape _ _ _ _ _ _ _ _ Hs)
      as [store [fdb2 [slots2 [S [D2 H]]]]].
    change (store_by_id db_locked 1) with (Some store_one) in S.
    apply (f_equal (fun o => match o with Some x => x | None => store end))
      in S. simpl in S. subst store.
    change (st_id store_one) with 1 in D2. rewrite D in D2.
    apply Ok_inj in D2. inversion D2; subst fdb2 slots2. clear D2.
    destruct H as [H|[sv2 [cs2 [generated [B2 [Hcp [Hx Hout]]]]]]];
      [discriminate|].
    rewrite B in B2. apply Ok_inj in B2. inversion B2; subst sv2 cs2.
    rewrite Hout.
    eapply (extract_shifts_complete _ _ _ _ _ 1 0 0%nat); eauto.
    eapply satisfies_EqConst; [apply Hsound; tauto|exact Hc].
Qed.

(** C2 (amended) on the call with one locked shift on a day off. *)
Lemma unlocked_shifts_avoid_time_off_witness :
  is_success
    (opt_status (optimize lock_solver db_locked fdb_locked monday 1 monday
                   [monday_lock] [])) = true
  /\ In locked_generated
       (opt_shifts (optimize lock_solver db_locked fdb_locked monday 1 monday
                      [monday_lock] []))
  /\ on_approved_time_off db_locked locked_generated
  /\ exists l, In l [monday_lock] /\ from_lock monday l locked_generated.
Proof.
  destruct locked_build as [sv [cs [B [Hc [Hk [Hst Hex]]]]]].
  destruct (locked_store_has_demand monday) as [fdb' [slot [slots D]]].
  assert (E : optimize lock_solver db_locked fdb_locked monday 1 monday
                [monday_lock] []
              = mkOptResult FEASIBLE [locked_generated]).
  { unfold optimize.
    change (store_by_id db_locked 1) with (Some store_one). cbv iota.
    change (_get_employees db_locked 1) with [mkEmployee 1 1 1 ACTIVE] in *.
    cbv iota. unfold optimize_body.
    change (st_id store_one) with 1. rewrite D. cbn [bind snd].
    rewrite B. cbn [bind]. rewrite lock_solver_ignores_objective.
    rewrite Hst, Hex. reflexivity. }
  assert (H1 : is_success
                 (opt_status (optimize lock_solver db_locked fdb_locked monday
                                1 monday [monday_lock] [])) = true)
    by (rewrite E; reflexivity).
  assert (H2 : In locked_generated
                 (opt_shifts (optimize lock_solver db_locked fdb_locked monday
                                1 monday [monday_lock] [])))
    by (rewrite E; left; reflexivity).
  assert (H3 : on_approved_time_off db_locked locked_generated)
    by (exists time_off_monday; reflexivity).
  split; [exact H1|]. split; [exact H2|]. split; [exact H3|].
  exact (unlocked_shifts_avoid_time_off lock_solver db_locked fdb_locked
           monday 1 monday [monday_lock] [] locked_generated H1 H2 H3).
Defined.

(** ** weeks *)

Lemma get_week_start_bounds d :
  weekday (get_week_start d) = 0
  /\ get_week_start d <= d <= get_week_start d + 6.
Proof.
  unfold get_week_start, weekday.
  pose proof (Z.mod_pos_bound (d + 6) 7 ltac:(lia)) as Hb.
  pose proof (Z.div_mod (d + 6) 7 ltac:(lia)) as Hd.
  split; [|lia].
  replace (d - (d + 6) mod 7 + 6) with (((d + 6) / 7) * 7) by lia.
  apply Z.mod_mul. lia.
Qed.

(** X1: [get_week_start d] is the Monday of the week of [d]: it is a
    Monday, at most six days before [d], it is the only such day, and
    taking the week start twice changes nothing. *)
Theorem get_week_start_is_the_monday (d : date) :
  weekday (get_week_start d) = 0
  /\ get_week_start d <= d <= get_week_start d + 6
  /\ get_week_start (get_week_start d) = get_week_start d
  /\ forall m, weekday m = 0 -> m <= d <= m + 6 -> m = get_week_start d.
Proof.
  destruct (get_week_start_bounds d) as [H0 Hb].
  split; [exact H0|]. split; [exact Hb|]. split.
  - unfold get_week_start at 1. rewrite H0. lia.
  - intros m Hm Hr. unfold get_week_start, weekday in *.
    pose proof (Z.div_mod (m + 6) 7 ltac:(lia)) as Hm'. rewrite Hm in Hm'.
    pose proof (Z.mod_pos_bound (d + 6) 7 ltac:(lia)) as Hb'.
    pose proof (Z.div_mod (d + 6) 7 ltac:(lia)) as Hd.
    assert ((d + 6) / 7 = (m + 6) / 7) by lia. lia.
Qed.

Lemma get_week_start_is_the_monday_witness :
  weekday monday = 0 /\ monday <= monday + 3 <= monday + 6
  /\ monday = get_week_start (monday + 3).
Proof.
  split; [reflexivity|]. split; [lia|].
  apply (proj2 (proj2 (proj2 (get_week_start_is_the_monday (monday + 3)))));
    [reflexivity|lia].
Defined.

(** ** rows with distinct keys *)

Lemma find_id_unique l i sh x :
  NoDup (map sh_id l) ->
  find (fun r => opt_Z_eqb (sh_id r) (Some i)) l = Some sh ->
  In x l -> sh_id x = Some i -> x = sh.
Proof.
  induction l as [|y l IH]; simpl; intros Hnd Hf Hin Hid; [easy|].
  inversion Hnd as [|? ? Hny Hnd']; subst.
  destruct (opt_Z_eqb (sh_id y) (Some i)) eqn:E.
  - apply opt_Z_eqb_eq in E. inversion Hf; subst y.
    destruct Hin as [->|Hin]; [reflexivity|].
    exfalso. apply Hny. rewrite E, <- Hid. apply in_map. exact Hin.
  - destruct Hin as [->|Hin].
    + rewrite Hid in E. simpl in E. rewrite Z.eqb_refl in E. discriminate.
    + apply IH; assumption.
Qed.

Lemma find_id_split l i sh :
  NoDup (map sh_id l) ->
  find (fun r => opt_Z_eqb (sh_id r) (Some i)) l = Some sh ->
  exists l1 l2,
    l = l1 ++ sh :: l2
    /\ (forall x, In x l1 -> opt_Z_eqb (sh_id x) (Some i) = false)
    /\ (forall x, In x l2 -> opt_Z_eqb (sh_id x) (Some i) = false).
Proof.
  induction l as [|y l IH]; simpl; intros Hnd Hf; [discriminate|].
  inversion Hnd as [|? ? Hny Hnd']; subst.
  destruct (opt_Z_eqb (sh_id y) (Some i)) eqn:E.
  - inversion Hf; subst y. exists [], l. split; [reflexivity|].
    split; [intros x []|]. intros x Hx.
    destruct (opt_Z_eqb (sh_id x) (Some i)) eqn:Ex; [|reflexivity].
    exfalso. apply Hny. apply opt_Z_eqb_eq in E, Ex. rewrite E, <- Ex.
    apply in_map. exact Hx.
  - destruct (IH Hnd' Hf) as [l1 [l2 [-> [H1 H2]]]].
    exists (y :: l1), l2. split; [reflexivity|]. split; [|exact H2].
    intros x [->|Hx]; [exact E|apply H1; exact Hx].
Qed.

Lemma map_replace_split (sh' : Shift) i l1 sh l2 :
  opt_Z_eqb (sh_id sh) (Some i) = true ->
  (forall x, In x l1 -> opt_Z_eqb (sh_id x) (Some i) = false) ->
  (forall x, In x l2 -> opt_Z_eqb (sh_id x) (Some i) = false) ->
  map (fun row => if opt_Z_eqb (sh_id row) (Some i) then sh' else row)
    (l1 ++ sh :: l2)
  = l1 ++ sh' :: l2.
Proof.
  intros Hs H1 H2. rewrite map_app. simpl. rewrite Hs. f_equal.
  - rewrite <- (map_id l1) at 2. apply map_ext_in. intros x Hx.
    rewrite (H1 x Hx). reflexivity.
  - f_equal. rewrite <- (map_id l2) at 2. apply map_ext_in. intros x Hx.
    rewrite (H2 x Hx). reflexivity.
Qed.

Lemma with_shifts_same db : with_shifts db (shifts db) = db.
Proof. destruct db; reflexivity. Qed.

Lemma ShiftStatus_eqb_eq a b : ShiftStatus_eqb a b = true <-> a = b.
Proof. destruct a, b; simpl; split; intro H; try reflexivity; discriminate. Qed.

Lemma EmployeeStatus_eqb_eq a b : EmployeeStatus_eqb a b = true <-> a = b.
Proof. destruct a, b; simpl; split; intro H; try reflexivity; discriminate. Qed.

(** ** X2 *)

(** X2: marking a scheduled shift as a call-out and then reverting the
    call-out gives the shifts table back as it was, when the shift carried
    no call-out data before and primary keys are distinct. *)
Theorem callout_then_revert_restores :
  forall db now shift_id reason db1 sh1 sh,
    unique_shift_ids db ->
    shift_by_id db shift_id = Some sh ->
    sh_employee_id sh <> 0 ->
    callout_reason sh = None -> callout_time sh = None ->
    original_employee_id sh = None -> covered_by_id sh = None ->
    mark_callout db now shift_id reason = Ok (db1, sh1) ->
    sh_status sh1 = CALLED_OUT
    /\ shift_by_id db1 shift_id = Some sh1
    /\ revert_callout db1 shift_id = Ok (db, sh).
Proof.
  intros db now i reason db1 sh1 sh Hu Hf He Hr Ht Ho Hc Hm.
  unfold mark_callout in Hm. rewrite Hf in Hm.
  destruct (ShiftStatus_eqb (sh_status sh) SCHEDULED) eqn:Hs;
    [|discriminate].
  apply ShiftStatus_eqb_eq in Hs. simpl in Hm. apply Ok_inj in Hm.
  inversion Hm; subst db1 sh1; clear Hm.
  pose proof (shift_by_id_sh_id _ _ _ Hf) as Hid.
  set (sh1 := set_callout sh CALLED_OUT reason (Some now)
                (Some (sh_employee_id sh)) (covered_by_id sh)).
  assert (Hf1 : shift_by_id (update_shift_row db i sh1) i = Some sh1).
  { eapply shift_by_id_update; [exact Hf|exact Hid]. }
  split; [reflexivity|]. split; [exact Hf1|].
  unfold revert_callout. rewrite Hf1.
  change (sh_status sh1) with CALLED_OUT. cbn [ShiftStatus_eqb negb].
  change (original_employee_id sh1) with (Some (sh_employee_id sh)).
  unfold truthy. apply Z.eqb_neq in He. rewrite He. cbn [negb].
  assert (Hback : set_callout (set_employee_id sh1 (sh_employee_id sh))
                    SCHEDULED None None None None = sh).
  { destruct sh; simpl in *; subst; reflexivity. }
  rewrite Hback. f_equal. f_equal.
  unfold update_shift_row. cbn [shifts with_shifts].
  rewrite map_map.
  assert (Hmap : map (fun x => if opt_Z_eqb
                                   (sh_id (if opt_Z_eqb (sh_id x) (Some i)
                                           then sh1 else x)) (Some i)
                               then sh else if opt_Z_eqb (sh_id x) (Some i)
                                            then sh1 else x) (shifts db)
                 = shifts db).
  { rewrite <- (map_id (shifts db)) at 2. apply map_ext_in. intros x Hx.
    destruct (opt_Z_eqb (sh_id x) (Some i)) eqn:E.
    - change (sh_id sh1) with (sh_id sh). rewrite Hid. simpl.
      rewrite Z.eqb_refl. symmetry. apply opt_Z_eqb_eq in E.
      eapply find_id_unique; eauto.
    - rewrite E. reflexivity. }
  rewrite Hmap. destruct db; reflexivity.
Qed.

Lemma callout_then_revert_restores_witness :
  exists db1 sh1,
    mark_callout db_scheduled 5 1 None = Ok (db1, sh1)
    /\ revert_callout db1 1 = Ok (db_scheduled, scheduled_shift).
Proof.
  eexists. eexists. split; [reflexivity|].
  refine (proj2 (proj2 (callout_then_revert_restores db_scheduled 5 1 None _ _
                          scheduled_shift _ _ _ _ _ _ _ eq_refl))).
  - unfold unique_shift_ids. simpl. repeat constructor. intros [].
  - reflexivity.
  - discriminate.
  - reflexivity.
  - reflexivity.
  - reflexivity.
  - reflexivity.
Defined.

(** ** X4 *)

Lemma excluded_is_absent shift :
  (if truthy (original_employee_id shift)
   then original_employee_id shift
   else Some (sh_employee_id shift))
  = Some (absent_employee shift).
Proof.
  unfold absent_employee. destruct (original_employee_id shift) as [o|];
    [|reflexivity].
  destruct (truthy (Some o)); reflexivity.
Qed.

Lemma find_replacements_shape db shift_id cands :
  find_replacements db shift_id = Ok cands ->
  exists shift schedule,
    shift_by_id db shift_id = Some shift
    /\ (sh_status shift = CALLED_OUT \/ sh_status shift = SCHEDULED)
    /\ schedule_by_id db (sh_schedule_id shift) = Some schedule
    /\ cands
       = sort_by candidate_leb
           (map (replacement_candidate db shift shift_id)
              (filter
                 (fun e => (emp_store_id e =? sc_store_id schedule)
                           && EmployeeStatus_eqb (emp_status e) ACTIVE
                           && negb (opt_Z_eqb (Some (emp_id e))
                                      (Some (absent_employee shift))))
                 (employees db))).
Proof.
  unfold find_replacements. intro H.
  destruct (shift_by_id db shift_id) as [shift|] eqn:Hf; [|discriminate].
  destruct (ShiftStatus_eqb (sh_status shift) CALLED_OUT
            || ShiftStatus_eqb (sh_status shift) SCHEDULED) eqn:Hs;
    [|discriminate].
  cbn [negb] in H.
  destruct (schedule_by_id db (sh_schedule_id shift)) as [schedule|] eqn:Hsc;
    [|discriminate].
  exists shift, schedule. split; [reflexivity|]. split.
  { apply orb_true_iff in Hs. destruct Hs as [Hs|Hs];
      apply ShiftStatus_eqb_eq in Hs; auto. }
  split; [exact Hsc|].
  apply Ok_inj in H. rewrite <- H. rewrite excluded_is_absent. reflexivity.
Qed.

Lemma filter_andb {A} (p q : A -> bool) l :
  filter (fun x => p x && q x) l = filter q (filter p l).
Proof.
  induction l as [|x l IH]; simpl; [reflexivity|].
  destruct (p x); simpl; [|exact IH].
  destruct (q x); rewrite IH; reflexivity.
Qed.

Lemma candidate_employee db shift i emp :
  rc_employee_id (replacement_candidate db shift i emp) = emp_id emp.
Proof. reflexivity. Qed.

(** X4: the candidates [find_replacements] returns are exactly the active
    employees of the shift's store other than the employee who called
    out. *)
Theorem replacements_are_the_other_active_employees :
  forall db shift_id cands,
    find_replacements db shift_id = Ok cands ->
    exists shift schedule,
      shift_by_id db shift_id = Some shift
      /\ schedule_by_id db (sh_schedule_id shift) = Some schedule
      /\ (forall c, In c cands ->
            rc_employee_id c <> absent_employee shift
            /\ exists e, In e (employees db)
                         /\ emp_id e = rc_employee_id c
                         /\ emp_store_id e = sc_store_id schedule
                         /\ emp_status e = ACTIVE)
      /\ (forall e, In e (employees db) ->
            emp_store_id e = sc_store_id schedule ->
            emp_status e = ACTIVE ->
            emp_id e <> absent_employee shift ->
            exists c, In c cands /\ rc_employee_id c = emp_id e)
      /\ length cands
         = length (filter (fun e => negb (emp_id e =? absent_employee shift))
                     (_get_employees db (sc_store_id schedule))).
Proof.
  intros db i cands H.
  destruct (find_replacements_shape _ _ _ H)
    as [shift [schedule [Hf [_ [Hsc Hc]]]]].
  exists shift, schedule. split; [exact Hf|]. split; [exact Hsc|].
  split; [|split].
  - intros c Hin. rewrite Hc in Hin. apply sort_by_In in Hin.
    apply in_map_iff in Hin. destruct Hin as [e [<- He]].
    apply filter_In in He. destruct He as [He Hp].
    apply andb_true_iff in Hp. destruct Hp as [Hp Hx].
    apply andb_true_iff in Hp. destruct Hp as [Hst Hact].
    rewrite candidate_employee. split.
    + intro E. rewrite E in Hx. simpl in Hx. rewrite Z.eqb_refl in Hx.
      discriminate.
    + exists e. split; [exact He|]. split; [reflexivity|].
      split; [apply Z.eqb_eq; exact Hst|].
      apply EmployeeStatus_eqb_eq. exact Hact.
  - intros e He Hst Hact Hne.
    exists (replacement_candidate db shift i e). split; [|reflexivity].
    rewrite Hc. apply sort_by_In. apply in_map. apply filter_In.
    split; [exact He|]. rewrite Hst, Z.eqb_refl, Hact. simpl.
    apply negb_true_iff. apply Z.eqb_neq. exact Hne.
  - rewrite Hc, sort_by_length, length_map. unfold _get_employees.
    f_equal.
    rewrite (filter_andb
               (fun e => (emp_store_id e =? sc_store_id schedule)
                         && EmployeeStatus_eqb (emp_status e) ACTIVE)
               (fun e => negb (opt_Z_eqb (Some (emp_id e))
                                 (Some (absent_employee shift))))).
    reflexivity.
Qed.

Lemma replacements_are_the_other_active_employees_witness :
  exists cands shift schedule,
    find_replacements db_called_out 1 = Ok cands
    /\ shift_by_id db_called_out 1 = Some shift
    /\ schedule_by_id db_called_out (sh_schedule_id shift) = Some schedule
    /\ forall c, In c cands -> rc_employee_id c <> absent_employee shift.
Proof.
  eexists.
  destruct (replacements_are_the_other_active_employees db_called_out 1 _
              eq_refl) as [shift [schedule [H1 [H2 [H3 _]]]]].
  exists shift, schedule. split; [reflexivity|]. split; [exact H1|].
  split; [exact H2|]. intros c Hc. apply (proj1 (H3 c Hc)).
Defined.

(** ** X5 *)

Lemma insert_sorted_sorted {A} (leb : A -> A -> bool) x l :
  (forall a b, leb a b = false -> leb b a = true) ->
  (forall a b c, leb a b = true -> leb b c = true -> leb a c = true) ->
  sorted_by leb l -> sorted_by leb (insert_sorted leb x l).
Proof.
  intros Htot Htr. induction l as [|y l IH]; simpl.
  - intros _. split; [intros ? []|exact I].
  - intros [Hy Hs]. destruct (leb y x) eqn:E; simpl.
    + split; [|apply IH; exact Hs].
      intros z Hz. apply insert_sorted_In in Hz. destruct Hz as [->|Hz];
        [exact E|apply Hy; exact Hz].
    + split; [|split; assumption].
      intros z [<-|Hz]; [apply Htot; exact E|].
      eapply Htr; [apply Htot; exact E|apply Hy; exact Hz].
Qed.

Lemma sort_by_sorted {A} (leb : A -> A -> bool) l :
  (forall a b, leb a b = false -> leb b a = true) ->
  (forall a b c, leb a b = true -> leb b c = true -> leb a c = true) ->
  sorted_by leb (sort_by leb l).
Proof.
  intros Htot Htr. unfold sort_by.
  assert (H : forall acc, sorted_by leb acc ->
                sorted_by leb
                  (fold_left (fun acc x => insert_sorted leb x acc) l acc)).
  { induction l as [|x l IH]; simpl; intros acc Hacc; [exact Hacc|].
    apply IH. apply insert_sorted_sorted; assumption. }
  apply H. exact I.
Qed.

Lemma sorted_by_app {A} (leb : A -> A -> bool) l1 a l2 b l3 :
  sorted_by leb (l1 ++ a :: l2 ++ b :: l3) -> leb a b = true.
Proof.
  induction l1 as [|x l1 IH]; simpl.
  - intros [H _]. apply H. apply in_or_app. right. now left.
  - intros [_ H]. apply IH. exact H.
Qed.

Lemma Qleb_total a b : Qleb a b = false -> Qleb b a = true.
Proof.
  unfold Qleb. intro H. apply Qle_bool_iff.
  destruct (Qlt_le_dec b a) as [Hlt|Hle].
  - apply Qlt_le_weak. exact Hlt.
  - apply Qle_bool_iff in Hle. congruence.
Qed.

Lemma Qleb_trans a b c : Qleb a b = true -> Qleb b c = true -> Qleb a c = true.
Proof.
  unfold Qleb. rewrite !Qle_bool_iff. apply Qle_trans.
Qed.

Lemma candidate_leb_total a b :
  candidate_leb a b = false -> candidate_leb b a = true.
Proof.
  unfold candidate_leb.
  destruct (rc_is_available a), (rc_is_available b); simpl;
    try discriminate; try reflexivity; apply Qleb_total.
Qed.

Lemma candidate_leb_trans a b c :
  candidate_leb a b = true -> candidate_leb b c = true ->
  candidate_leb a c = true.
Proof.
  unfold candidate_leb.
  destruct (rc_is_available a), (rc_is_available b), (rc_is_available c);
    simpl; try discriminate; try reflexivity; apply Qleb_trans.
Qed.

(** X5: in the list [find_replacements] returns, no unavailable candidate
    comes before an available one, and among candidates of the same
    availability the remaining hours never increase down the list. *)
Theorem replacements_listed_best_first :
  forall db shift_id cands l1 a l2 b l3,
    find_replacements db shift_id = Ok cands ->
    cands = l1 ++ a :: l2 ++ b :: l3 ->
    (rc_is_available b = true -> rc_is_available a = true)
    /\ (rc_is_available a = rc_is_available b ->
        (remaining_hours b <= remaining_hours a)%Q).
Proof.
  intros db i cands l1 a l2 b l3 H Hsplit.
  destruct (find_replacements_shape _ _ _ H) as [shift [schedule [_ [_ [_ Hc]]]]].
  assert (Hleb : candidate_leb a b = true).
  { apply (sorted_by_app candidate_leb l1 a l2 b l3). rewrite <- Hsplit, Hc.
    apply sort_by_sorted; [apply candidate_leb_total|apply candidate_leb_trans]. }
  unfold candidate_leb in Hleb. split.
  - intro Hb. rewrite Hb in Hleb.
    destruct (rc_is_available a); [reflexivity|discriminate].
  - intro Hab. rewrite Hab in Hleb.
    assert (Hq : Qleb (- remaining_hours a) (- remaining_hours b) = true).
    { destruct (rc_is_available b); exact Hleb. }
    unfold Qleb in Hq. apply Qle_bool_iff in Hq.
    apply Qopp_le_compat in Hq. rewrite !Qopp_involutive in Hq. exact Hq.
Qed.

Lemma replacements_listed_best_first_witness :
  exists a b,
    find_replacements db_two_candidates 1 = Ok [a; b]
    /\ rc_employee_id a = 3 /\ rc_employee_id b = 2
    /\ (rc_is_available b = true -> rc_is_available a = true).
Proof.
  eexists. eexists. split; [vm_compute; reflexivity|].
  split; [reflexivity|]. split; [reflexivity|].
  refine (proj1 (replacements_listed_best_first db_two_candidates 1 _ [] _ []
                   _ [] _ eq_refl)).
  vm_compute. reflexivity.
Defined.

(** ** X6 *)

Lemma employee_by_id_unique db e :
  unique_employee_ids db -> In e (employees db) ->
  employee_by_id db (emp_id e) = Some e.
Proof.
  unfold unique_employee_ids, employee_by_id, first.
  induction (employees db) as [|x l IH]; simpl; intros Hnd Hin; [easy|].
  inversion Hnd as [|? ? Hnx Hnd']; subst.
  destruct Hin as [->|Hin].
  - rewrite Z.eqb_refl. reflexivity.
  - destruct (emp_id x =? emp_id e) eqn:E.
    + apply Z.eqb_eq in E. exfalso. apply Hnx. rewrite E. apply in_map.
      exact Hin.
    + apply IH; assumption.
Qed.

Lemma available_candidate_fits db shift i emp :
  rc_is_available (replacement_candidate db shift i emp) = true ->
  Qltb (inject_Z MAX_WEEKLY_HOURS)
    (get_employee_week_hours db (emp_id emp) (get_week_start (sh_date shift))
     + duration_hours shift) = false
  /\ approved_time_off_on db (emp_id emp) (sh_date shift) = None.
Proof.
  unfold replacement_candidate. cbn [rc_is_available].
  destruct (Qltb (inject_Z MAX_WEEKLY_HOURS) _) eqn:Hlim;
    [cbn [fst]; discriminate|].
  intro H. split; [reflexivity|].
  destruct (approved_time_off_on db (emp_id emp) (sh_date shift)) eqn:Ht;
    [|reflexivity].
  exfalso. revert H.
  destruct (availability_for db (emp_id emp) (weekday (sh_date shift)))
    as [avail|].
  - destruct (negb (is_available avail)); [cbn [fst]; discriminate|].
    destruct (preferred_start avail), (preferred_end avail);
      try (cbn [fst snd]; discriminate).
    destruct (_ || _); cbn [fst snd]; discriminate.
  - cbn [fst snd]. discriminate.
Qed.

(** X6: a candidate that [find_replacements] marks available for a
    called-out shift can be assigned without [force]:
    [assign_replacement] accepts it, and the candidate has no approved
    time off on the day of the shift. *)
Theorem available_candidate_can_be_assigned :
  forall db shift_id shift cands c,
    unique_employee_ids db ->
    shift_by_id db shift_id = Some shift ->
    sh_status shift = CALLED_OUT ->
    find_replacements db shift_id = Ok cands ->
    In c cands ->
    rc_is_available c = true ->
    approved_time_off_on db (rc_employee_id c) (sh_date shift) = None
    /\ exists db' r,
         assign_replacement db shift_id (rc_employee_id c) false
         = Ok (db', r)
         /\ ar_new_employee_id r = rc_employee_id c
         /\ ar_status r = COVERED.
Proof.
  intros db i shift cands c Hu Hf Hs H Hin Hav.
  destruct (find_replacements_shape _ _ _ H)
    as [shift' [schedule [Hf' [_ [Hsc Hc]]]]].
  rewrite Hf in Hf'. inversion Hf'; subst shift'; clear Hf'.
  rewrite Hc in Hin. apply sort_by_In in Hin. apply in_map_iff in Hin.
  destruct Hin as [e [<- He]]. apply filter_In in He. destruct He as [He Hp].
  apply andb_true_iff in Hp. destruct Hp as [Hp _].
  apply andb_true_iff in Hp. destruct Hp as [Hst Hact].
  destruct (available_candidate_fits _ _ _ _ Hav) as [Hlim Hoff].
  rewrite candidate_employee. split; [exact Hoff|].
  unfold assign_replacement. rewrite Hf, Hs. cbn [ShiftStatus_eqb negb].
  rewrite (employee_by_id_unique db e Hu He), Hsc, Hst, Hact. cbn [negb].
  rewrite Hlim. cbn [andb].
  eexists. eexists. split; [reflexivity|]. split; reflexivity.
Qed.

Lemma available_candidate_can_be_assigned_witness :
  exists c db' r,
    find_replacements db_called_out 1 = Ok [c]
    /\ assign_replacement db_called_out 1 (rc_employee_id c) false
       = Ok (db', r).
Proof.
  eexists.
  assert (Hu : unique_employee_ids db_called_out).
  { unfold unique_employee_ids. simpl. repeat constructor; simpl;
      intuition discriminate. }
  destruct (available_candidate_can_be_assigned db_called_out 1 callout_shift
              _ _ Hu eq_refl eq_refl eq_refl (or_introl eq_refl) eq_refl)
    as [_ [db' [r [H _]]]].
  exists db', r. split; [vm_compute; reflexivity|exact H].
Defined.

(** ** X7 *)

Lemma with_severity_app s l1 l2 :
  with_severity s (l1 ++ l2) = with_severity s l1 ++ with_severity s l2.
Proof. unfold with_severity. apply filter_app. Qed.

Lemma availability_only_warns db e d s t :
  with_severity ERROR (validate_availability db e d s t) = [].
Proof.
  unfold validate_availability.
  destruct (availability_for db e (weekday d)) as [a|]; [|reflexivity].
  destruct (negb (is_available a)); reflexivity.
Qed.

Lemma violations_ignore_availability db avs sh w :
  violations (validate_shift (with_availabilities db avs) sh w)
  = violations (validate_shift db sh w).
Proof.
  unfold validate_shift, categorize, shift_findings. cbn [violations].
  rewrite !with_severity_app, !availability_only_warns. reflexivity.
Qed.

Lemma is_compliant_violations r_findings :
  is_compliant (categorize r_findings)
  = Nat.eqb (length (violations (categorize r_findings))) 0.
Proof. reflexivity. Qed.

Lemma compliant_ignore_availability db avs sh w :
  is_compliant (validate_shift (with_availabilities db avs) sh w)
  = is_compliant (validate_shift db sh w).
Proof.
  unfold validate_shift. rewrite !is_compliant_violations.
  pose proof (violations_ignore_availability db avs sh w) as H.
  unfold validate_shift in H. rewrite H. reflexivity.
Qed.

(** X7: availability preferences never block a shift.  The errors
    [validate_shift] reports, and so its verdict, do not depend on the
    availability table, and with [force] the route [create_shift] accepts
    a shift under one availability table exactly when it accepts it under
    any other. *)
Theorem availability_never_blocks :
  forall db avs,
    (forall sh w,
        violations (validate_shift (with_availabilities db avs) sh w)
        = violations (validate_shift db sh w)
        /\ is_compliant (validate_shift (with_availabilities db avs) sh w)
           = is_compliant (validate_shift db sh w))
    /\ (forall shift_data validate,
           (exists r, create_shift (with_availabilities db avs) shift_data
                        validate true = Ok r)
           <-> (exists r, create_shift db shift_data validate true = Ok r)).
Proof.
  intros db avs. split.
  - intros sh w. split;
      [apply violations_ignore_availability
      |apply compliant_ignore_availability].
  - intros data validate. unfold create_shift.
    change (schedule_by_id (with_availabilities db avs)
              (c_schedule_id data))
      with (schedule_by_id db (c_schedule_id data)).
    destruct (schedule_by_id db (c_schedule_id data)) as [sc|];
      [|split; intros [r H]; discriminate].
    destruct validate; [|split; intros _; eexists; reflexivity].
    unfold compliance_gate. rewrite compliant_ignore_availability.
    destruct (negb (is_compliant _));
      [split; intros [r H]; discriminate|].
    rewrite !andb_false_r.
    split; intros _; eexists; reflexivity.
Qed.

Lemma availability_never_blocks_witness :
  exists r,
    create_shift
      (with_availabilities db_five_hours [mkAvailability 1 1 false None None])
      (mkShiftCreate 1 (monday + 1) (time_of_hour 8) (time_of_hour 12) 0 1)
      true true = Ok r.
Proof.
  apply (proj2 (proj2 (availability_never_blocks db_five_hours
                         [mkAvailability 1 1 false None None])
                  (mkShiftCreate 1 (monday + 1) (time_of_hour 8)
                     (time_of_hour 12) 0 1) true)).
  eexists. vm_compute. reflexivity.
Defined.

(** ** X8 *)

Lemma has_type_app t l1 l2 :
  has_type t (l1 ++ l2) = has_type t l1 || has_type t l2.
Proof. unfold has_type. apply existsb_app. Qed.

Lemma has_type_with_severity_false t s l :
  has_type t l = false -> has_type t (with_severity s l) = false.
Proof.
  rewrite !has_type_false. intros H v Hv. apply H.
  eapply with_severity_In. exact Hv.
Qed.

Lemma other_checks_not_daily db sh w :
  has_type DAILY_HOURS_EXCEEDED
    (validate_weekly_hours db (sh_employee_id sh) w [sh]
     ++ validate_consecutive_days db (sh_employee_id sh) w [sh]
     ++ validate_break_requirements sh
     ++ validate_time_off_conflicts db (sh_employee_id sh) (sh_date sh)
     ++ validate_availability db (sh_employee_id sh) (sh_date sh)
          (start_time sh) (end_time sh)
     ++ validate_shift_overlap db (sh_employee_id sh) (sh_date sh)
          (start_time sh) (end_time sh)
          (if truthy (sh_id sh) then sh_id sh else None)) = false.
Proof.
  apply has_type_false. intros v H.
  unfold validate_weekly_hours, validate_consecutive_days,
    validate_break_requirements, validate_time_off_conflicts,
    validate_availability, validate_shift_overlap in H.
  repeat (apply in_app_or in H; destruct H as [H|H]);
    try (findings_types; discriminate).
  apply in_flat_map in H. destruct H as [x [_ H]].
  findings_types; discriminate.
Qed.

(** X8: the per-shift check counts a stored shift twice in the daily
    total: once as a row of the table and once as the shift under
    validation.  For a stored shift that is its employee's only shift of
    the day, [check_shift_compliance] reports [DAILY_HOURS_EXCEEDED]
    exactly when the shift has more than four working hours, and then
    answers not compliant. *)
Theorem stored_shift_counted_twice_in_daily_hours :
  forall db shift_id sh,
    shift_by_id db shift_id = Some sh ->
    employee_day_shifts db (sh_employee_id sh) (sh_date sh) = [sh] ->
    exists r,
      check_shift_compliance db shift_id
      = Ok (sh_employee_id sh, sh_date sh, r)
      /\ (has_type DAILY_HOURS_EXCEEDED (violations r) = true
          <-> (4 < _get_shift_duration_hours sh)%Q)
      /\ ((4 < _get_shift_duration_hours sh)%Q -> is_compliant r = false).
Proof.
  intros db i sh Hf Hday. unfold check_shift_compliance. rewrite Hf.
  eexists. split; [reflexivity|].
  unfold validate_shift. unfold shift_findings.
  set (rest := validate_weekly_hours _ _ _ _ ++ _).
  assert (Hrest : has_type DAILY_HOURS_EXCEEDED rest = false)
    by apply other_checks_not_daily.
  assert (Hd : validate_daily_hours db (sh_employee_id sh) (sh_date sh)
                 (Some sh)
               = if Qltb (inject_Z max_hours_per_day)
                      (Qsum [_get_shift_duration_hours sh]
                       + _get_shift_duration_hours sh)
                 then [mkViolation DAILY_HOURS_EXCEEDED ERROR
                         (sh_employee_id sh) (Some (sh_date sh))]
                 else []).
  { unfold validate_daily_hours. rewrite Hday. rewrite Z.eqb_refl.
    reflexivity. }
  rewrite Hd. clear Hd.
  assert (Hiff : Qltb (inject_Z max_hours_per_day)
                   (Qsum [_get_shift_duration_hours sh]
                    + _get_shift_duration_hours sh) = true
                 <-> (4 < _get_shift_duration_hours sh)%Q).
  { unfold Qltb, Qsum. cbn [fold_left map].
    set (h := _get_shift_duration_hours sh).
    rewrite negb_true_iff. split.
    - intro H. apply Qnot_le_lt. intro Hle.
      assert (Hb : Qle_bool (0 + h + h) (inject_Z max_hours_per_day) = true).
      { apply Qle_bool_iff. change (inject_Z max_hours_per_day) with (8 # 1)%Q.
        setoid_replace (8 # 1)%Q with (4 + 4)%Q by reflexivity.
        rewrite Qplus_0_l. apply Qplus_le_compat; exact Hle. }
      congruence.
    - intro H. destruct (Qle_bool (0 + h + h) (inject_Z max_hours_per_day))
        eqn:E; [|reflexivity].
      exfalso. apply Qle_bool_iff in E.
      change (inject_Z max_hours_per_day) with (8 # 1)%Q in E.
      rewrite Qplus_0_l in E.
      assert (Hlt : (4 + 4 < h + h)%Q) by (apply Qplus_lt_le_compat;
        [exact H|apply Qlt_le_weak; exact H]).
      apply (Qlt_irrefl (h + h)). eapply Qle_lt_trans; [exact E|].
      exact Hlt. }
  unfold categorize. cbn [violations is_compliant].
  rewrite with_severity_app.
  destruct (Qltb (inject_Z max_hours_per_day) _) eqn:E.
  - split.
    + split; [intros _; apply Hiff; reflexivity|intros _; reflexivity].
    + intros _. reflexivity.
  - split.
    + split.
      * intro H. cbn [with_severity filter app] in H.
        rewrite (has_type_with_severity_false _ _ _ Hrest) in H.
        discriminate.
      * intro H. apply Hiff in H. discriminate.
    + intro H. apply Hiff in H. discriminate.
Qed.

Lemma stored_shift_counted_twice_in_daily_hours_witness :
  exists r,
    check_shift_compliance db_five_hours 1 = Ok (1, monday, r)
    /\ is_compliant r = false.
Proof.
  destruct (stored_shift_counted_twice_in_daily_hours db_five_hours 1
              five_hour_shift eq_refl eq_refl) as [r [H1 [_ H3]]].
  exists r. split; [exact H1|]. apply H3. reflexivity.
Defined.

(** ** X9 *)

Lemma SeverityLevel_eqb_eq a b : SeverityLevel_eqb a b = true <-> a = b.
Proof. destruct a, b; simpl; split; intro H; try reflexivity; discriminate. Qed.

Lemma with_severity_iff s l v :
  In v (with_severity s l) <-> In v l /\ severity v = s.
Proof.
  unfold with_severity. rewrite filter_In, SeverityLevel_eqb_eq. tauto.
Qed.

Lemma categorize_NoDup l :
  NoDup (map violation_key l) ->
  NoDup (map violation_key (all_findings (categorize l))).
Proof.
  intro H. unfold all_findings, categorize. cbn [violations warnings info].
  rewrite !map_app.
  assert (Hdis : forall s1 s2 k, s1 <> s2 ->
            In k (map violation_key (with_severity s1 l)) ->
            ~ In k (map violation_key (with_severity s2 l))).
  { intros s1 s2 k Hne H1 H2. apply in_map_iff in H1, H2.
    destruct H1 as [a [Ha1 Ha2]], H2 as [b [Hb1 Hb2]].
    apply with_severity_iff in Ha2, Hb2.
    destruct Ha2 as [Ha2 Ha3], Hb2 as [Hb2 Hb3].
    assert (a = b).
    { eapply NoDup_map_inj_in; eauto. congruence. }
    subst b. congruence. }
  apply NoDup_app.
  - apply NoDup_map_filter. exact H.
  - apply NoDup_app.
    + apply NoDup_map_filter. exact H.
    + apply NoDup_map_filter. exact H.
    + intros k. apply Hdis. discriminate.
  - intros k H1 H2. apply in_app_or in H2. destruct H2 as [H2|H2].
    + exact (Hdis ERROR WARNING k ltac:(discriminate) H1 H2).
    + exact (Hdis ERROR INFO k ltac:(discriminate) H1 H2).
Qed.

Lemma categorize_complete l v :
  In v l -> In v (all_findings (categorize l)).
Proof.
  intro H. unfold all_findings, categorize. cbn [violations warnings info].
  rewrite !in_app_iff, !with_severity_iff.
  destruct (severity v); tauto.
Qed.

(** X9: [validate_schedule] reports each (type, employee, date) at most
    once over its three result lists, and drops no key: every finding of
    the checks it runs is represented by a reported finding with the same
    key. *)
Theorem schedule_findings_reported_once :
  forall db schedule_id,
    NoDup (map violation_key
             (all_findings (validate_schedule db schedule_id)))
    /\ forall sc v,
         schedule_by_id db schedule_id = Some sc ->
         In v (schedule_findings db sc) ->
         exists v',
           In v' (all_findings (validate_schedule db schedule_id))
           /\ violation_key v' = violation_key v.
Proof.
  intros db sid. unfold validate_schedule.
  destruct (schedule_by_id db sid) as [sc|]; split.
  - apply categorize_NoDup, deduplicate_NoDup.
  - intros sc' v Hsc Hv. inversion Hsc; subst sc'.
    destruct (deduplicate_complete [] _ v Hv) as [v' [H1 H2]]; [intros []|].
    exists v'. split; [apply categorize_complete; exact H1|exact H2].
  - unfold all_findings. simpl. repeat constructor. intros [].
  - intros sc v Hsc. discriminate.
Qed.

Lemma schedule_findings_reported_once_witness :
  exists v',
    In v' (all_findings (validate_schedule db_short_break 1))
    /\ violation_key v' = (INSUFFICIENT_BREAK, 1, Some monday).
Proof.
  refine (proj2 (schedule_findings_reported_once db_short_break 1)
            (mkSchedule 1 1 monday DRAFT 1 None)
            (mkViolation INSUFFICIENT_BREAK ERROR 1 (Some monday)) eq_refl _).
  vm_compute. right. left. reflexivity.
Defined.

(** ** X10 *)

Lemma round_half_even_nonneg q : (0 <= q)%Q -> 0 <= round_half_even q.
Proof.
  intro H. unfold round_half_even.
  assert (Hf : 0 <= Qfloor q).
  { change 0 with (Qfloor 0). apply Qfloor_resp_le. exact H. }
  destruct (Qcompare _ _); [destruct (Z.even _)| |]; lia.
Qed.

Lemma py_round_nonneg q n : (0 <= q)%Q -> (0 <= py_round q n)%Q.
Proof.
  intro H. unfold py_round.
  assert (Hs : 0 < 10 ^ Z.of_nat n) by (apply Z.pow_pos_nonneg; lia).
  assert (Hq : (0 < inject_Z (10 ^ Z.of_nat n))%Q).
  { change 0%Q with (inject_Z 0). rewrite <- Zlt_Qlt. exact Hs. }
  apply Qle_shift_div_l; [exact Hq|]. rewrite Qmult_0_l.
  change 0%Q with (inject_Z 0). rewrite <- Zle_Qle.
  apply round_half_even_nonneg. apply Qmult_le_0_compat; [exact H|].
  apply Qlt_le_weak. exact Hq.
Qed.

Lemma Qmaxq_nonneg q : (0 <= Qmaxq 0 q)%Q.
Proof.
  unfold Qmaxq, Qltb. destruct (Qle_bool q 0) eqn:E; simpl.
  - apply Qle_refl.
  - apply Qlt_le_weak. apply Qnot_le_lt. intro H.
    apply Qle_bool_iff in H. congruence.
Qed.

Lemma week_days_at_most_seven (ws : date) (l : list date) :
  (forall d, In d l -> ws <= d <= ws + 6) ->
  (length (nodup Z.eq_dec l) <= 7)%nat.
Proof.
  intro H.
  change 7%nat
    with (length [ws; ws + 1; ws + 2; ws + 3; ws + 4; ws + 5; ws + 6]).
  apply NoDup_incl_length; [apply NoDup_nodup|].
  intros d Hd. apply nodup_In in Hd. apply H in Hd. simpl.
  assert (d = ws \/ d = ws + 1 \/ d = ws + 2 \/ d = ws + 3 \/ d = ws + 4
          \/ d = ws + 5 \/ d = ws + 6) by lia.
  intuition.
Qed.

Lemma employee_week_shifts_dates db e ws d :
  In d (map sh_date (employee_week_shifts db e ws)) -> ws <= d <= ws + 6.
Proof.
  intro H. apply in_map_iff in H. destruct H as [sh [<- Hsh]].
  unfold employee_week_shifts in Hsh. apply filter_In in Hsh.
  destruct Hsh as [_ Hp]. apply andb_true_iff in Hp. destruct Hp as [_ Hp].
  unfold in_week in Hp. apply andb_true_iff in Hp. destruct Hp as [H1 H2].
  apply Z.leb_le in H1, H2. lia.
Qed.

(** X10: the weekly status summary of an employee is consistent with the
    weekly checks.  Remaining hours and days are never negative, at most
    seven days are counted as worked, and whenever [validate_weekly_hours]
    or [validate_consecutive_days] reports an error on the stored shifts
    the summary says the employee is at the limit, with nothing
    remaining. *)
Theorem compliance_status_agrees_with_checks :
  forall db employee_id week_start,
    (0 <= hours_remaining
            (get_employee_compliance_status db employee_id week_start))%Q
    /\ 0 <= days_worked
              (get_employee_compliance_status db employee_id week_start) <= 7
    /\ 0 <= days_remaining
              (get_employee_compliance_status db employee_id week_start) <= 6
    /\ (In (mkViolation WEEKLY_HOURS_EXCEEDED ERROR employee_id None)
          (validate_weekly_hours db employee_id week_start []) ->
        is_at_limit
          (get_employee_compliance_status db employee_id week_start) = true
        /\ (hours_remaining
              (get_employee_compliance_status db employee_id week_start)
            == 0)%Q)
    /\ (validate_consecutive_days db employee_id week_start [] <> [] ->
        is_at_limit
          (get_employee_compliance_status db employee_id week_start) = true
        /\ days_remaining
             (get_employee_compliance_status db employee_id week_start) = 0).
Proof.
  intros db e ws. unfold get_employee_compliance_status.
  cbn [hours_remaining days_worked days_remaining is_at_limit].
  set (shifts_ := employee_week_shifts db e ws).
  set (total := Qsum (map _get_shift_duration_hours shifts_)).
  set (days := Z.of_nat (length (nodup Z.eq_dec (map sh_date shifts_)))).
  assert (Hdays : 0 <= days <= 7).
  { unfold days.
    pose proof (week_days_at_most_seven ws (map sh_date shifts_)
                  (employee_week_shifts_dates db e ws)) as H.
    fold shifts_ in H. lia. }
  split; [apply py_round_nonneg, Qmaxq_nonneg|].
  split; [exact Hdays|].
  split; [unfold days_on_per_week; lia|].
  split.
  - unfold validate_weekly_hours. fold shifts_. cbn [filter map fold_left].
    fold total.
    destruct (Qltb (inject_Z max_hours_per_week) total) eqn:E.
    + intros _. unfold Qltb in E. apply negb_true_iff in E.
      assert (Hlt : (inject_Z max_hours_per_week < total)%Q).
      { apply Qnot_le_lt. intro H. apply Qle_bool_iff in H. congruence. }
      split.
      * apply orb_true_iff. left. unfold Qleb. apply Qle_bool_iff.
        apply Qlt_le_weak. exact Hlt.
      * assert (Hm : Qmaxq 0 (inject_Z max_hours_per_week - total) = 0%Q).
        { unfold Qmaxq, Qltb.
          assert (Hle : Qle_bool (inject_Z max_hours_per_week - total) 0
                        = true).
          { apply Qle_bool_iff.
            apply (Qplus_le_r _ _ total). ring_simplify.
            apply Qlt_le_weak. exact Hlt. }
          rewrite Hle. reflexivity. }
        rewrite Hm. reflexivity.
    + destruct (Qltb (inject_Z (max_hours_per_week - 4)) total);
        intro H.
      * destruct H as [H|H]; [discriminate|destruct H].
      * destruct H.
  - unfold validate_consecutive_days. fold shifts_.
    cbn [filter map]. rewrite app_nil_r. fold days.
    destruct (days_on_per_week <? days) eqn:E; [|intro H; contradiction].
    intros _. apply Z.ltb_lt in E. unfold days_on_per_week in *. split.
    + apply orb_true_iff. right. apply Z.leb_le. lia.
    + lia.
Qed.

Lemma compliance_status_agrees_with_checks_witness :
  is_at_limit (get_employee_compliance_status db_six_long_days 1 monday) = true
  /\ (hours_remaining (get_employee_compliance_status db_six_long_days 1 monday)
      == 0)%Q.
Proof.
  refine (proj1 (proj2 (proj2 (proj2
            (compliance_status_agrees_with_checks db_six_long_days 1 monday))))
            _).
  vm_compute. left. reflexivity.
Defined.

(** ** X11 *)

Lemma existsb_eqb_In (x : Z) l : existsb (Z.eqb x) l = true <-> In x l.
Proof.
  rewrite existsb_exists. split.
  - intros [y [Hy E]]. apply Z.eqb_eq in E. subst. exact Hy.
  - intro H. exists x. split; [exact H|apply Z.eqb_refl].
Qed.

Lemma first_occurrences_In l : forall seen i,
  In i (first_occurrences seen l) <-> In i l /\ ~ In i seen.
Proof.
  induction l as [|x l IH]; intros seen i; simpl; [tauto|].
  destruct (existsb (Z.eqb x) seen) eqn:E.
  - apply existsb_eqb_In in E. rewrite IH. split.
    + intros [H1 H2]. tauto.
    + intros [[->|H1] H2]; [contradiction|tauto].
  - assert (Hx : ~ In x seen).
    { intro H. apply existsb_eqb_In in H. congruence. }
    simpl. rewrite IH. simpl. split.
    + intros [<-|[H1 H2]]; [tauto|]. split; [tauto|]. intro H. apply H2.
      now right.
    + intros [[->|H1] H2]; [now left|].
      destruct (Z.eq_dec x i) as [->|Hne]; [now left|right].
      split; [exact H1|]. intros [H|H]; [congruence|contradiction].
Qed.

Lemma first_occurrences_NoDup l : forall seen,
  NoDup (first_occurrences seen l).
Proof.
  induction l as [|x l IH]; intro seen; simpl; [constructor|].
  destruct (existsb (Z.eqb x) seen); [apply IH|].
  constructor; [|apply IH].
  intro H. apply first_occurrences_In in H. destruct H as [_ H].
  apply H. now left.
Qed.

Lemma employee_by_id_add_notification db n i :
  employee_by_id (add_notification db n) i = employee_by_id db i.
Proof. reflexivity. Qed.

(** The loop adds, for each employee id in the order of its first shift,
    the notification of that employee's row. *)
Lemma publish_notifications_exact l : forall db seen db',
  publish_notifications db l seen = Ok db' ->
  exists es,
    map (employee_by_id db) (first_occurrences seen (map sh_employee_id l))
    = map Some es
    /\ notifications db'
       = notifications db ++ map published_notification es
    /\ shifts db' = shifts db.
Proof.
  induction l as [|x l IH]; intros db seen db' H.
  - simpl in H. apply Ok_inj in H. subst db'. exists [].
    rewrite app_nil_r. repeat split.
  - cbn [publish_notifications] in H. cbn [map first_occurrences].
    destruct (existsb (Z.eqb (sh_employee_id x)) seen) eqn:Hseen.
    + apply IH. exact H.
    + destruct (employee_by_id db (sh_employee_id x)) as [emp|] eqn:Hemp;
        [|discriminate].
      destruct (IH _ _ _ H) as [es [H1 [H2 H3]]].
      exists (emp :: es). cbn [map]. rewrite Hemp. split; [|split].
      * f_equal. rewrite <- H1. apply map_ext. intro i.
        symmetry. apply employee_by_id_add_notification.
      * rewrite H2. cbn [notifications add_notification].
        rewrite <- app_assoc. reflexivity.
      * rewrite H3. reflexivity.
Qed.

(** X11: publishing a schedule notifies each employee who has a shift in
    it exactly once.  The employee ids of the schedule's shifts, taken
    once each in the order of their first shift, all have an employee
    row, and the notifications added, after those that were there, are
    the [SCHEDULE_PUBLISHED] notifications of these rows, one per id and
    in that order, each addressed to the user of its employee; the
    shifts are left as they were. *)
Theorem publish_notifies_each_employee_once :
  forall db now schedule_id validate force db' sc',
    publish_schedule db now schedule_id validate force = Ok (db', sc') ->
    let ids :=
      first_occurrences []
        (map sh_employee_id (schedule_shifts db schedule_id)) in
    NoDup ids
    /\ (forall i,
           In i ids
           <-> exists sh, In sh (schedule_shifts db schedule_id)
                          /\ sh_employee_id sh = i)
    /\ (exists es,
           map (employee_by_id db) ids = map Some es
           /\ Forall2 (fun i e => emp_id e = i) ids es
           /\ notifications db'
              = notifications db ++ map published_notification es)
    /\ shifts db' = shifts db
    /\ sc_status sc' = PUBLISHED.
Proof.
  intros db now sid validate force db' sc' H. unfold publish_schedule in H.
  destruct (schedule_by_id db sid) as [sc|]; [|discriminate].
  destruct (ScheduleStatus_eqb (sc_status sc) PUBLISHED); [discriminate|].
  destruct (Nat.eqb _ 0); [discriminate|].
  destruct (if validate then _ else _) as [[]|]; [|discriminate].
  cbn [bind] in H.
  destruct (publish_notifications _ _ _) as [db2|] eqn:Hn; [|discriminate].
  cbn [bind] in H. apply Ok_inj in H. inversion H; subst db' sc'; clear H.
  apply publish_notifications_exact in Hn.
  destruct Hn as [es [H1 [H2 H3]]].
  cbv zeta. split; [apply first_occurrences_NoDup|]. split.
  { intro i. rewrite first_occurrences_In, in_map_iff. split.
    - intros [[sh [E Hs]] _]. exists sh. tauto.
    - intros [sh [Hs E]]. split; [exists sh; tauto|intros []]. }
  split; [|split; [exact H3|reflexivity]].
  exists es. split; [exact H1|]. split; [|exact H2].
  clear H2 H3.
  change (schedule_shifts
            (update_schedule_row db
               (set_schedule_status sc PUBLISHED (Some now))) sid)
    with (schedule_shifts db sid) in H1.
  change (employee_by_id
            (update_schedule_row db
               (set_schedule_status sc PUBLISHED (Some now))))
    with (employee_by_id db) in H1.
  revert es H1.
  induction (first_occurrences []
               (map sh_employee_id (schedule_shifts db sid)))
    as [|i ids IH]; intros es H1; destruct es as [|e es];
    try discriminate; [constructor|].
  cbn [map] in H1. injection H1 as He Hrest.
  constructor; [|apply IH; exact Hrest].
  unfold employee_by_id, first in He. apply find_some in He.
  destruct He as [_ He]. apply Z.eqb_eq in He. exact He.
Qed.

Lemma publish_notifies_each_employee_once_witness :
  exists db' sc',
    publish_schedule db_two_workers 0 1 true false = Ok (db', sc')
    /\ notifications db'
       = [mkNotification 11 SCHEDULE_PUBLISHED;
          mkNotification 12 SCHEDULE_PUBLISHED].
Proof.
  eexists. eexists.
  destruct (publish_notifies_each_employee_once db_two_workers 0 1 true false
              _ _ eq_refl) as [_ [_ [[es [H1 [_ H2]]] _]]].
  split; [reflexivity|].
  change (first_occurrences []
            (map sh_employee_id (schedule_shifts db_two_workers 1)))
    with [1; 2] in H1.
  destruct es as [|e1 [|e2 [|e3 es]]]; try discriminate.
  cbn [map] in H1. injection H1 as E1 E2.
  subst e1 e2. rewrite H2. reflexivity.
Defined.

(** ** X12 *)

Lemma schedule_by_id_update db sc sc' :
  schedule_by_id db (sc_id sc) = Some sc -> sc_id sc' = sc_id sc ->
  schedule_by_id (update_schedule_row db sc') (sc_id sc) = Some sc'.
Proof.
  unfold schedule_by_id, update_schedule_row, first. cbn [schedules with_schedules].
  intros H Hid. rewrite Hid.
  induction (schedules db) as [|x l IH]; simpl in *; [discriminate|].
  destruct (sc_id x =? sc_id sc) eqn:E.
  - rewrite Hid, Z.eqb_refl. reflexivity.
  - rewrite E. apply IH. exact H.
Qed.

(** X12: publishing a draft schedule and then unpublishing it gives back
    the schedule row and the schedules table as they were, and leaves the
    shifts untouched; what remains of the publication is the
    notifications. *)
Theorem publish_then_unpublish_restores_schedule :
  forall db now schedule_id validate force db1 sc1 sc,
    NoDup (map sc_id (schedules db)) ->
    schedule_by_id db schedule_id = Some sc ->
    sc_status sc = DRAFT ->
    published_at sc = None ->
    publish_schedule db now schedule_id validate force = Ok (db1, sc1) ->
    exists db2,
      unpublish_schedule db1 schedule_id = Ok (db2, sc)
      /\ schedules db2 = schedules db
      /\ shifts db2 = shifts db
      /\ notifications db2 = notifications db1.
Proof.
  intros db now sid validate force db1 sc1 sc Hnd Hf Hst Hpa H.
  destruct (schedule_by_id_In _ _ _ Hf) as [Hin Hid]. subst sid.
  unfold publish_schedule in H. rewrite Hf, Hst in H.
  cbn [ScheduleStatus_eqb] in H.
  destruct (Nat.eqb _ 0); [discriminate|].
  destruct (if validate then _ else _) as [[]|]; [|discriminate].
  cbn [bind] in H.
  destruct (publish_notifications _ _ _) as [db2|] eqn:Hn; [|discriminate].
  cbn [bind] in H. apply Ok_inj in H. inversion H; subst db1 sc1; clear H.
  pose proof (schedules_publish_notifications _ _ _ _ Hn) as Hsch.
  destruct (publish_notifications_exact _ _ _ _ Hn) as [_ [_ [_ Hsh]]].
  set (sc1 := set_schedule_status sc PUBLISHED (Some now)) in *.
  assert (Hf2 : schedule_by_id db2 (sc_id sc) = Some sc1).
  { unfold schedule_by_id. rewrite Hsch.
    apply (schedule_by_id_update db sc sc1 Hf eq_refl). }
  unfold unpublish_schedule. rewrite Hf2.
  change (sc_status sc1) with PUBLISHED. cbn [ScheduleStatus_eqb negb].
  assert (Hback : set_schedule_status sc1 DRAFT None = sc).
  { destruct sc; simpl in *; subst; reflexivity. }
  rewrite Hback. eexists. split; [reflexivity|].
  split; [|split; [exact Hsh|reflexivity]].
  unfold update_schedule_row in *. cbn [schedules with_schedules] in *.
  rewrite Hsch. rewrite map_map.
  rewrite <- (map_id (schedules db)) at 2. apply map_ext_in.
  intros row Hrow. change (sc_id sc1) with (sc_id sc).
  destruct (sc_id row =? sc_id sc) eqn:E.
  - change (sc_id sc1) with (sc_id sc). rewrite Z.eqb_refl.
    apply Z.eqb_eq in E. symmetry.
    eapply (NoDup_map_inj_in sc_id); eauto.
  - rewrite E. reflexivity.
Qed.

Lemma publish_then_unpublish_restores_schedule_witness :
  exists db1 sc1 db2,
    publish_schedule db_two_workers 0 1 true false = Ok (db1, sc1)
    /\ unpublish_schedule db1 1
       = Ok (db2, mkSchedule 1 1 monday DRAFT 1 None)
    /\ schedules db2 = schedules db_two_workers.
Proof.
  eexists. eexists.
  assert (Hnd : NoDup (map sc_id (schedules db_two_workers))).
  { simpl. repeat constructor. intros []. }
  destruct (publish_then_unpublish_restores_schedule db_two_workers 0 1 true
              false _ _ (mkSchedule 1 1 monday DRAFT 1 None) Hnd eq_refl
              eq_refl eq_refl eq_refl) as [db2 [H1 [H2 _]]].
  exists db2. split; [reflexivity|]. split; [exact H1|exact H2].
Defined.

(** ** X13 *)

(** X13: deleting a schedule removes the schedule row and every shift of
    that schedule, and nothing else: the other schedules and their shifts
    stay as they were.  A published schedule is not deleted. *)
Theorem delete_schedule_takes_its_shifts :
  forall db schedule_id db',
    delete_schedule db schedule_id = Ok db' ->
    schedule_by_id db' schedule_id = None
    /\ schedule_shifts db' schedule_id = []
    /\ (forall other, other <> schedule_id ->
          schedule_by_id db' other = schedule_by_id db other
          /\ schedule_shifts db' other = schedule_shifts db other)
    /\ exists sc, schedule_by_id db schedule_id = Some sc
                  /\ sc_status sc <> PUBLISHED.
Proof.
  intros db sid db' H. unfold delete_schedule in H.
  destruct (schedule_by_id db sid) as [sc|] eqn:Hf; [|discriminate].
  destruct (ScheduleStatus_eqb (sc_status sc) PUBLISHED) eqn:Hs;
    [discriminate|].
  apply Ok_inj in H. subst db'.
  unfold schedule_by_id, schedule_shifts, first.
  cbn [schedules shifts with_shifts with_schedules].
  split; [|split; [|split]].
  - destruct (find _ (filter _ (schedules db))) as [x|] eqn:E; [|reflexivity].
    apply find_some in E. destruct E as [E1 E2]. apply filter_In in E1.
    destruct E1 as [_ E1]. rewrite E2 in E1. discriminate.
  - induction (shifts db) as [|x l IH]; simpl; [reflexivity|].
    destruct (sh_schedule_id x =? sid) eqn:E; simpl; [exact IH|].
    rewrite E. exact IH.
  - intros other Hne. split.
    + induction (schedules db) as [|x l IH]; simpl; [reflexivity|].
      destruct (sc_id x =? sid) eqn:E; simpl.
      * apply Z.eqb_eq in E.
        assert (Ho : (sc_id x =? other) = false)
          by (apply Z.eqb_neq; congruence).
        rewrite Ho. exact IH.
      * destruct (sc_id x =? other); [reflexivity|exact IH].
    + induction (shifts db) as [|x l IH]; simpl; [reflexivity|].
      destruct (sh_schedule_id x =? sid) eqn:E; simpl.
      * apply Z.eqb_eq in E.
        assert (Ho : (sh_schedule_id x =? other) = false)
          by (apply Z.eqb_neq; congruence).
        rewrite Ho. exact IH.
      * destruct (sh_schedule_id x =? other); rewrite IH; reflexivity.
  - exists sc. split; [reflexivity|]. intro Hp. rewrite Hp in Hs.
    discriminate.
Qed.

Lemma delete_schedule_takes_its_shifts_witness :
  exists db',
    delete_schedule db_two_workers 1 = Ok db'
    /\ schedule_shifts db' 1 = [].
Proof.
  eexists. split; [reflexivity|].
  exact (proj1 (proj2 (delete_schedule_takes_its_shifts db_two_workers 1 _
                         eq_refl))).
Defined.

(** ** swaps *)

Lemma SwapStatus_eqb_eq a b : SwapStatus_eqb a b = true <-> a = b.
Proof. destruct a, b; simpl; split; intro H; try reflexivity; discriminate. Qed.

Lemma swap_by_id_id db i sw : swap_by_id db i = Some sw -> sw_id sw = i.
Proof.
  unfold swap_by_id, first. intro H. apply find_some in H.
  destruct H as [_ H]. apply Z.eqb_eq in H. exact H.
Qed.

Lemma swap_by_id_update db i sw sw' :
  swap_by_id db i = Some sw -> sw_id sw' = i ->
  swap_by_id (update_swap_row db i sw') i = Some sw'.
Proof.
  unfold swap_by_id, update_swap_row, first. cbn [shift_swaps with_shift_swaps].
  intros H Hid.
  induction (shift_swaps db) as [|x l IH]; simpl in *; [discriminate|].
  destruct (sw_id x =? i) eqn:E.
  - rewrite Hid, Z.eqb_refl. reflexivity.
  - rewrite E. apply IH. exact H.
Qed.

Lemma reload_swap_found db i sw :
  swap_by_id db i = Some sw -> reload_swap db i = Ok (db, sw).
Proof. unfold reload_swap. intros ->. reflexivity. Qed.

(** X14: a swap that [accept_shift_swap] accepted, with a non-zero
    accepting shift, is ready for the manager: it is in status accepted,
    it names the accepting shift, no shift was changed yet, and
    [approve_shift_swap] succeeds on it. *)
Theorem accepted_swap_can_be_approved :
  forall db today current_user_id swap_id accepting_shift_id db1 sw1,
    accepting_shift_id <> 0 ->
    accept_shift_swap db today current_user_id swap_id accepting_shift_id
    = Ok (db1, sw1) ->
    sw_status sw1 = SW_ACCEPTED
    /\ requested_shift_id sw1 = Some accepting_shift_id
    /\ shifts db1 = shifts db
    /\ forall now manager_id,
         exists db2 sw2,
           approve_shift_swap db1 now manager_id swap_id = Ok (db2, sw2)
           /\ sw_status sw2 = SW_APPROVED
           /\ approved_by sw2 = Some manager_id.
Proof.
  intros db today u sid acc db1 sw1 Hacc H. unfold accept_shift_swap in H.
  destruct (swap_by_id db sid) as [swap|] eqn:Hsw; [|discriminate].
  destruct (negb (SwapStatus_eqb (sw_status swap) SW_PENDING));
    [discriminate|].
  destruct (shift_by_id db acc) as [accepting|] eqn:Ha; [|discriminate].
  destruct (get_employee_for_user db u) as [employee|]; [|discriminate].
  destruct (negb (sh_employee_id accepting =? emp_id employee));
    [discriminate|].
  destruct (shift_by_id db (requester_shift_id swap)) as [requester|] eqn:Hr;
    [|discriminate].
  destruct (sh_employee_id requester =? emp_id employee); [discriminate|].
  destruct (sh_date accepting <? today); [discriminate|].
  pose proof (swap_by_id_id _ _ _ Hsw) as Hid.
  set (swap' := mkSwap (sw_id swap) (requester_shift_id swap) (Some acc)
                  SW_ACCEPTED (approved_by swap) (approved_at swap)) in *.
  set (db2 := match employee_by_id (update_swap_row db sid swap')
                      (sh_employee_id requester) with
              | Some requester_employee =>
                  if negb (emp_user_id requester_employee =? 0)
                  then create_notification (update_swap_row db sid swap')
                         (emp_user_id requester_employee) SWAP_REQUESTED
                  else update_swap_row db sid swap'
              | None => update_swap_row db sid swap'
              end) in *.
  assert (Hswaps : shift_swaps db2 = shift_swaps (update_swap_row db sid swap')).
  { unfold db2. destruct (employee_by_id _ _) as [e|]; [|reflexivity].
    destruct (negb _); reflexivity. }
  assert (Hshifts : shifts db2 = shifts db).
  { unfold db2. destruct (employee_by_id _ _) as [e|]; [|reflexivity].
    destruct (negb _); reflexivity. }
  assert (Hfound : swap_by_id db2 sid = Some swap').
  { unfold swap_by_id. rewrite Hswaps.
    apply (swap_by_id_update db sid swap swap' Hsw). exact Hid. }
  change (sw_id swap') with (sw_id swap) in H. rewrite Hid in H.
  rewrite (reload_swap_found _ _ _ Hfound) in H. apply Ok_inj in H.
  inversion H; subst db1 sw1; clear H.
  split; [reflexivity|]. split; [reflexivity|]. split; [exact Hshifts|].
  intros now m. unfold approve_shift_swap. rewrite Hfound.
  change (sw_status swap') with SW_ACCEPTED.
  change (requested_shift_id swap') with (Some acc).
  change (requester_shift_id swap') with (requester_shift_id swap).
  cbn [SwapStatus_eqb negb truthy].
  apply Z.eqb_neq in Hacc. rewrite Hacc. cbn [negb].
  unfold shift_by_id in *. rewrite Hshifts, Hr, Ha.
  eexists. eexists. split; [reflexivity|]. split; reflexivity.
Qed.

Lemma accepted_swap_can_be_approved_witness :
  exists db1 sw1 db2 sw2,
    accept_shift_swap db_pending_swap monday 12 1 2 = Ok (db1, sw1)
    /\ approve_shift_swap db1 7 99 1 = Ok (db2, sw2)
    /\ sw_status sw2 = SW_APPROVED.
Proof.
  eexists. eexists.
  destruct (accepted_swap_can_be_approved db_pending_swap monday 12 1 2 _ _
              ltac:(discriminate) eq_refl) as [_ [_ [_ H]]].
  destruct (H 7 99) as [db2 [sw2 [H1 [H2 _]]]].
  exists db2, sw2. split; [reflexivity|]. split; [exact H1|exact H2].
Defined.

(** X15: a swap that is approved, denied or cancelled is closed for good:
    accepting, cancelling, approving and updating it are all refused with
    a 400 answer, whoever asks. *)
Theorem closed_swap_stays_closed :
  forall db swap_id swap,
    swap_by_id db swap_id = Some swap ->
    is_open (sw_status swap) = false ->
    (forall today user accepting_shift_id,
        accept_shift_swap db today user swap_id accepting_shift_id
        = Err HTTP_400)
    /\ (forall user, cancel_shift_swap db user swap_id = Err HTTP_400)
    /\ (forall now user, approve_shift_swap db now user swap_id = Err HTTP_400)
    /\ (forall now user status,
           update_shift_swap db now user swap_id status = Err HTTP_400).
Proof.
  intros db sid swap Hsw Hclosed.
  unfold accept_shift_swap, cancel_shift_swap, approve_shift_swap,
    update_shift_swap. rewrite Hsw, Hclosed. cbn [negb].
  unfold is_open in Hclosed.
  destruct (sw_status swap); try discriminate; repeat split.
Qed.

Lemma closed_swap_stays_closed_witness :
  approve_shift_swap db_cancelled_swap 7 99 1 = Err HTTP_400.
Proof.
  exact (proj1 (proj2 (proj2
           (closed_swap_stays_closed db_cancelled_swap 1
              (mkSwap 1 1 None SW_CANCELLED None None) eq_refl eq_refl)))
           7 99).
Defined.

(** ** X16 *)

Lemma find_app_last {A} (p : A -> bool) l x :
  p x = true -> exists y, find p (l ++ [x]) = Some y.
Proof.
  intro H. induction l as [|a l IH]; simpl.
  - rewrite H. eauto.
  - destruct (p a); eauto.
Qed.

Lemma find_app_fresh {A} (p : A -> bool) l x :
  (forall y, In y l -> p y = false) -> p x = true ->
  find p (l ++ [x]) = Some x.
Proof.
  intros Hl Hx. induction l as [|a l IH]; simpl.
  - rewrite Hx. reflexivity.
  - rewrite (Hl a (or_introl eq_refl)). apply IH.
    intros y Hy. apply Hl. now right.
Qed.

(** X16: a shift has at most one open swap request.  A request that
    [create_shift_swap] accepts is stored as pending under a fresh key and
    changes no shift; after it, every further request to swap the same
    shift is refused, and refused with 400 when it comes from the same
    user on the same day. *)
Theorem one_open_swap_per_shift :
  forall db today current_user_id swap_data db1 sw1,
    create_shift_swap db today current_user_id swap_data = Ok (db1, sw1) ->
    sw_status sw1 = SW_PENDING
    /\ requester_shift_id sw1 = sc_requester_shift_id swap_data
    /\ ~ In (sw_id sw1) (map sw_id (shift_swaps db))
    /\ shift_swaps db1 = shift_swaps db ++ [sw1]
    /\ shifts db1 = shifts db
    /\ (forall today' user' requested',
           exists e,
             create_shift_swap db1 today' user'
               (mkSwapCreate (sc_requester_shift_id swap_data) requested')
             = Err e)
    /\ (forall requested',
           create_shift_swap db1 today current_user_id
             (mkSwapCreate (sc_requester_shift_id swap_data) requested')
           = Err HTTP_400).
Proof.
  intros db today u data db1 sw1 H. unfold create_shift_swap in H.
  destruct (shift_by_id db (sc_requester_shift_id data)) as [rs|] eqn:Hrs;
    [|discriminate].
  destruct (get_employee_for_user db u) as [employee|] eqn:Hemp;
    [|discriminate].
  destruct (negb (sh_employee_id rs =? emp_id employee)) eqn:Hown;
    [discriminate|].
  destruct (sh_date rs <? today) eqn:Hpast; [discriminate|].
  destruct (first _ (shift_swaps db)) as [x|] eqn:Hex; [discriminate|].
  destruct (if truthy (sc_requested_shift_id data) then _ else _) as [[]|];
    [|discriminate].
  cbn [bind] in H.
  set (swap := mkSwap (next_id (map sw_id (shift_swaps db)))
                 (sc_requester_shift_id data) (sc_requested_shift_id data)
                 SW_PENDING None None) in *.
  pose proof (next_id_fresh (map sw_id (shift_swaps db))) as Hfresh.
  assert (Hfound : swap_by_id
                     (with_shift_swaps db (shift_swaps db ++ [swap]))
                     (sw_id swap) = Some swap).
  { unfold swap_by_id, first. cbn [shift_swaps with_shift_swaps].
    apply find_app_fresh; [|apply Z.eqb_refl].
    intros y Hy. apply Z.eqb_neq. intro E. apply Hfresh.
    change (sw_id swap) with (next_id (map sw_id (shift_swaps db))) in E.
    rewrite <- E. apply in_map. exact Hy. }
  rewrite (reload_swap_found _ _ _ Hfound) in H. apply Ok_inj in H.
  inversion H; subst db1 sw1; clear H.
  split; [reflexivity|]. split; [reflexivity|]. split; [exact Hfresh|].
  split; [reflexivity|]. split; [reflexivity|].
  assert (Hopen : forall l,
            exists y,
              first (fun sw => (requester_shift_id sw
                                =? sc_requester_shift_id data)
                               && is_open (sw_status sw))
                (l ++ [swap]) = Some y).
  { intro l. apply find_app_last. cbn. rewrite Z.eqb_refl. reflexivity. }
  split.
  - intros today' u' requested'. unfold create_shift_swap.
    cbn [sc_requester_shift_id sc_requested_shift_id].
    change (shift_by_id (with_shift_swaps db (shift_swaps db ++ [swap]))
              (sc_requester_shift_id data))
      with (shift_by_id db (sc_requester_shift_id data)).
    rewrite Hrs.
    destruct (get_employee_for_user _ u') as [e'|]; [|eauto].
    destruct (negb (sh_employee_id rs =? emp_id e')); [eauto|].
    destruct (sh_date rs <? today'); [eauto|].
    cbn [shift_swaps with_shift_swaps].
    destruct (Hopen (shift_swaps db)) as [y Hy]. rewrite Hy. eauto.
  - intro requested'. unfold create_shift_swap.
    cbn [sc_requester_shift_id sc_requested_shift_id].
    change (shift_by_id (with_shift_swaps db (shift_swaps db ++ [swap]))
              (sc_requester_shift_id data))
      with (shift_by_id db (sc_requester_shift_id data)).
    change (get_employee_for_user
              (with_shift_swaps db (shift_swaps db ++ [swap])) u)
      with (get_employee_for_user db u).
    rewrite Hrs, Hemp, Hown, Hpast.
    cbn [shift_swaps with_shift_swaps].
    destruct (Hopen (shift_swaps db)) as [y Hy]. rewrite Hy. reflexivity.
Qed.

Lemma one_open_swap_per_shift_witness :
  exists db1 sw1,
    create_shift_swap db_before_swap monday 11 (mkSwapCreate 1 None)
    = Ok (db1, sw1)
    /\ create_shift_swap db1 monday 11 (mkSwapCreate 1 (Some 2))
       = Err HTTP_400.
Proof.
  eexists. eexists. split; [reflexivity|].
  exact (proj2 (proj2 (proj2 (proj2 (proj2 (proj2
           (one_open_swap_per_shift db_before_swap monday 11
              (mkSwapCreate 1 None) _ _ eq_refl)))))) (Some 2)).
Defined.

(** ** X19 *)

Section Peak.
Local Open Scope R_scope.

Lemma fold_best_spec {A} (key : A -> R) l : forall best,
  (fold_left (fun best y => if Rltb (key best) (key y) then y else best)
     l best = best
   \/ In (fold_left (fun best y => if Rltb (key best) (key y) then y else best)
            l best) l)
  /\ key best
     <= key (fold_left (fun best y => if Rltb (key best) (key y) then y
                                      else best) l best)
  /\ forall y, In y l ->
       key y <= key (fold_left (fun best y => if Rltb (key best) (key y)
                                              then y else best) l best).
Proof.
  induction l as [|x l IH]; intro best; cbn [fold_left].
  - split; [now left|]. split; [lra|]. intros y [].
  - destruct (IH (if Rltb (key best) (key x) then x else best))
      as [H1 [H2 H3]].
    unfold Rltb in *. destruct (Rlt_dec (key best) (key x)) as [Hlt|Hge].
    + split; [|split].
      * right. destruct H1 as [->|H1]; [now left|now right].
      * lra.
      * intros y [<-|Hy]; [exact H2|apply H3; exact Hy].
    + apply Rnot_lt_le in Hge. split; [|split].
      * destruct H1 as [H1|H1]; [now left|right; now right].
      * exact H2.
      * intros y [<-|Hy]; [lra|apply H3; exact Hy].
Qed.

Lemma max_by_spec {A} (key : A -> R) l :
  match max_by key l with
  | None => l = []
  | Some r => In r l /\ forall y, In y l -> key y <= key r
  end.
Proof.
  destruct l as [|x l]; cbn [max_by]; [reflexivity|].
  destruct (fold_best_spec key l x) as [H1 [H2 H3]]. split.
  - destruct H1 as [->|H1]; [now left|now right].
  - intros y [<-|Hy]; [exact H2|apply H3; exact Hy].
Qed.

Lemma forecast_hour_hour d h m hd : hf_hour (forecast_hour d h m hd) = h.
Proof.
  unfold forecast_hour. destruct (run_method _ _ _) as [[p l] u].
  reflexivity.
Qed.

Lemma forecast_hour_date d h m hd : hf_date (forecast_hour d h m hd) = d.
Proof.
  unfold forecast_hour. destruct (run_method _ _ _) as [[p l] u].
  reflexivity.
Qed.

(** X19: the daily forecast has one hourly forecast per operating hour of
    the store, in order and all for the target date, and its peak is a
    true maximum: [peak_orders] is the prediction of one of the hours, at
    [peak_hour], and no hour has a higher prediction.  With no operating
    hour the peak defaults to hour 12 with 0 orders. *)
Theorem daily_peak_is_the_maximum :
  forall db fdb today store_id target_date method day,
    forecast_day db fdb today store_id target_date method = Ok day ->
    (exists store,
        store_by_id db store_id = Some store
        /\ map hf_hour (hourly_forecasts day)
           = range (start_hour_of store 8) (end_hour_of store 22))
    /\ (forall h, In h (hourly_forecasts day) ->
          hf_date h = target_date
          /\ hf_predicted_orders h <= peak_orders day)
    /\ (hourly_forecasts day <> [] ->
        exists h, In h (hourly_forecasts day)
                  /\ peak_hour day = hf_hour h
                  /\ peak_orders day = hf_predicted_orders h)
    /\ (hourly_forecasts day = [] -> peak_hour day = 12%Z /\ peak_orders day = 0).
Proof.
  intros db fdb today sid d m day H. unfold forecast_day in H.
  destruct (store_by_id db sid) as [store|] eqn:S; [|discriminate].
  apply Ok_inj in H. subst day. unfold make_daily.
  cbn [hourly_forecasts peak_hour peak_orders].
  set (hourly := map (fun hour => forecast_hour d hour m
                                    (_get_historical_data fdb today sid))
                   (range (start_hour_of store 8) (end_hour_of store 22))).
  pose proof (max_by_spec hf_predicted_orders hourly) as Hmax.
  split; [|split; [|split]].
  - exists store. split; [reflexivity|]. unfold hourly. rewrite map_map.
    rewrite <- (map_id (range _ _)) at 2. apply map_ext.
    intro h. apply forecast_hour_hour.
  - intros h Hh. split.
    + unfold hourly in Hh. apply in_map_iff in Hh.
      destruct Hh as [hour [<- _]]. apply forecast_hour_date.
    + destruct (max_by hf_predicted_orders hourly) as [r|].
      * apply Hmax. exact Hh.
      * rewrite Hmax in Hh. destruct Hh.
  - intro Hne. destruct (max_by hf_predicted_orders hourly) as [r|].
    + exists r. split; [apply Hmax|]. split; reflexivity.
    + contradiction.
  - intro Hnil. rewrite Hnil. cbn [max_by]. split; reflexivity.
Qed.

Lemma daily_peak_is_the_maximum_witness :
  exists day,
    forecast_day db_store_only fdb_none monday 1 monday ENSEMBLE = Ok day
    /\ forall h, In h (hourly_forecasts day) ->
         hf_predicted_orders h <= peak_orders day.
Proof.
  eexists. split; [reflexivity|].
  intros h Hh.
  exact (proj2 (proj1 (proj2 (daily_peak_is_the_maximum db_store_only fdb_none
                                monday 1 monday ENSEMBLE _ eq_refl)) h Hh)).
Defined.

End Peak.

(** ** X20 *)

Lemma week_dates_In week_start d :
  In d (week_dates week_start) <-> week_start <= d <= week_start + 6.
Proof.
  unfold week_dates. rewrite in_map_iff. split.
  - intros [k [<- Hk]]. apply range_In in Hk. lia.
  - intro H. exists (d - week_start). split; [lia|]. apply range_In. lia.
Qed.

Lemma filter_all {A} (p : A -> bool) l :
  (forall x, In x l -> p x = true) -> filter p l = l.
Proof.
  induction l as [|x l IH]; simpl; intro H; [reflexivity|].
  rewrite (H x (or_introl eq_refl)). f_equal. apply IH.
  intros y Hy. apply H. now right.
Qed.

Lemma filter_none {A} (p : A -> bool) l :
  (forall x, In x l -> p x = false) -> filter p l = [].
Proof.
  induction l as [|x l IH]; simpl; intro H; [reflexivity|].
  rewrite (H x (or_introl eq_refl)). apply IH.
  intros y Hy. apply H. now right.
Qed.

Lemma filter_negb_filter {A} (p : A -> bool) l :
  filter p (filter (fun x => negb (p x)) l) = [].
Proof.
  apply filter_none. intros x Hx. apply filter_In in Hx.
  destruct Hx as [_ Hx]. apply negb_true_iff. exact Hx.
Qed.

Lemma filter_idem {A} (p : A -> bool) l : filter p (filter p l) = filter p l.
Proof.
  apply filter_all. intros x Hx. apply filter_In in Hx. tauto.
Qed.

Lemma forecast_rows_explicit store_id method hd hours days :
  flat_map
    (fun daily =>
       map (fun hourly =>
              mkOrderForecast store_id (hf_date hourly) (hf_hour hourly)
                (hf_predicted_orders hourly) None)
         (hourly_forecasts daily))
    (map (fun d =>
            make_daily d
              (map (fun hour => forecast_hour d hour method hd) hours))
       days)
  = flat_map
      (fun d =>
         map (fun hour =>
                mkOrderForecast store_id d hour
                  (hf_predicted_orders (forecast_hour d hour method hd))
                  None)
           hours)
      days.
Proof.
  induction days as [|d days IH]; [reflexivity|].
  cbn [map flat_map]. rewrite IH. f_equal.
  unfold make_daily. cbn [hourly_forecasts]. rewrite map_map.
  apply map_ext. intro hour.
  rewrite forecast_hour_date, forecast_hour_hour. reflexivity.
Qed.

(** X20: [save_forecast] replaces the stored forecast of the store's week
    by the forecast [forecast_week] computes, and touches nothing else.
    After it the rows of that store and week are the rows of that weekly
    forecast: one row per day of the week and operating hour of the
    store, in order, holding the prediction of [forecast_hour] for that
    date and hour and no actual order count; [n] is their number; the
    rows of other stores and weeks, the history and the labor standards
    are as before; and saving again changes nothing. *)
Theorem save_forecast_replaces_the_week :
  forall db fdb today store_id week_start method fdb1 n,
    save_forecast db fdb today store_id week_start method = Ok (fdb1, n) ->
    (exists w store,
        forecast_week db fdb today store_id week_start method = Ok w
        /\ store_by_id db store_id = Some store
        /\ filter (forecast_in_week store_id week_start)
             (order_forecasts fdb1)
           = forecast_rows store_id w
        /\ forecast_rows store_id w
           = flat_map
               (fun d =>
                  map (fun hour =>
                         mkOrderForecast store_id d hour
                           (hf_predicted_orders
                              (forecast_hour d hour method
                                 (_get_historical_data fdb today store_id)))
                           None)
                    (range (start_hour_of store 8) (end_hour_of store 22)))
               (week_dates week_start))
    /\ filter (fun f => negb (forecast_in_week store_id week_start f))
         (order_forecasts fdb1)
       = filter (fun f => negb (forecast_in_week store_id week_start f))
           (order_forecasts fdb)
    /\ length (filter (forecast_in_week store_id week_start)
                 (order_forecasts fdb1)) = n
    /\ (forall f, In f (order_forecasts fdb1) ->
          forecast_in_week store_id week_start f = true ->
          actual_orders f = None)
    /\ historical_orders fdb1 = historical_orders fdb
    /\ labor_standards fdb1 = labor_standards fdb
    /\ save_forecast db fdb1 today store_id week_start method = Ok (fdb1, n).
Proof.
  intros db fdb today sid ws m fdb1 n H.
  unfold save_forecast in H.
  destruct (forecast_week db fdb today sid ws m) as [w|] eqn:Hw;
    [|discriminate].
  cbn [bind] in H. apply Ok_inj in H.
  destruct (forecast_week_store _ _ _ _ _ _ _ Hw) as [Hmon [store Hst]].
  destruct (forecast_week_found db fdb today sid ws m store Hst Hmon)
    as [warns Hfound].
  rewrite Hfound in Hw. apply Ok_inj in Hw.
  set (kept := filter (fun f => negb ((of_store_id f =? sid)
                                      && (ws <=? of_date f)
                                      && (of_date f <=? ws + 6)))
                 (order_forecasts fdb)) in *.
  set (fresh := flat_map
                  (fun daily =>
                     map (fun hourly =>
                            mkOrderForecast sid (hf_date hourly)
                              (hf_hour hourly) (hf_predicted_orders hourly)
                              None)
                       (hourly_forecasts daily))
                  (daily_forecasts w)) in *.
  assert (Hfresh : forall f, In f fresh ->
            forecast_in_week sid ws f = true /\ actual_orders f = None).
  { intros f Hf. unfold fresh in Hf. apply in_flat_map in Hf.
    destruct Hf as [daily [Hd Hf]]. apply in_map_iff in Hf.
    destruct Hf as [hourly [<- Hh]]. split; [|reflexivity].
    rewrite <- Hw in Hd. cbn [daily_forecasts] in Hd.
    apply in_map_iff in Hd. destruct Hd as [d [<- Hd]].
    unfold make_daily in Hh. cbn [hourly_forecasts] in Hh.
    apply in_map_iff in Hh. destruct Hh as [hour [<- _]].
    unfold forecast_in_week. cbn [of_store_id of_date].
    rewrite forecast_hour_date. apply week_dates_In in Hd.
    rewrite Z.eqb_refl.
    rewrite (proj2 (Z.leb_le _ _) (proj1 Hd)),
      (proj2 (Z.leb_le _ _) (proj2 Hd)). reflexivity. }
  assert (Hkept : filter (forecast_in_week sid ws) kept = []).
  { unfold kept. apply (filter_negb_filter (forecast_in_week sid ws)). }
  assert (Hin : filter (forecast_in_week sid ws) (kept ++ fresh) = fresh).
  { rewrite filter_app, Hkept. cbn [app]. apply filter_all.
    intros f Hf. apply Hfresh. exact Hf. }
  assert (Hout : filter (fun f => negb (forecast_in_week sid ws f))
                   (kept ++ fresh) = kept).
  { rewrite filter_app.
    rewrite (filter_none _ fresh).
    - rewrite app_nil_r. unfold kept.
      apply (filter_idem (fun f => negb (forecast_in_week sid ws f))).
    - intros f Hf. destruct (Hfresh f Hf) as [-> _]. reflexivity. }
  inversion H; subst fdb1 n; clear H.
  cbn [order_forecasts historical_orders labor_standards].
  split.
  { exists w, store. split; [reflexivity|]. split; [exact Hst|].
    split; [exact Hin|].
    unfold forecast_rows. rewrite <- Hw. cbn [daily_forecasts].
    apply forecast_rows_explicit. }
  split; [rewrite Hout; reflexivity|].
  split; [rewrite Hin; reflexivity|].
  split.
  { intros f Hf Hwk. apply in_app_or in Hf. destruct Hf as [Hf|Hf].
    - exfalso. unfold kept in Hf. apply filter_In in Hf.
      destruct Hf as [_ Hf]. fold (forecast_in_week sid ws f) in Hf.
      rewrite Hwk in Hf. discriminate.
    - apply Hfresh. exact Hf. }
  split; [reflexivity|]. split; [reflexivity|].
  unfold save_forecast.
  change (forecast_week db
            (mkFDB (historical_orders fdb) (kept ++ fresh)
               (labor_standards fdb)) today sid ws m)
    with (forecast_week db fdb today sid ws m).
  rewrite Hfound, Hw. cbn [bind].
  cbn [order_forecasts historical_orders labor_standards].
  fold (forecast_in_week sid ws).
  change (filter (fun f => negb ((of_store_id f =? sid) && (ws <=? of_date f)
                                 && (of_date f <=? ws + 6))) (kept ++ fresh))
    with (filter (fun f => negb (forecast_in_week sid ws f)) (kept ++ fresh)).
  rewrite Hout. reflexivity.
Qed.

Lemma save_forecast_replaces_the_week_witness :
  exists fdb1 n w,
    save_forecast db_store_only fdb_one_sample monday 1 monday ENSEMBLE
    = Ok (fdb1, n)
    /\ forecast_week db_store_only fdb_one_sample monday 1 monday ENSEMBLE
       = Ok w
    /\ filter (forecast_in_week 1 monday) (order_forecasts fdb1)
       = forecast_rows 1 w.
Proof.
  destruct (save_forecast db_store_only fdb_one_sample monday 1 monday
              ENSEMBLE) as [[fdb1 n]|e] eqn:H.
  - destruct (save_forecast_replaces_the_week db_store_only fdb_one_sample
                monday 1 monday ENSEMBLE fdb1 n H)
      as [[w [store [H1 [_ [H2 _]]]]] _].
    exists fdb1, n, w. split; [reflexivity|]. split; [exact H1|exact H2].
  - exfalso. unfold save_forecast in H.
    destruct (forecast_week_found db_store_only fdb_one_sample monday 1
                monday ENSEMBLE store_one eq_refl eq_refl) as [ws Hf].
    rewrite Hf in H. discriminate.
Defined.

(** ** X21 *)

Lemma find_app_other {A} (p : A -> bool) l x :
  p x = false -> find p (l ++ [x]) = find p l.
Proof.
  intro H. induction l as [|a l IH]; simpl.
  - rewrite H. reflexivity.
  - destruct (p a); [reflexivity|exact IH].
Qed.

(** X21: [get_labor_standard] creates the default standard of a store at
    most once.  The standard it returns belongs to the store; asking
    again returns the same standard and writes nothing; the standards
    other stores read, the history and the stored forecasts are as
    before. *)
Theorem labor_standard_created_once :
  forall fdb store_id,
    let fdb1 := fst (get_labor_standard fdb store_id) in
    let standard := snd (get_labor_standard fdb store_id) in
    ls_store_id standard = store_id
    /\ get_labor_standard fdb1 store_id = (fdb1, standard)
    /\ (forall other,
           other <> store_id ->
           first (fun s => ls_store_id s =? other) (labor_standards fdb1)
           = first (fun s => ls_store_id s =? other) (labor_standards fdb))
    /\ historical_orders fdb1 = historical_orders fdb
    /\ order_forecasts fdb1 = order_forecasts fdb.
Proof.
  intros fdb sid. unfold get_labor_standard, first.
  destruct (find (fun s => ls_store_id s =? sid) (labor_standards fdb))
    as [s|] eqn:F; cbn [fst snd].
  - rewrite F. apply find_some in F. destruct F as [_ F].
    apply Z.eqb_eq in F. repeat split; auto.
  - cbn [labor_standards historical_orders order_forecasts].
    split; [reflexivity|]. split.
    + rewrite find_app_fresh; [reflexivity| |].
      * intros y Hy. exact (find_none _ _ F y Hy).
      * cbn [ls_store_id]. apply Z.eqb_refl.
    + split; [|split; reflexivity].
      intros other Ho. apply find_app_other. cbn [ls_store_id].
      apply Z.eqb_neq. congruence.
Qed.

(** ** X22 *)

Section Pickers.
Local Open Scope R_scope.

Lemma R_ceil_bounds x : x <= IZR (R_ceil x) < x + 1.
Proof.
  unfold R_ceil. rewrite opp_IZR.
  destruct (base_Int_part (- x)) as [H1 H2]. lra.
Qed.

(** X22: [calculate_pickers_needed] returns the least number of pickers
    whose shifts cover the required hours.  For positive hours and a
    positive shift length the result [n] is at least one, [n] shifts
    cover the hours and [n - 1] do not, and a longer shift never needs
    more pickers. *)
Theorem pickers_needed_is_least_cover :
  forall (required_hours : R) (shift_length : Z),
    0 < required_hours ->
    (0 < shift_length)%Z ->
    exists n,
      calculate_pickers_needed required_hours shift_length = Some n
      /\ (1 <= n)%Z
      /\ required_hours <= IZR n * IZR shift_length
      /\ IZR (n - 1) * IZR shift_length < required_hours
      /\ forall longer m,
           (shift_length <= longer)%Z ->
           calculate_pickers_needed required_hours longer = Some m ->
           (1 <= m <= n)%Z.
Proof.
  intros h L Hh HL. unfold calculate_pickers_needed.
  destruct (Rle_dec h 0) as [Hle|_]; [lra|].
  destruct (L =? 0)%Z eqn:E; [apply Z.eqb_eq in E; lia|].
  assert (HLR : 0 < IZR L) by (apply IZR_lt; exact HL).
  pose proof (R_ceil_bounds (h / IZR L)) as [B1 B2].
  assert (Hq : 0 < h / IZR L) by (apply Rdiv_lt_0_compat; assumption).
  assert (Hcover : forall K, 0 < IZR K ->
            (1 <= R_ceil (h / IZR K))%Z
            /\ h <= IZR (R_ceil (h / IZR K)) * IZR K
            /\ IZR (R_ceil (h / IZR K) - 1) * IZR K < h).
  { intros K HK. pose proof (R_ceil_bounds (h / IZR K)) as [C1 C2].
    assert (Hq' : 0 < h / IZR K) by (apply Rdiv_lt_0_compat; assumption).
    assert (Hn : (0 < R_ceil (h / IZR K))%Z) by (apply lt_IZR; lra).
    split; [lia|].
    assert (Eh : h = h / IZR K * IZR K) by (field; lra).
    split.
    - rewrite Eh at 1. apply Rmult_le_compat_r; lra.
    - rewrite minus_IZR. rewrite Eh at 2.
      apply Rmult_lt_compat_r; lra. }
  exists (R_ceil (h / IZR L)).
  destruct (Hcover L HLR) as [N1 [N2 N3]].
  split; [reflexivity|]. split; [exact N1|]. split; [exact N2|].
  split; [exact N3|].
  intros K m HK Hm.
  destruct (K =? 0)%Z eqn:EK; [apply Z.eqb_eq in EK; lia|].
  apply (f_equal (fun o => match o with Some z => z | None => 0%Z end)) in Hm.
  subst m.
  assert (HKR : 0 < IZR K) by (apply IZR_lt; lia).
  destruct (Hcover K HKR) as [M1 [M2 M3]]. split; [exact M1|].
  assert (HLK : IZR L <= IZR K) by (apply IZR_le; exact HK).
  apply Z.lt_succ_r. apply lt_IZR. rewrite succ_IZR.
  pose proof (R_ceil_bounds (h / IZR K)) as [C1 C2].
  assert (h / IZR K <= h / IZR L).
  { unfold Rdiv. apply Rmult_le_compat_l; [lra|].
    apply Rinv_le_contravar; assumption. }
  lra.
Qed.

Lemma pickers_needed_is_least_cover_witness :
  exists n,
    calculate_pickers_needed 20 8 = Some n
    /\ (1 <= n)%Z /\ 20 <= IZR n * 8 /\ IZR (n - 1) * 8 < 20.
Proof.
  destruct (pickers_needed_is_least_cover 20 8 ltac:(lra) ltac:(lia))
    as [n [H1 [H2 [H3 [H4 _]]]]].
  exists n. repeat split; assumption.
Defined.

End Pickers.

(** ** X23 *)

Lemma update_first_find {A} (p : A -> bool) (g : A -> A) l x :
  find p l = Some x ->
  p (g x) = true ->
  find p (update_first p g l) = Some (g x).
Proof.
  induction l as [|a l IH]; simpl; intros H Hg; [discriminate|].
  destruct (p a) eqn:E.
  - inversion H; subst. simpl. rewrite Hg. reflexivity.
  - simpl. rewrite E. apply IH; assumption.
Qed.

Lemma update_first_others {A} (p : A -> bool) (g : A -> A) l :
  (forall x, p x = true -> p (g x) = true) ->
  filter (fun x => negb (p x)) (update_first p g l)
  = filter (fun x => negb (p x)) l.
Proof.
  intro Hg. induction l as [|a l IH]; simpl; [reflexivity|].
  destruct (p a) eqn:E; simpl.
  - rewrite (Hg a E). reflexivity.
  - rewrite E. simpl. f_equal. exact IH.
Qed.

Lemma update_first_length {A} (p : A -> bool) (g : A -> A) l :
  length (update_first p g l) = length l.
Proof.
  induction l as [|a l IH]; simpl; [reflexivity|].
  destruct (p a); simpl; congruence.
Qed.

Lemma update_first_fixed {A} (p : A -> bool) (g : A -> A) l x :
  find p l = Some x -> g x = x -> update_first p g l = l.
Proof.
  induction l as [|a l IH]; simpl; intros H Hg; [reflexivity|].
  destruct (p a) eqn:E.
  - inversion H; subst. rewrite Hg. reflexivity.
  - f_equal. apply IH; assumption.
Qed.

Lemma filter_negb_app_last {A} (p : A -> bool) l x :
  p x = true ->
  filter (fun y => negb (p y)) (l ++ [x]) = filter (fun y => negb (p y)) l.
Proof.
  intro H. rewrite filter_app. simpl. rewrite H. simpl. apply app_nil_r.
Qed.

(** X23: [update_actual_orders] records the actual order count of a
    store, date and hour.  For an hour of the day and a non-negative
    count, when the key has a row or the store exists, the request
    succeeds; afterwards the row found for that key carries the count
    and keeps the prediction it had (0 when the row had to be created);
    at most one row is added; the rows of other keys and the history are
    untouched; and repeating the request changes nothing.  When the key
    has no row and the store id has no store row, the insert is refused
    and the answer is 500. *)
Theorem actual_orders_recorded :
  forall db fdb store_id target_date hour (actual : R),
    0 <= hour <= 23 ->
    (0 <= actual)%R ->
    match first (forecast_key store_id target_date hour)
            (order_forecasts fdb),
          store_by_id db store_id with
    | None, None =>
        update_actual_orders db fdb store_id target_date hour actual
        = Err HTTP_500
    | existing, _ =>
        exists fdb1 f,
          update_actual_orders db fdb store_id target_date hour actual
          = Ok fdb1
          /\ first (forecast_key store_id target_date hour)
               (order_forecasts fdb1) = Some f
          /\ actual_orders f = Some actual
          /\ predicted_orders f
             = match existing with
               | Some f0 => predicted_orders f0
               | None => 0%R
               end
          /\ length (order_forecasts fdb1)
             = (length (order_forecasts fdb)
                + match existing with
                  | Some _ => 0
                  | None => 1
                  end)%nat
          /\ filter (fun g => negb (forecast_key store_id target_date hour g))
               (order_forecasts fdb1)
             = filter
                 (fun g => negb (forecast_key store_id target_date hour g))
                 (order_forecasts fdb)
          /\ historical_orders fdb1 = historical_orders fdb
          /\ update_actual_orders db fdb1 store_id target_date hour actual
             = Ok fdb1
    end.
Proof.
  intros db fdb sid d h a Hh Ha.
  assert (Hq : (h <? 0) || (23 <? h) || Rltb a 0 = false).
  { unfold Rltb. destruct (Rlt_dec a 0) as [Hlt|_]; [lra|].
    rewrite (proj2 (Z.ltb_ge h 0)), (proj2 (Z.ltb_ge 23 h)) by lia.
    reflexivity. }
  assert (Hkeep : forall x, forecast_key sid d h x = true ->
            forecast_key sid d h (set_actual_orders x a) = true)
    by (intros x Hx; exact Hx).
  unfold update_actual_orders. rewrite Hq. unfold update_actuals, first.
  destruct (find (forecast_key sid d h) (order_forecasts fdb))
    as [f0|] eqn:F.
  - pose proof (find_some _ _ F) as [_ Hk].
    exists (mkFDB (historical_orders fdb)
              (update_first (forecast_key sid d h)
                 (fun f => set_actual_orders f a) (order_forecasts fdb))
              (labor_standards fdb)),
      (set_actual_orders f0 a).
    cbn [order_forecasts historical_orders labor_standards].
    pose proof (update_first_find (forecast_key sid d h)
                  (fun f => set_actual_orders f a) _ f0 F (Hkeep f0 Hk)) as F1.
    split; [reflexivity|]. split; [exact F1|]. split; [reflexivity|].
    split; [reflexivity|].
    split; [rewrite update_first_length; lia|].
    split; [apply update_first_others; exact Hkeep|].
    split; [reflexivity|].
    rewrite F1.
    rewrite (update_first_fixed (forecast_key sid d h)
               (fun f => set_actual_orders f a) _ (set_actual_orders f0 a) F1
               eq_refl).
    reflexivity.
  - destruct (store_by_id db sid) as [store|] eqn:S; [|reflexivity].
    set (row := mkOrderForecast sid d h 0%R (Some a)).
    assert (Hrow : forecast_key sid d h row = true).
    { unfold forecast_key, row. cbn [of_store_id of_date of_hour].
      rewrite !Z.eqb_refl. reflexivity. }
    assert (F1 : find (forecast_key sid d h) (order_forecasts fdb ++ [row])
                 = Some row).
    { apply find_app_fresh; [|exact Hrow].
      intros y Hy. exact (find_none _ _ F y Hy). }
    exists (mkFDB (historical_orders fdb) (order_forecasts fdb ++ [row])
              (labor_standards fdb)), row.
    cbn [order_forecasts historical_orders labor_standards].
    split; [reflexivity|]. split; [exact F1|]. split; [reflexivity|].
    split; [reflexivity|].
    split; [rewrite length_app; simpl; lia|].
    split; [apply filter_negb_app_last; exact Hrow|].
    split; [reflexivity|].
    rewrite F1.
    rewrite (update_first_fixed (forecast_key sid d h)
               (fun f => set_actual_orders f a) _ row F1 eq_refl).
    reflexivity.
Qed.

Lemma actual_orders_recorded_witness :
  exists fdb1 f,
    update_actual_orders db_store_only fdb_none 1 monday 9 12 = Ok fdb1
    /\ first (forecast_key 1 monday 9) (order_forecasts fdb1) = Some f
    /\ actual_orders f = Some 12%R.
Proof.
  destruct (actual_orders_recorded db_store_only fdb_none 1 monday 9 12
              ltac:(lia) ltac:(lra)) as [fdb1 [f [H1 [H2 [H3 _]]]]].
  exists fdb1, f. repeat split; assumption.
Defined.

(** ** X24 *)

Lemma matching_template_spec start_h end_h l : forall k idx,
  matching_template start_h end_h (combine (seq k (length l)) l) = Some idx ->
  exists t,
    nth_error l (idx - k) = Some t /\ (k <= idx)%nat
    /\ start_hour t = start_h /\ end_hour t = end_h.
Proof.
  induction l as [|t l IH]; simpl; intros k idx H; [discriminate|].
  destruct ((start_hour t =? start_h) && (end_hour t =? end_h)) eqn:E.
  - inversion H; subst. exists t. rewrite Nat.sub_diag.
    apply andb_true_iff in E. destruct E as [E1 E2].
    apply Z.eqb_eq in E1, E2. auto.
  - destruct (IH (S k) idx H) as [t' [Hn [Hk [Hs He]]]].
    exists t'. replace (idx - k)%nat with (S (idx - S k)) by lia.
    simpl. repeat split; auto. lia.
Qed.

Lemma hour_of_time_of_hour h : hour_of (time_of_hour h) = h.
Proof. unfold hour_of, time_of_hour. apply Z.div_mul. lia. Qed.

(** X24: the lock [lock_existing_shift] returns stands for the stored
    shift.  Its day index is a day of the schedule's week, and the shift
    the optimizer emits for that lock is for the same employee, on the
    same date, from the same start hour to the same end hour. *)
Theorem lock_stands_for_the_shift :
  forall db shift_id locked,
    lock_existing_shift db shift_id = Ok locked ->
    exists shift schedule g,
      shift_by_id db shift_id = Some shift
      /\ schedule_by_id db (sh_schedule_id shift) = Some schedule
      /\ 0 <= lk_day_index locked <= 6
      /\ from_lock (week_start_date schedule) locked g
      /\ g_employee_id g = sh_employee_id shift
      /\ g_date g = sh_date shift
      /\ hour_of (g_start_time g) = hour_of (start_time shift)
      /\ hour_of (g_end_time g) = hour_of (end_time shift).
Proof.
  intros db sid locked H. unfold lock_existing_shift in H.
  destruct (shift_by_id db sid) as [shift|] eqn:Hshift; [|discriminate].
  destruct (schedule_by_id db (sh_schedule_id shift)) as [schedule|] eqn:Hsc;
    [|discriminate].
  destruct ((sh_date shift - week_start_date schedule <? 0)
            || (6 <? sh_date shift - week_start_date schedule)) eqn:E;
    [discriminate|].
  apply orb_false_iff in E. destruct E as [E1 E2].
  apply Z.ltb_ge in E1, E2.
  destruct (matching_template _ _ _) as [idx|] eqn:M; [|discriminate].
  apply Ok_inj in H. subst locked.
  unfold enumerate in M. apply matching_template_spec in M.
  destruct M as [t [Hn [_ [Hs He]]]]. rewrite Nat.sub_0_r in Hn.
  exists shift, schedule,
    (mkGenerated (sh_employee_id shift)
       (week_start_date schedule
        + (sh_date shift - week_start_date schedule))
       (time_of_hour (start_hour t)) (time_of_hour (end_hour t))
       (t_break_minutes t)).
  cbn [lk_day_index g_employee_id g_date g_start_time g_end_time].
  split; [reflexivity|]. split; [exact Hsc|]. split; [lia|].
  split.
  - unfold from_lock, shift_of_var.
    cbn [lk_employee_id lk_day_index shift_template_idx].
    rewrite Hn. reflexivity.
  - split; [reflexivity|]. split; [lia|].
    rewrite !hour_of_time_of_hour. auto.
Qed.

Lemma lock_stands_for_the_shift_witness :
  exists g,
    from_lock monday (mkLocked 1 2 1) g
    /\ g_employee_id g = 1 /\ g_date g = monday + 2.
Proof.
  destruct (lock_stands_for_the_shift db_full_day 1 (mkLocked 1 2 1)
              eq_refl)
    as [shift [schedule [g [H1 [H2 [_ [H3 [H4 [H5 _]]]]]]]]].
  assert (Es : shift_by_id db_full_day 1 = Some full_day_shift)
    by reflexivity.
  rewrite Es in H1. injection H1 as <-.
  assert (Ec : schedule_by_id db_full_day (sh_schedule_id full_day_shift)
               = Some full_day_schedule) by reflexivity.
  rewrite Ec in H2. injection H2 as <-.
  exists g. split; [exact H3|].
  split; [rewrite H4|rewrite H5]; reflexivity.
Defined.

(** ** X25 *)

Lemma NoDup_flat_map_keyed {A B K} (key : A -> K) (tag : B -> K)
  (g : A -> list B) l :
  NoDup (map key l) ->
  (forall x, In x l -> NoDup (g x)) ->
  (forall x b, In x l -> In b (g x) -> tag b = key x) ->
  NoDup (flat_map g l).
Proof.
  induction l as [|a l IH]; simpl; intros Hk Hg Ht; [constructor|].
  inversion Hk as [|? ? Hn Hl]; subst.
  apply NoDup_app.
  - apply Hg. now left.
  - apply IH; [exact Hl| |]; intros; [apply Hg|apply Ht]; auto.
  - intros b Hb Hin. apply in_flat_map in Hin. destruct Hin as [x [Hx Hbx]].
    apply Hn. apply in_map_iff. exists x. split; [|exact Hx].
    rewrite <- (Ht x b (or_intror Hx) Hbx).
    apply (Ht a b (or_introl eq_refl) Hb).
Qed.

Lemma day_insert_fst d i days x :
  In x (map fst (day_insert d i days)) -> x = d \/ In x (map fst days).
Proof.
  induction days as [|[d0 l0] days IH]; simpl.
  - intros [<-|[]]. now left.
  - destruct (d0 =? d) eqn:E; simpl.
    + intros [<-|H]; right; [now left|now right].
    + intros [<-|H]; [right; now left|].
      destruct (IH H) as [->|H']; [now left|right; now right].
Qed.

Lemma day_insert_NoDup d i days :
  NoDup (map fst days) -> NoDup (map fst (day_insert d i days)).
Proof.
  induction days as [|[d0 l0] days IH]; simpl; intro H.
  - constructor; [intros []|constructor].
  - inversion H as [|? ? Hn Hl]; subst. destruct (d0 =? d) eqn:E; simpl.
    + constructor; assumption.
    + constructor; [|apply IH; exact Hl].
      intro Hin. apply day_insert_fst in Hin. apply Z.eqb_neq in E.
      destruct Hin as [->|Hin]; [congruence|contradiction].
Qed.

Lemma sv_insert_fst e d i sv x :
  In x (map fst (sv_insert e d i sv)) -> x = e \/ In x (map fst sv).
Proof.
  induction sv as [|[e0 days0] sv IH]; simpl.
  - intros [<-|[]]. now left.
  - destruct (e0 =? e) eqn:E; simpl.
    + intros [<-|H]; right; [now left|now right].
    + intros [<-|H]; [right; now left|].
      destruct (IH H) as [->|H']; [now left|right; now right].
Qed.

Lemma sv_insert_wf e d i sv : sv_wf sv -> sv_wf (sv_insert e d i sv).
Proof.
  unfold sv_wf. induction sv as [|[e0 days0] sv IH]; simpl; intros [H1 H2].
  - split; [constructor; [intros []|constructor]|].
    intros e' days [H|[]]. inversion H; subst. simpl.
    constructor; [intros []|constructor].
  - inversion H1 as [|? ? Hn Hl]; subst.
    destruct (e0 =? e) eqn:E; simpl.
    + split; [constructor; assumption|].
      intros e' days [H|H].
      * inversion H; subst. apply day_insert_NoDup.
        apply (H2 e' days0). now left.
      * apply (H2 e' days). now right.
    + destruct IH as [I1 I2].
      { split; [exact Hl|]. intros e' days H. apply (H2 e' days). now right. }
      split.
      * constructor; [|exact I1]. intro Hin. apply sv_insert_fst in Hin.
        apply Z.eqb_neq in E. destruct Hin as [->|Hin];
          [congruence|contradiction].
      * intros e' days [H|H].
        -- inversion H; subst. apply (H2 e' days). now left.
        -- apply (I2 e' days H).
Qed.

Lemma lock_fold_wf locked : forall st,
  sv_wf (fst st) -> sv_wf (fst (fold_left lock_step locked st)).
Proof.
  induction locked as [|l locked IH]; simpl; intros st H; [exact H|].
  apply IH. simpl. apply sv_insert_wf. exact H.
Qed.

Lemma range_0_7_NoDup : NoDup (range 0 7).
Proof.
  change (range 0 7) with [0; 1; 2; 3; 4; 5; 6].
  repeat (constructor; [simpl; intuition discriminate|]). constructor.
Qed.

Lemma initial_shift_vars_wf ecs store emps : forall sv0,
  NoDup (map emp_id emps) ->
  initial_shift_vars ecs store emps = Ok sv0 ->
  sv_wf sv0.
Proof.
  unfold initial_shift_vars, sv_wf.
  induction emps as [|emp emps IH]; simpl; intros sv0 Hn H.
  - inversion H; subst. split; [constructor|intros ? ? []].
  - inversion Hn as [|? ? Hni Hl]; subst.
    destruct (fold_right _ (Ok []) emps) as [rest|] eqn:F; [|discriminate].
    cbn [bind] in H.
    destruct (dict_get ecs (emp_id emp)) as [ec|]; [|discriminate].
    apply Ok_inj in H. subst sv0.
    destruct (IH rest Hl eq_refl) as [I1 I2].
    assert (Hkeys : forall x, In x (map fst rest) -> In x (map emp_id emps)).
    { clear -F. revert rest F.
      induction emps as [|a emps IH]; simpl; intros rest F x Hx.
      - inversion F; subst. destruct Hx.
      - destruct (fold_right _ (Ok []) emps) as [rest'|]; [|discriminate].
        cbn [bind] in F.
        destruct (dict_get ecs (emp_id a)); [|discriminate].
        apply Ok_inj in F. subst rest. simpl in Hx.
        destruct Hx as [<-|Hx]; [now left|right].
        apply (IH rest' eq_refl x Hx). }
    split.
    + simpl. constructor; [|exact I1]. intro Hin. apply Hni.
      apply Hkeys. exact Hin.
    + intros e days [Hd|Hd].
      * inversion Hd; subst. exact range_0_7_NoDup.
      * apply (I2 e days Hd).
Qed.

Lemma build_constraints_shape ecs store emps locked overrides sv cs :
  build_constraints ecs store emps locked overrides = Ok (sv, cs) ->
  exists sv0 cs0 c2 c3,
    initial_shift_vars ecs store emps = Ok sv0
    /\ fold_left lock_step locked
         (sv0, flat_map (override_constraints sv0) overrides) = (sv, cs0)
    /\ cs = cs0 ++ one_shift_per_day sv ++ c2 ++ c3.
Proof.
  unfold build_constraints.
  destruct (initial_shift_vars ecs store emps) as [sv0|]; [|discriminate].
  cbn [bind].
  destruct (fold_left lock_step locked
              (sv0, flat_map (override_constraints sv0) overrides))
    as [sv1 cs0] eqn:F.
  destruct (max_days_constraints ecs sv1) as [c2|]; [|discriminate].
  cbn [bind].
  destruct (max_hours_constraints ecs sv1) as [c3|]; [|discriminate].
  cbn [bind]. intro H. apply Ok_inj in H. inversion H; subst.
  exists sv0, cs0, c2, c3. auto.
Qed.

Lemma one_shift_per_day_In sv e days d idxs :
  In (e, days) sv -> In (d, idxs) days -> idxs <> [] ->
  In (SumLe (day_vars e d idxs) 1) (one_shift_per_day sv).
Proof.
  intros H1 H2 Hne. unfold one_shift_per_day. apply in_flat_map.
  exists (e, days). split; [exact H1|]. apply in_flat_map.
  exists (d, idxs). split; [exact H2|]. simpl.
  destruct idxs; [congruence|now left].
Qed.

Lemma sum_values_count val e d idxs :
  (forall i, In i idxs -> is_boolean (val (ShiftVar e d i)) = true) ->
  sum_values val (day_vars e d idxs)
  = Z.of_nat (length (filter (fun i => val (ShiftVar e d i) =? 1) idxs)).
Proof.
  induction idxs as [|i idxs IH]; intro H; [reflexivity|].
  change (sum_values val (day_vars e d (i :: idxs)))
    with (val (ShiftVar e d i) + sum_values val (day_vars e d idxs)).
  rewrite IH by (intros; apply H; now right).
  pose proof (H i (or_introl eq_refl)) as Hb. unfold is_boolean in Hb.
  cbn [filter].
  apply orb_true_iff in Hb. destruct Hb as [Hb|Hb]; apply Z.eqb_eq in Hb;
    rewrite Hb; cbn [Z.eqb length Pos.eqb]; lia.
Qed.

Lemma one_per_day val cs sv e days d idxs :
  satisfies val (mkModel cs []) = true ->
  (forall c, In c (one_shift_per_day sv) -> In c cs) ->
  In (e, days) sv -> In (d, idxs) days ->
  (length (filter (fun i => (val (ShiftVar e d i) =? 1)%Z) idxs) <= 1)%nat.
Proof.
  intros Hs Hc H1 H2. destruct idxs as [|i0 idxs]; [simpl; lia|].
  set (l := i0 :: idxs) in *.
  assert (Hin : In (SumLe (day_vars e d l) 1) cs).
  { apply Hc. eapply one_shift_per_day_In; eauto. discriminate. }
  unfold satisfies in Hs. rewrite forallb_forall in Hs.
  specialize (Hs _ Hin). apply andb_true_iff in Hs. destruct Hs as [Hh Hb].
  cbn [holds vars_of] in Hh, Hb. apply Z.leb_le in Hh.
  rewrite forallb_forall in Hb.
  rewrite sum_values_count in Hh; [lia|].
  intros i Hi. apply Hb. unfold day_vars. apply in_map. exact Hi.
Qed.

Lemma booked_NoDup val week_start sv :
  sv_wf sv ->
  (forall e days d idxs,
      In (e, days) sv -> In (d, idxs) days ->
      (length (filter (fun i => (val (ShiftVar e d i) =? 1)%Z) idxs) <= 1)%nat) ->
  NoDup (booked val week_start sv).
Proof.
  intros [W1 W2] Hone. unfold booked.
  apply (NoDup_flat_map_keyed fst fst); [exact W1| |].
  - intros [e days] He. cbn [fst snd].
    apply (NoDup_flat_map_keyed fst (fun b => snd b - week_start));
      [exact (W2 e days He)| |].
    + intros [d idxs] Hd. cbn [fst snd].
      pose proof (Hone e days d idxs He Hd) as Hl.
      destruct (filter _ idxs) as [|a [|b rest]]; simpl in *;
        [constructor|constructor; [intros []|constructor]|lia].
    + intros [d idxs] b Hd Hb. cbn [fst snd] in *.
      apply in_map_iff in Hb. destruct Hb as [i [<- _]]. simpl. lia.
  - intros [e days] b He Hb. cbn [fst snd] in *.
    apply in_flat_map in Hb. destruct Hb as [[d idxs] [_ Hb]].
    apply in_map_iff in Hb. destruct Hb as [i [<- _]]. reflexivity.
Qed.

Lemma extract_shifts_bookings val emps week_start keys : forall generated,
  extract_shifts val emps week_start keys = Ok generated ->
  map booking generated
  = map (fun k => (fst (fst k), week_start + snd (fst k)))
      (filter (fun k => val (ShiftVar (fst (fst k)) (snd (fst k)) (snd k))
                        =? 1) keys).
Proof.
  induction keys as [|[[e d] i] keys IH]; simpl; intros generated H.
  - apply Ok_inj in H. subst. reflexivity.
  - destruct (first _ emps); [|discriminate].
    destruct (extract_shifts val emps week_start keys) as [more|];
      [|discriminate].
    cbn [bind] in H. destruct (val (ShiftVar e d i) =? 1).
    + destruct (nth_error SHIFT_TEMPLATES i); [|discriminate].
      apply Ok_inj in H. subst generated. simpl. f_equal. apply IH.
      reflexivity.
    + apply Ok_inj in H. subst generated. apply IH. reflexivity.
Qed.

Lemma bookings_of_all_shift_vars val week_start sv :
  map (fun k => (fst (fst k), week_start + snd (fst k)))
    (filter (fun k => val (ShiftVar (fst (fst k)) (snd (fst k)) (snd k))
                      =? 1) (all_shift_vars sv))
  = booked val week_start sv.
Proof.
  unfold all_shift_vars, booked.
  induction sv as [|[e days] sv IH]; simpl; [reflexivity|].
  rewrite filter_app, map_app, IH. f_equal. clear IH.
  induction days as [|[d idxs] days IH]; simpl; [reflexivity|].
  rewrite filter_app, map_app, IH. f_equal. clear IH.
  induction idxs as [|i idxs IH]; simpl; [reflexivity|].
  destruct (val (ShiftVar e d i) =? 1); simpl; [f_equal|]; exact IH.
Qed.

(** The shifts [optimize] returns are empty, or extracted from a
    successful answer of the solver. *)
Lemma optimize_shifts_shape solver db fdb today store_id week_start
  locked_shifts manual_overrides :
  opt_shifts (optimize solver db fdb today store_id week_start
                locked_shifts manual_overrides) = []
  \/ exists store slots sv cs generated,
       build_constraints
         (emp_constraints_of db week_start (_get_employees db store_id))
         store (_get_employees db store_id) locked_shifts manual_overrides
       = Ok (sv, cs)
       /\ (cp_status (solver (mkModel cs (build_objective sv slots)))
           = CP_OPTIMAL
           \/ cp_status (solver (mkModel cs (build_objective sv slots)))
              = CP_FEASIBLE)
       /\ extract_shifts
            (Value (solver (mkModel cs (build_objective sv slots))))
            (_get_employees db store_id) week_start (all_shift_vars sv)
          = Ok generated
       /\ opt_shifts (optimize solver db fdb today store_id week_start
                        locked_shifts manual_overrides) = generated.
Proof.
  unfold optimize.
  destruct (store_by_id db store_id) as [store|]; [|now left].
  destruct (_get_employees db store_id) as [|emp0 emps0] eqn:Eemps;
    [now left|].
  unfold optimize_body.
  destruct (_get_demand_slots db fdb today (st_id store) week_start)
    as [[fdb' slots]|]; [|now left].
  cbn [bind snd]. destruct slots as [|slot slots]; [now left|].
  destruct (build_constraints _ store (emp0 :: emps0) locked_shifts
              manual_overrides) as [[sv cs]|] eqn:B; [|now left].
  cbn [bind].
  destruct (cp_status (solver _)) eqn:S; try (now left).
  - destruct (extract_shifts _ _ week_start (all_shift_vars sv))
      as [generated|] eqn:X; [|now left].
    right. exists store, (slot :: slots), sv, cs, generated.
    cbn [bind opt_shifts]. repeat split; auto.
  - destruct (extract_shifts _ _ week_start (all_shift_vars sv))
      as [generated|] eqn:X; [|now left].
    right. exists store, (slot :: slots), sv, cs, generated.
    cbn [bind opt_shifts]. repeat split; auto.
Qed.

Lemma satisfies_constraints val cs obj :
  satisfies val (mkModel cs obj) = satisfies val (mkModel cs []).
Proof. reflexivity. Qed.

(** X25: the optimizer never books an employee twice on a day.  For every
    solver whose successful answers satisfy the model, and a database
    whose employee ids are distinct, the shifts [optimize] returns hold
    each (employee, date) at most once, whatever locks and overrides are
    passed. *)
Theorem no_employee_booked_twice_a_day :
  forall solver db fdb today store_id week_start locked_shifts
         manual_overrides,
    solver_sound solver ->
    unique_employee_ids db ->
    NoDup (map booking
             (opt_shifts (optimize solver db fdb today store_id week_start
                            locked_shifts manual_overrides))).
Proof.
  intros solver db fdb today sid ws locked overrides Hsound Huniq.
  destruct (optimize_shifts_shape solver db fdb today sid ws locked
              overrides)
    as [->|[store [slots [sv [cs [generated [B [Hcp [Hx ->]]]]]]]]];
    [constructor|].
  rewrite (extract_shifts_bookings _ _ _ _ _ Hx).
  rewrite bookings_of_all_shift_vars.
  destruct (build_constraints_shape _ _ _ _ _ _ _ B)
    as [sv0 [cs0 [c2 [c3 [I [F Ecs]]]]]].
  assert (Hwf : sv_wf sv).
  { pose proof (lock_fold_wf locked
                  (sv0, flat_map (override_constraints sv0) overrides))
      as Hf.
    rewrite F in Hf. apply Hf. cbn [fst].
    eapply initial_shift_vars_wf; [|exact I].
    unfold _get_employees. apply NoDup_map_filter. exact Huniq. }
  apply booked_NoDup; [exact Hwf|].
  intros e days d idxs He Hd.
  eapply one_per_day; [| |exact He|exact Hd].
  - rewrite <- (satisfies_constraints _ cs (build_objective sv slots)).
    apply Hsound. tauto.
  - intros c Hc. rewrite Ecs. apply in_or_app. right.
    apply in_or_app. left. exact Hc.
Qed.

Lemma no_employee_booked_twice_a_day_witness :
  NoDup (map booking
           (opt_shifts (optimize lock_solver db_locked fdb_locked monday 1
                          monday [monday_lock] []))).
Proof.
  apply no_employee_booked_twice_a_day; [exact lock_solver_sound|].
  unfold unique_employee_ids. simpl. constructor; [intros []|constructor].
Defined.

(** ** X26 *)

Lemma day_insert_has d i days :
  exists idxs, In (d, idxs) (day_insert d i days) /\ In i idxs.
Proof.
  induction days as [|[d0 l0] days IH]; simpl.
  - exists [i]. split; now left.
  - destruct (d0 =? d) eqn:E.
    + apply Z.eqb_eq in E. subst d0.
      destruct (existsb (Nat.eqb i) l0) eqn:X.
      * exists l0. split; [now left|].
        apply existsb_exists in X. destruct X as [x [Hx Hi]].
        apply Nat.eqb_eq in Hi. subst. exact Hx.
      * exists (l0 ++ [i]). split; [now left|].
        apply in_or_app. right. now left.
    + destruct IH as [idxs [H1 H2]]. exists idxs. split; [now right|exact H2].
Qed.

Lemma day_insert_mono d i days d' idxs x :
  In (d', idxs) days -> In x idxs ->
  exists idxs', In (d', idxs') (day_insert d i days) /\ In x idxs'.
Proof.
  induction days as [|[d0 l0] days IH]; simpl; intros H Hx; [destruct H|].
  destruct (d0 =? d) eqn:E.
  - destruct H as [H|H].
    + inversion H; subst.
      exists (if existsb (Nat.eqb i) idxs then idxs else idxs ++ [i]).
      split; [now left|].
      destruct (existsb (Nat.eqb i) idxs); [exact Hx|].
      apply in_or_app. now left.
    + exists idxs. split; [now right|exact Hx].
  - destruct H as [H|H].
    + inversion H; subst. exists idxs. split; [now left|exact Hx].
    + destruct (IH H Hx) as [idxs' [H1 H2]].
      exists idxs'. split; [now right|exact H2].
Qed.

Lemma sv_insert_has e d i sv : In (e, d, i) (all_shift_vars (sv_insert e d i sv)).
Proof.
  apply all_shift_vars_In.
  induction sv as [|[e0 days0] sv IH]; simpl.
  - exists [(d, [i])], [i]. split; [now left|]. split; now left.
  - destruct (e0 =? e) eqn:E.
    + apply Z.eqb_eq in E. subst e0.
      destruct (day_insert_has d i days0) as [idxs [H1 H2]].
      exists (day_insert d i days0), idxs. split; [now left|]. auto.
    + destruct IH as [days [idxs [H1 [H2 H3]]]].
      exists days, idxs. split; [now right|]. auto.
Qed.

Lemma sv_insert_mono e d i sv k :
  In k (all_shift_vars sv) -> In k (all_shift_vars (sv_insert e d i sv)).
Proof.
  destruct k as [[e' d'] x]. rewrite !all_shift_vars_In.
  induction sv as [|[e0 days0] sv IH]; simpl;
    intros [days [idxs [H1 [H2 H3]]]]; [destruct H1|].
  destruct (e0 =? e) eqn:E.
  - destruct H1 as [H1|H1].
    + inversion H1; subst.
      destruct (day_insert_mono d i days d' idxs x H2 H3) as [idxs' [A B]].
      exists (day_insert d i days), idxs'. split; [now left|]. auto.
    + exists days, idxs. split; [now right|]. auto.
  - destruct H1 as [H1|H1].
    + inversion H1; subst. exists days, idxs. split; [now left|]. auto.
    + destruct IH as [days1 [idxs1 [A [B C]]]]; [eauto|].
      exists days1, idxs1. split; [now right|]. auto.
Qed.

Lemma lock_fold_keeps locked : forall st,
  (forall k, In k (all_shift_vars (fst st)) ->
             In k (all_shift_vars (fst (fold_left lock_step locked st))))
  /\ (forall c, In c (snd st) ->
                In c (snd (fold_left lock_step locked st))).
Proof.
  induction locked as [|l locked IH]; simpl; intro st; [auto|].
  destruct (IH (lock_step st l)) as [I1 I2]. split.
  - intros k Hk. apply I1. simpl. apply sv_insert_mono. exact Hk.
  - intros c Hc. apply I2. simpl. apply in_or_app. now left.
Qed.

Lemma lock_fold_has locked : forall st l,
  In l locked ->
  In (lk_employee_id l, lk_day_index l, shift_template_idx l)
    (all_shift_vars (fst (fold_left lock_step locked st)))
  /\ In (EqConst (ShiftVar (lk_employee_id l) (lk_day_index l)
                    (shift_template_idx l)) 1)
       (snd (fold_left lock_step locked st)).
Proof.
  induction locked as [|l0 locked IH]; simpl; intros st l Hl; [destruct Hl|].
  destruct Hl as [<-|Hl]; [|apply IH; exact Hl].
  destruct (lock_fold_keeps locked (lock_step st l0)) as [K1 K2]. split.
  - apply K1. simpl. apply sv_insert_has.
  - apply K2. simpl. apply in_or_app. right. now left.
Qed.

Lemma extract_shifts_emits val emps week_start keys :
  forall generated e d i,
    extract_shifts val emps week_start keys = Ok generated ->
    In (e, d, i) keys ->
    val (ShiftVar e d i) = 1 ->
    exists g, shift_of_var week_start e d i = Some g /\ In g generated.
Proof.
  induction keys as [|[[e0 d0] i0] keys IH]; simpl;
    intros generated e d i H Hin Hv; [destruct Hin|].
  destruct (first _ emps); [|discriminate].
  destruct (extract_shifts val emps week_start keys) as [more|];
    [|discriminate].
  cbn [bind] in H. destruct Hin as [E|Hin].
  - inversion E; subst. rewrite Hv in H. cbn [Z.eqb Pos.eqb] in H.
    unfold shift_of_var.
    destruct (nth_error SHIFT_TEMPLATES i) as [t|]; [|discriminate].
    apply Ok_inj in H. subst generated. eexists. split; [reflexivity|].
    now left.
  - destruct (IH more e d i eq_refl Hin Hv) as [g [G1 G2]].
    exists g. split; [exact G1|].
    destruct (val (ShiftVar e0 d0 i0) =? 1).
    + destruct (nth_error SHIFT_TEMPLATES i0); [|discriminate].
      apply Ok_inj in H. subst generated. now right.
    + apply Ok_inj in H. subst generated. exact G2.
Qed.

(** X26: locked shifts are honoured.  For every solver whose successful
    answers satisfy the model, when [optimize] returns any shift at all
    it returns the shift of every lock passed in: same employee, the day
    of the lock in the week, and the hours and break of the locked
    template. *)
Theorem locked_shifts_are_emitted :
  forall solver db fdb today store_id week_start locked_shifts
         manual_overrides l,
    solver_sound solver ->
    opt_shifts (optimize solver db fdb today store_id week_start
                  locked_shifts manual_overrides) <> [] ->
    In l locked_shifts ->
    exists g,
      from_lock week_start l g
      /\ g_employee_id g = lk_employee_id l
      /\ g_date g = week_start + lk_day_index l
      /\ In g (opt_shifts (optimize solver db fdb today store_id week_start
                             locked_shifts manual_overrides)).
Proof.
  intros solver db fdb today sid ws locked overrides l Hsound Hne Hl.
  destruct (optimize_shifts_shape solver db fdb today sid ws locked
              overrides)
    as [E|[store [slots [sv [cs [generated [B [Hcp [Hx E]]]]]]]]];
    [contradiction|].
  rewrite E.
  destruct (build_constraints_shape _ _ _ _ _ _ _ B)
    as [sv0 [cs0 [c2 [c3 [I [F Ecs]]]]]].
  destruct (lock_fold_has locked
              (sv0, flat_map (override_constraints sv0) overrides) l Hl)
    as [K1 K2].
  rewrite F in K1, K2. cbn [fst snd] in K1, K2.
  assert (Hv : Value (solver (mkModel cs (build_objective sv slots)))
                 (ShiftVar (lk_employee_id l) (lk_day_index l)
                    (shift_template_idx l)) = 1).
  { eapply satisfies_EqConst; [apply Hsound; tauto|].
    cbn [constraints]. rewrite Ecs. apply in_or_app. now left. }
  destruct (extract_shifts_emits _ _ _ _ _ _ _ _ Hx K1 Hv) as [g [G1 G2]].
  exists g. destruct (shift_of_var_fields _ _ _ _ _ G1) as [F1 F2].
  repeat split; assumption.
Qed.

Lemma locked_optimize_result :
  optimize lock_solver db_locked fdb_locked monday 1 monday [monday_lock] []
  = mkOptResult FEASIBLE [locked_generated].
Proof.
  destruct locked_build as [sv [cs [B [Hc [Hk [Hst Hex]]]]]].
  destruct (locked_store_has_demand monday) as [fdb' [slot [slots D]]].
  unfold optimize.
  change (store_by_id db_locked 1) with (Some store_one). cbv iota.
  change (_get_employees db_locked 1) with [mkEmployee 1 1 1 ACTIVE] in *.
  cbv iota. unfold optimize_body.
  change (st_id store_one) with 1. rewrite D. cbn [bind snd].
  rewrite B. cbn [bind]. rewrite lock_solver_ignores_objective.
  rewrite Hst, Hex. reflexivity.
Qed.

Lemma locked_shifts_are_emitted_witness :
  exists g,
    from_lock monday monday_lock g
    /\ In g (opt_shifts (optimize lock_solver db_locked fdb_locked monday 1
                           monday [monday_lock] [])).
Proof.
  destruct (locked_shifts_are_emitted lock_solver db_locked fdb_locked monday
              1 monday [monday_lock] [] monday_lock lock_solver_sound)
    as [g [G1 [_ [_ G2]]]].
  - rewrite locked_optimize_result. discriminate.
  - now left.
  - exists g. split; assumption.
Defined.

(** ** X27 *)

Lemma next_id_above l i : In i l -> i < next_id l.
Proof.
  unfold next_id. induction l as [|a l IH]; [intros []|].
  cbn [fold_right]. intros [<-|H]; [lia|]. specialize (IH H). lia.
Qed.

Lemma next_shift_id_fresh db :
  ~ In (Some (next_shift_id db)) (map sh_id (shifts db)).
Proof.
  intro H. unfold next_shift_id in H.
  assert (Hin : In (next_id (some_ids (map sh_id (shifts db))))
                  (some_ids (map sh_id (shifts db)))).
  { unfold some_ids at 2. apply in_flat_map.
    exists (Some (next_id (some_ids (map sh_id (shifts db))))).
    split; [exact H|now left]. }
  apply next_id_above in Hin. lia.
Qed.

Lemma insert_generated_spec l : forall db sid db' rows,
  insert_generated db sid l = (db', rows) ->
  shifts db' = shifts db ++ rows
  /\ schedules db' = schedules db
  /\ map shift_columns rows = map (generated_columns sid) l
  /\ (NoDup (map sh_id (shifts db)) -> NoDup (map sh_id (shifts db'))).
Proof.
  induction l as [|g l IH]; intros db sid db' rows H.
  - simpl in H. inversion H; subst. rewrite app_nil_r. auto.
  - cbn [insert_generated] in H. unfold insert_shift in H.
    set (row := set_id (mkShift None sid (g_employee_id g) (g_date g)
                          (g_start_time g) (g_end_time g)
                          (g_break_minutes g) SCHEDULED None None None None)
                  (next_shift_id db)) in *.
    destruct (insert_generated (with_shifts db (shifts db ++ [row])) sid l)
      as [db2 rows2] eqn:E.
    inversion H; subst db' rows. clear H.
    destruct (IH _ _ _ _ E) as [I1 [I2 [I3 I4]]].
    cbn [shifts schedules with_shifts] in I1, I2, I4.
    split; [rewrite I1, <- app_assoc; reflexivity|].
    split; [exact I2|]. split; [cbn [map]; rewrite I3; reflexivity|].
    intro Hn. apply I4. rewrite map_app. apply NoDup_app.
    + exact Hn.
    + constructor; [intros []|constructor].
    + intros a Ha [<-|[]]. unfold row in Ha. cbn [set_id sh_id] in Ha.
      exact (next_shift_id_fresh db Ha).
Qed.

Lemma columns_schedule_id sid l rows :
  map shift_columns rows = map (generated_columns sid) l ->
  forall r, In r rows -> sh_schedule_id r = sid.
Proof.
  revert l. induction rows as [|a rows IH]; intros l H r Hr; [destruct Hr|].
  destruct l as [|g l]; [discriminate|]. cbn [map] in H.
  injection H as Hhead Htail.
  destruct Hr as [<-|Hr]; [|eapply IH; eauto].
  unfold shift_columns, generated_columns in Hhead.
  inversion Hhead. reflexivity.
Qed.

(** X27: [apply_schedule] replaces the shifts of the draft schedule of
    the store's week, creating the draft when there is none.  Afterwards
    the schedule it returns is a stored draft of that store and week, its
    shifts are exactly the generated ones, in order and with status
    scheduled; the shifts of other schedules are as before; shift ids
    stay distinct and every shift still refers to a stored schedule. *)
Theorem apply_schedule_replaces_the_draft :
  forall db store_id week_start l user db' sc rows,
    unique_shift_ids db ->
    shifts_reference_schedules db ->
    apply_schedule db store_id week_start l user = (db', sc, rows) ->
    In sc (schedules db')
    /\ sc_store_id sc = store_id
    /\ week_start_date sc = week_start
    /\ sc_status sc = DRAFT
    /\ filter (fun sh => sh_schedule_id sh =? sc_id sc) (shifts db') = rows
    /\ map shift_columns rows = map (generated_columns (sc_id sc)) l
    /\ filter (fun sh => negb (sh_schedule_id sh =? sc_id sc)) (shifts db')
       = filter (fun sh => negb (sh_schedule_id sh =? sc_id sc)) (shifts db)
    /\ unique_shift_ids db'
    /\ shifts_reference_schedules db'.
Proof.
  intros db sid ws l user db' sc rows Hu Hfk H.
  unfold apply_schedule, first in H.
  destruct (find _ (schedules db)) as [sc0|] eqn:F.
  - destruct (insert_generated _ (sc_id sc0) l) as [db2 rows2] eqn:E.
    inversion H; subst db' sc rows. clear H.
    destruct (insert_generated_spec _ _ _ _ _ E) as [I1 [I2 [I3 I4]]].
    cbn [shifts schedules with_shifts] in I1, I2, I4.
    pose proof (columns_schedule_id _ _ _ I3) as Hrows.
    apply find_some in F. destruct F as [Hin Hp].
    apply andb_true_iff in Hp. destruct Hp as [Hp Hst].
    apply andb_true_iff in Hp. destruct Hp as [Hs Hw].
    apply Z.eqb_eq in Hs, Hw.
    assert (Hd : sc_status sc0 = DRAFT)
      by (destruct (sc_status sc0); try discriminate; reflexivity).
    split; [rewrite I2; exact Hin|]. split; [exact Hs|].
    split; [exact Hw|]. split; [exact Hd|].
    split.
    { rewrite I1, filter_app.
      rewrite (filter_negb_filter (fun sh => sh_schedule_id sh =? sc_id sc0)).
      cbn [app]. apply filter_all. intros r Hr.
      rewrite (Hrows r Hr). apply Z.eqb_refl. }
    split; [exact I3|].
    split.
    { rewrite I1, filter_app.
      rewrite (filter_idem
                 (fun sh => negb (sh_schedule_id sh =? sc_id sc0))).
      rewrite (filter_none _ rows2); [apply app_nil_r|].
      intros r Hr. rewrite (Hrows r Hr), Z.eqb_refl. reflexivity. }
    split.
    { apply I4. apply NoDup_map_filter. exact Hu. }
    intros sh Hsh. rewrite I1 in Hsh. rewrite I2.
    apply in_app_or in Hsh. destruct Hsh as [Hsh|Hsh].
    + apply filter_In in Hsh. apply Hfk. tauto.
    + exists sc0. rewrite (Hrows sh Hsh). auto.
  - set (new := mkSchedule (next_schedule_id db) sid ws DRAFT user None) in *.
    destruct (insert_generated _ (sc_id new) l) as [db2 rows2] eqn:E.
    inversion H; subst db' sc rows. clear H.
    destruct (insert_generated_spec _ _ _ _ _ E) as [I1 [I2 [I3 I4]]].
    cbn [shifts schedules with_schedules] in I1, I2, I4.
    pose proof (columns_schedule_id _ _ _ I3) as Hrows.
    assert (Hold : forall sh, In sh (shifts db) ->
              (sh_schedule_id sh =? sc_id new) = false).
    { intros sh Hsh. destruct (Hfk sh Hsh) as [sc' [Hsc' Hid]].
      apply Z.eqb_neq. cbn [sc_id new]. unfold new, next_schedule_id.
      cbn [sc_id].
      assert (sc_id sc' < next_id (map sc_id (schedules db)))
        by (apply next_id_above, in_map; exact Hsc').
      lia. }
    split; [rewrite I2; apply in_or_app; right; now left|].
    split; [reflexivity|]. split; [reflexivity|]. split; [reflexivity|].
    split.
    { rewrite I1, filter_app. rewrite (filter_none _ (shifts db) Hold).
      cbn [app]. apply filter_all. intros r Hr.
      rewrite (Hrows r Hr). apply Z.eqb_refl. }
    split; [exact I3|].
    split.
    { rewrite I1, filter_app.
      rewrite (filter_none _ rows2); [apply app_nil_r|].
      intros r Hr. rewrite (Hrows r Hr), Z.eqb_refl. reflexivity. }
    split; [apply I4; exact Hu|].
    intros sh Hsh. rewrite I1 in Hsh. rewrite I2.
    apply in_app_or in Hsh. destruct Hsh as [Hsh|Hsh].
    + destruct (Hfk sh Hsh) as [sc' [A B]]. exists sc'.
      split; [apply in_or_app; now left|exact B].
    + exists new. rewrite (Hrows sh Hsh).
      split; [apply in_or_app; right; now left|reflexivity].
Qed.

Lemma apply_schedule_replaces_the_draft_witness :
  map shift_columns
    (filter (fun sh => sh_schedule_id sh =? 1)
       (shifts (fst (fst (apply_schedule db_full_day 1 monday
                            [locked_generated] 1)))))
  = [generated_columns 1 locked_generated].
Proof.
  destruct (apply_schedule_replaces_the_draft db_full_day 1 monday
              [locked_generated] 1
              (fst (fst (apply_schedule db_full_day 1 monday
                           [locked_generated] 1)))
              full_day_schedule
              (snd (apply_schedule db_full_day 1 monday [locked_generated] 1)))
    as [_ [_ [_ [_ [H1 [H2 _]]]]]].
  - unfold unique_shift_ids. simpl. constructor; [intros []|constructor].
  - intros sh [<-|[]]. exists full_day_schedule. split; [now left|reflexivity].
  - reflexivity.
  - change (sc_id full_day_schedule) with 1 in H1, H2.
    rewrite H1. exact H2.
Defined.

(** ** X28 *)

Section ColdStart.
Local Open Scope R_scope.

Lemma run_method_nil method target_date :
  fst (fst (run_method method [] target_date)) = 0.
Proof.
  destruct method; cbn [run_method _simple_average _weighted_average
                          _exponential_smoothing _ensemble_forecast fst];
    try reflexivity.
  lra.
Qed.

Lemma forecast_hour_no_data d hour method :
  hf_predicted_orders (forecast_hour d hour method []) = 0.
Proof.
  unfold forecast_hour. cbn [historical_get first find].
  pose proof (run_method_nil method d) as H.
  destruct (run_method method [] d) as [[p lo] hi]. cbn [fst] in H.
  cbn [hf_predicted_orders]. subst p. apply R_round_0.
Qed.

Lemma R_round_1 : R_round 1 2 = 1.
Proof.
  unfold R_round. rewrite Rmult_1_l, R_round_half_even_IZR.
  change (10 ^ Z.of_nat 2)%Z with 100%Z. lra.
Qed.

Lemma daily_pattern_low k : 85 / 100 <= daily_pattern k.
Proof.
  unfold daily_pattern.
  repeat match goal with
         | |- context [match ?x with _ => _ end] => destruct x
         end; lra.
Qed.

Lemma hourly_pattern_low hour : hour <> 21%Z -> 2 / 100 <= hourly_pattern hour.
Proof.
  unfold hourly_pattern. intro H.
  repeat match goal with
         | |- context [match ?x with _ => _ end] => destruct x
         end; try lra; exfalso; apply H; reflexivity.
Qed.

Lemma default_hourly_positive d hour :
  hour <> 21%Z -> 1 <= hf_predicted_orders (default_hourly d hour).
Proof.
  intro H. unfold default_hourly. cbn [hf_predicted_orders].
  rewrite <- R_round_1. apply R_round_mono.
  pose proof (daily_pattern_low (weekday d)) as H1.
  pose proof (hourly_pattern_low hour H) as H2.
  nra.
Qed.

Lemma default_days_shape sh eh days : forall daily h,
  default_days sh eh days = Ok daily ->
  In h (flat_map hourly_forecasts daily) ->
  exists d hour, h = default_hourly d hour.
Proof.
  induction days as [|t days IH]; simpl; intros daily h H Hin.
  - apply Ok_inj in H. subst. destruct Hin.
  - destruct (max_by _ _); [|discriminate].
    destruct (default_days sh eh days) as [more|]; [|discriminate].
    cbn [bind] in H. apply Ok_inj in H. subst daily.
    cbn [flat_map hourly_forecasts] in Hin. apply in_app_or in Hin.
    destruct Hin as [Hin|Hin].
    + apply in_map_iff in Hin. destruct Hin as [hour [<- _]]. eauto.
    + eapply IH; eauto.
Qed.

(** X28: for a store without history, [POST /forecasts/generate] with
    [save_to_db] returns one forecast and stores another.  The forecast
    returned is the default pattern, where every hour other than 21 is
    predicted at least one order; the rows stored for the week are those
    of [forecast_week], and all of them predict 0 orders. *)
Theorem cold_start_stores_zero_forecast :
  forall db fdb today request method store,
    store_by_id db (fr_store_id request) = Some store ->
    weekday (fr_week_start request) = 0%Z ->
    parse_method (fr_method request) = Some method ->
    no_history fdb (fr_store_id request) ->
    (start_hour_of store 8 < end_hour_of store 22)%Z ->
    save_to_db request = true ->
    exists fdb' forecast,
      generate_forecast db fdb today request = Ok (fdb', forecast)
      /\ wf_method forecast = "default_pattern"%string
      /\ (forall h, In h (all_hourly forecast) ->
                    hf_hour h <> 21%Z -> 1 <= hf_predicted_orders h)
      /\ (exists f,
             In f (order_forecasts fdb')
             /\ forecast_in_week (fr_store_id request)
                  (fr_week_start request) f = true)
      /\ (forall f,
             In f (order_forecasts fdb') ->
             forecast_in_week (fr_store_id request) (fr_week_start request) f
             = true ->
             predicted_orders f = 0).
Proof.
  intros db fdb today rq m store S W P Hno Hlt Hsave.
  unfold generate_forecast. rewrite S, W, P. cbn [negb Z.eqb].
  unfold no_history in Hno. rewrite Hno. cbn [length Nat.eqb].
  unfold generate_default_forecast at 1. rewrite S.
  destruct (default_days_returns _ _ (week_dates (fr_week_start rq)) Hlt)
    as [daily [Hd Hdates]].
  rewrite Hd. cbn [bind uncaught]. rewrite Hsave.
  destruct (forecast_week_found db fdb today (fr_store_id rq)
              (fr_week_start rq) m store S W) as [warns Hfound].
  unfold save_forecast. rewrite Hfound. cbn [bind uncaught fst].
  rewrite (no_history_no_data fdb today (fr_store_id rq) Hno).
  cbn [daily_forecasts].
  eexists. eexists. split; [reflexivity|].
  cbn [wf_method order_forecasts]. split; [reflexivity|]. split.
  { intros h Hh Hhour. unfold all_hourly in Hh. cbn [daily_forecasts] in Hh.
    destruct (default_days_shape _ _ _ _ _ Hd Hh) as [d [hour ->]].
    apply default_hourly_positive. exact Hhour. }
  assert (Hrange : exists x l,
             range (start_hour_of store 8) (end_hour_of store 22) = x :: l).
  { unfold range.
    destruct (Z.to_nat (end_hour_of store 22 - start_hour_of store 8))
      eqn:E; [lia|]. simpl. eauto. }
  split.
  - destruct Hrange as [x [l Hr]].
    exists (mkOrderForecast (fr_store_id rq) (fr_week_start rq) x
              (hf_predicted_orders
                 (forecast_hour (fr_week_start rq) x m [])) None).
    split.
    + apply in_or_app. right. apply in_flat_map.
      exists (make_daily (fr_week_start rq)
                (map (fun hour => forecast_hour (fr_week_start rq) hour m [])
                   (range (start_hour_of store 8) (end_hour_of store 22)))).
      split.
      * apply in_map_iff. exists (fr_week_start rq). split; [reflexivity|].
        apply week_dates_In. lia.
      * unfold make_daily. cbn [hourly_forecasts]. rewrite Hr.
        cbn [map]. left. rewrite forecast_hour_date, forecast_hour_hour.
        reflexivity.
    + unfold forecast_in_week. cbn [of_store_id of_date].
      rewrite Z.eqb_refl, Z.leb_refl.
      rewrite (proj2 (Z.leb_le _ _)) by lia. reflexivity.
  - intros f Hf Hwk. apply in_app_or in Hf. destruct Hf as [Hf|Hf].
    + exfalso. apply filter_In in Hf. destruct Hf as [_ Hf].
      fold (forecast_in_week (fr_store_id rq) (fr_week_start rq) f) in Hf.
      rewrite Hwk in Hf. discriminate.
    + apply in_flat_map in Hf. destruct Hf as [day [Hday Hf]].
      apply in_map_iff in Hday. destruct Hday as [d [<- _]].
      unfold make_daily in Hf. cbn [hourly_forecasts] in Hf.
      apply in_map_iff in Hf. destruct Hf as [h [<- Hh]].
      apply in_map_iff in Hh. destruct Hh as [hour [<- _]].
      cbn [predicted_orders]. apply forecast_hour_no_data.
Qed.

Lemma cold_start_stores_zero_forecast_witness :
  exists fdb' forecast,
    generate_forecast db_store_only fdb_none monday
      (mkForecastRequest 1 monday "ensemble" true) = Ok (fdb', forecast)
    /\ wf_method forecast = "default_pattern"%string
    /\ forall f,
         In f (order_forecasts fdb') ->
         forecast_in_week 1 monday f = true ->
         predicted_orders f = 0.
Proof.
  destruct (cold_start_stores_zero_forecast db_store_only fdb_none monday
              (mkForecastRequest 1 monday "ensemble" true) ENSEMBLE store_one
              eq_refl eq_refl eq_refl eq_refl eq_refl eq_refl)
    as [fdb' [forecast [H1 [H2 [_ [_ H3]]]]]].
  exists fdb', forecast. split; [exact H1|]. split; [exact H2|exact H3].
Defined.

End ColdStart.

(** ** C7 *)

Section EnsembleRounding.
Import PrimFloat.
Local Open Scope float_scope.
#[local] Set Warnings "-inexact-float".

(** C7: the ensemble forecast leaves the bounds it is specified with.
    On one sample of 47 orders dated on the forecast day the three
    constituent methods all predict 47.0, and the ensemble predicts
    47.00000000000001, which is above the maximum of the three.  On the
    same sample stored twice the ensemble returns the prediction
    47.00000000000001 with the confidence interval [47.0, 47.0]: the
    prediction is above [ci_high].  This holds for every power function
    that has the two special cases of CPython's [float_pow]. *)
Theorem ensemble_point_leaves_its_bounds :
  forall float_pow : float -> float -> float,
    (forall x, float_pow x 0 = 1) ->
    float_pow 0 2 = 0 ->
    (Binary64._simple_average float_pow single_sample = (47, 32.9, 61.1)
     /\ Binary64._weighted_average float_pow single_sample monday
        = (47, 32.9, 61.1)
     /\ Binary64._exponential_smoothing single_sample = (47, 32.9, 61.1)
     /\ Binary64._ensemble_forecast float_pow single_sample monday
        = (47.00000000000001, 32.9, 61.1)
     /\ (Binary64.max3 47 47 47 <? 47.00000000000001) = true)
    /\ (Binary64._ensemble_forecast float_pow repeated_sample monday
        = (47.00000000000001, 47, 47)
        /\ (47 <? 47.00000000000001) = true).
Proof.
  intros float_pow H0 H2.
  assert (W1 : Binary64._weighted_average float_pow single_sample monday
               = (47, 32.9, 61.1)).
  { vm_compute. rewrite !H0. vm_compute. reflexivity. }
  assert (S2 : Binary64._simple_average float_pow repeated_sample
               = (47, 47, 47)).
  { vm_compute. rewrite !H2. vm_compute. reflexivity. }
  assert (W2 : Binary64._weighted_average float_pow repeated_sample monday
               = (47, 47, 47)).
  { vm_compute. rewrite !H0. vm_compute. rewrite !H2. vm_compute.
    reflexivity. }
  split.
  - split; [vm_compute; reflexivity|]. split; [exact W1|].
    split; [vm_compute; reflexivity|]. split; [|vm_compute; reflexivity].
    unfold Binary64._ensemble_forecast. rewrite W1.
    vm_compute. reflexivity.
  - split; [|vm_compute; reflexivity].
    unfold Binary64._ensemble_forecast. rewrite S2, W2.
    vm_compute. reflexivity.
Qed.

Lemma ensemble_point_leaves_its_bounds_witness :
  Binary64._ensemble_forecast pow_special_cases repeated_sample monday
  = (47.00000000000001, 47, 47).
Proof.
  exact (proj1 (proj2 (ensemble_point_leaves_its_bounds pow_special_cases
                         (fun x => eq_refl) eq_refl))).
Defined.

End EnsembleRounding.
